(** * Analytics aggregation of the dashboard (AnalyticsView.tsx)

    A shallow embedding of the four builders of
    [src/components/analytics/AnalyticsView.tsx]:
    [generateLeaderboardData], [generatePerformanceData],
    [generateTrendData] and [generateCompositionData], followed by the
    properties the specification states about them, and of the code
    around them ([fetchAnalyticsData], the dashboard cards, the list of
    reports and the recent activity).

    Conventions of the embedding.
    - A score, a mean and every number computed from them is a double of
      the language, embedded as a primitive binary64 [float]: sums are
      taken in the order the code takes them and every operation rounds as
      the language does.  Counts are natural numbers.
    - An object used as a dictionary is the list of its own properties in
      creation order; [Object_entries] enumerates them the way the language
      does (array indices first, ascending, then the other keys in creation
      order).  Reading [o[k]] goes through [lookup], which also finds what
      every object inherits from [Object.prototype].
    - The page is described while [Object.prototype] is as the language
      defines it.  A builder completes normally, throws, or ends as
      [Untracked] when it reads or writes a property of an object outside
      this description (a built-in function object, or [Object.prototype]
      itself being written).
    - [Math.random] and the React state setters act on an explicit
      [Component] state. *)

From Stdlib Require Import List String Ascii ZArith NArith QArith.
From Stdlib Require Import Bool Lia Lqa Permutation Sorted DecimalString.
From Stdlib Require Import Floats.
From Stdlib Require Uint63.
Import ListNotations.

Local Open Scope string_scope.
Local Open Scope list_scope.

Set Warnings "-inexact-float".

(* ================================================================= *)
(** ** Numbers *)

(** [!x] for a possibly absent string: [null], [undefined] and the empty
    string are falsy. *)
Definition truthy_string (s : option string) : bool :=
  match s with
  | Some (String _ _) => true
  | _ => false
  end.

(** [!x] for a possibly absent number: [null], [0], [-0] and [NaN] are
    falsy. *)
Definition truthy_number (x : option float) : bool :=
  match x with
  | Some q => negb (PrimFloat.eqb q 0 || PrimFloat.is_nan q)
  | None => false
  end.

(** [floor (n * 2^e + 1/2)], in integers. *)
Definition round_half_up (n e : Z) : Z :=
  if (0 <=? e)%Z then (n * 2 ^ e)%Z
  else ((2 * n + 2 ^ (- e)) / 2 ^ (1 - e))%Z.

(** The double that is the integer [z], for [|z| < 2^53]. *)
Definition Number_of_Z (z : Z) : float :=
  if (z <? 0)%Z then PrimFloat.opp (PrimFloat.of_uint63 (Uint63.of_Z (- z)))
  else PrimFloat.of_uint63 (Uint63.of_Z z).

(** The length of an array as a number. *)
Definition Number_of_nat (n : nat) : float := Number_of_Z (Z.of_nat n).

(** [Math.round]: the nearest integer, a half rounding up, computed on the
    exact value [m * 2^e] of the double.  A double with [0 <= e] is an
    integer already; [NaN], the infinities and the zeros are returned as
    they are; a result of zero keeps the sign of a negative argument. *)
Definition Math_round (x : float) : float :=
  match Prim2SF x with
  | S754_finite s m e =>
      if (0 <=? e)%Z then x
      else
        let z := round_half_up (cond_Zopp s (Zpos m)) e in
        if (z =? 0)%Z then (if s then (-0)%float else 0%float)
        else Number_of_Z z
  | _ => x
  end.

Definition decimal (n : Z) : string :=
  NilZero.string_of_uint (N.to_uint (Z.to_N n)).

Fixpoint strip_zeros (reversed : list ascii) : list ascii :=
  match reversed with
  | "0"%char :: t => strip_zeros t
  | _ => reversed
  end.

(** The digits of [n] without its trailing zeros. *)
Definition significant (n : Z) : string :=
  string_of_list_ascii
    (rev (strip_zeros (rev (list_ascii_of_string (decimal n))))).

(** Of the two multiples of [p] around [x], the one that reads back as the
    same double ([inside]); when both do, the closer one, and the one with
    the even multiplier when they are equally close. *)
Definition pick (x p : Z) (inside : Z -> bool) : option Z :=
  let s := (x / p)%Z in
  let lo := (s * p)%Z in
  let hi := ((s + 1) * p)%Z in
  match inside lo, inside hi with
  | true, true =>
      Some (if (x - lo <? hi - x)%Z then lo
            else if (hi - x <? x - lo)%Z then hi
            else if Z.even s then lo else hi)
  | true, false => Some lo
  | false, true => Some hi
  | false, false => None
  end.

Fixpoint shortest_from (x : Z) (inside : Z -> bool) (digits : nat)
  (ks : list nat) : Z :=
  match ks with
  | [] => x
  | k :: t =>
      match pick x (10 ^ Z.of_nat (digits - k)) inside with
      | Some v => v
      | None => shortest_from x inside digits t
      end
  end.

(** The decimal number with the fewest significant digits that reads back
    as the double [m * 2^e], for a double of at least [10^21] (an integer
    whose neighbours are [2^e] away, [2^(e-1)] below a power of two). *)
Definition shortest (m : positive) (e : Z) : Z :=
  let x := (Zpos m * 2 ^ e)%Z in
  let up := (2 ^ (e - 1))%Z in
  let down := if (Zpos m =? 2 ^ 52)%Z then (2 ^ (e - 2))%Z else up in
  let inside v :=
    if Z.even (Zpos m) then ((x - down <=? v) && (v <=? x + up))%Z
    else ((x - down <? v) && (v <? x + up))%Z in
  shortest_from x inside (String.length (decimal x)) (seq 1 17).

(** [x.toString()] for a double of at least [10^21]: exponential notation
    with the shortest digits. *)
Definition toString_large (m : positive) (e : Z) : string :=
  let v := shortest m e in
  let exponent := decimal (Z.of_nat (String.length (decimal v) - 1)) in
  match significant v with
  | String c EmptyString => String c ("e+" ++ exponent)%string
  | String c rest => String c ("." ++ rest ++ "e+" ++ exponent)%string
  | EmptyString => ""
  end.

(** The double [m * 2^e] is at least [10^21]. *)
Definition large (m : positive) (e : Z) : bool :=
  ((0 <=? e) && (10 ^ 21 <=? Zpos m * 2 ^ e))%Z.

(** The integer [n] of [Number.prototype.toFixed] for one fraction digit,
    taken on the absolute value [m * 2^e]: [n / 10] is as close as possible
    to it, the larger [n] when two are equally close. *)
Definition tenths (m : positive) (e : Z) : Z := round_half_up (10 * Zpos m) e.

(** [x.toFixed(1)]: sign, integer digits, a dot, one fraction digit; from
    [10^21] on the language falls back to [toString]. *)
Definition toFixed_1 (x : float) : string :=
  match Prim2SF x with
  | S754_nan => "NaN"
  | S754_infinity s => if s then "-Infinity" else "Infinity"
  | S754_zero _ => "0.0"
  | S754_finite s m e =>
      ((if s then "-" else "")
       ++ (if large m e then toString_large m e
           else
             let d := decimal (tenths m e) in
             let d := if (String.length d <=? 1)%nat then "0" ++ d else d in
             let k := String.length d in
             substring 0 (k - 1) d ++ "." ++ substring (k - 1) 1 d))%string
  end.

(** [Number(x.toFixed(1))]: the double nearest to the decimal written by
    [toFixed_1], that is the correctly rounded quotient [n / 10]. *)
Definition Number_toFixed_1 (x : float) : float :=
  match Prim2SF x with
  | S754_zero _ => 0%float
  | S754_finite s m e =>
      if large m e then x
      else
        match tenths m e with
        | Zpos n =>
            SF2Prim (SF64div (S754_finite s n 0) (S754_finite false 10 0))
        | _ => if s then (-0)%float else 0%float
        end
  | _ => x
  end.

(** [xs.reduce((sum, x) => sum + x, 0)]. *)
Definition reduce_sum (xs : list float) : float :=
  fold_left (fun sum x => (sum + x)%float) xs 0%float.

(** [xs.reduce((sum, x) => sum + x, 0) / xs.length].  The builders divide
    by the length of a list that holds at least the score it was created
    for ([group_scores_nonempty], [cells_nonempty]). *)
Definition average (xs : list float) : float :=
  (reduce_sum xs / Number_of_nat (List.length xs))%float.

(* ================================================================= *)
(** ** Objects used as dictionaries *)

Definition JSObject (V : Type) : Type := list (string * V).

(** The own property [k] of [o]. *)
Fixpoint prop_get {V : Type} (k : string) (o : JSObject V) : option V :=
  match o with
  | [] => None
  | (k', v) :: o' => if String.eqb k' k then Some v else prop_get k o'
  end.

(** [o[k] = v]: an existing property keeps its place, a new one comes last. *)
Fixpoint prop_set {V : Type} (k : string) (v : V) (o : JSObject V)
  : JSObject V :=
  match o with
  | [] => [(k, v)]
  | (k', v') :: o' =>
      if String.eqb k' k then (k', v) :: o' else (k', v') :: prop_set k v o'
  end.

(** In-place mutation of the value held at [k] ([o[k].push(..)],
    [o[k].n++]); nothing happens when [k] is not a property. *)
Fixpoint prop_update {V : Type} (k : string) (f : V -> V) (o : JSObject V)
  : JSObject V :=
  match o with
  | [] => []
  | (k', v') :: o' =>
      if String.eqb k' k then (k', f v') :: o'
      else (k', v') :: prop_update k f o'
  end.

Definition digit_of (c : ascii) : option N :=
  let n := N_of_ascii c in
  if ((48 <=? n) && (n <=? 57))%N then Some (n - 48)%N else None.

Fixpoint digits_value (s : string) (acc : N) : option N :=
  match s with
  | EmptyString => Some acc
  | String c s' =>
      match digit_of c with
      | Some d => digits_value s' (acc * 10 + d)%N
      | None => None
      end
  end.

(** A property key is an array index when it is the canonical decimal
    writing of an integer below [2^32 - 1]. *)
Definition array_index (k : string) : option N :=
  match k with
  | EmptyString => None
  | String c rest =>
      if Ascii.eqb c "0" && negb (String.eqb rest "") then None
      else
        match digits_value k 0 with
        | Some n => if (n <? 4294967295)%N then Some n else None
        | None => None
        end
  end.

Definition is_index (k : string) : bool :=
  match array_index k with Some _ => true | None => false end.

Definition index_value (k : string) : N :=
  match array_index k with Some n => n | None => 0%N end.

Fixpoint insert_ascending {A : Type} (key : A -> string) (x : A)
  (l : list A) : list A :=
  match l with
  | [] => [x]
  | y :: t =>
      if (index_value (key x) <=? index_value (key y))%N then x :: y :: t
      else y :: insert_ascending key x t
  end.

(** The order in which the own string keys of an ordinary object are
    enumerated: array indices in ascending numeric order, then every other
    key in creation order. *)
Definition enumeration_order {A : Type} (key : A -> string) (l : list A)
  : list A :=
  fold_right (insert_ascending key) [] (filter (fun x => is_index (key x)) l)
    ++ filter (fun x => negb (is_index (key x))) l.

(** [Object.entries(o)]. *)
Definition Object_entries {V : Type} (o : JSObject V) : list (string * V) :=
  enumeration_order fst o.

(** [xs.map((x, index) => f x index)], counting from [i]. *)
Fixpoint map_index {A B : Type} (f : A -> nat -> B) (i : nat) (l : list A)
  : list B :=
  match l with
  | [] => []
  | x :: t => f x i :: map_index f (S i) t
  end.

(** The names of the properties that every object inherits from
    [Object.prototype]: eleven built-in functions and the accessor
    [__proto__]. *)
Definition Object_prototype_names : list string :=
  [ "constructor"; "__defineGetter__"; "__defineSetter__"; "hasOwnProperty";
    "__lookupGetter__"; "__lookupSetter__"; "isPrototypeOf";
    "propertyIsEnumerable"; "toString"; "valueOf"; "__proto__";
    "toLocaleString" ].

Definition inherited (k : string) : bool :=
  existsb (String.eqb k) Object_prototype_names.

(** What reading [o[k]] finds on an object created by [{}]: an own
    property, a built-in function of [Object.prototype], [Object.prototype]
    itself (for [__proto__]), or nothing. *)
Inductive Lookup (V : Type) : Type :=
  | Own (v : V)
  | Builtin (name : string)
  | ObjectPrototype
  | Undefined.

Arguments Own {V} _.
Arguments Builtin {V} _.
Arguments ObjectPrototype {V}.
Arguments Undefined {V}.

Definition lookup {V : Type} (k : string) (o : JSObject V) : Lookup V :=
  match prop_get k o with
  | Some v => Own v
  | None =>
      if String.eqb k "__proto__" then ObjectPrototype
      else if inherited k then Builtin k
      else Undefined
  end.

(** How a piece of code ends: normally with a value, by throwing, or
    outside what this description follows. *)
Inductive Completion (A : Type) : Type :=
  | Normal (a : A)
  | Throw (e : string)
  | Untracked.

Arguments Normal {A} _.
Arguments Throw {A} _.
Arguments Untracked {A}.

(** What the engine throws when a method is called on [undefined] or on a
    value that has no such method, or when the prototype of
    [Object.prototype] is assigned. *)
Definition TypeError : string := "TypeError".

(** [xs.forEach(visit)] for a callback that mutates the local state [s]:
    the elements are visited in order, and a [throw] ends the loop. *)
Fixpoint forEach {S R : Type} (visit : S -> R -> Completion S) (rs : list R)
  (s : S) : Completion S :=
  match rs with
  | [] => Normal s
  | r :: t =>
      match visit s r with
      | Normal s' => forEach visit t s'
      | Throw e => Throw e
      | Untracked => Untracked
      end
  end.

Fixpoint sort_insert {A : Type} (cmp : A -> A -> float) (x : A) (l : list A)
  : list A :=
  match l with
  | [] => [x]
  | y :: t =>
      if (0 <? cmp x y)%float then y :: sort_insert cmp x t
      else x :: y :: t
  end.

(** [xs.sort(cmp)]: the sort of the language is stable, so for a consistent
    comparator the result is the one a stable insertion sort gives: [x]
    stays before a later [y] unless [cmp x y > 0] (a comparator that
    answers [NaN] is read as answering 0). *)
Definition Array_sort {A : Type} (cmp : A -> A -> float) (l : list A)
  : list A :=
  fold_right (sort_insert cmp) [] l.

(* ================================================================= *)
(** ** Report records *)

(** [new Date(created_at)] as [toLocaleDateString] reads it: the calendar
    year and month in local time, or an invalid date. *)
Inductive Month : Type :=
  | January | February | March | April | May | June
  | July | August | September | October | November | December.

Inductive Date : Type :=
  | InvalidDate
  | LocalDate (year : Z) (month : Month).

(** [date.toLocaleDateString('id-ID', { month: 'short' })]. *)
Definition toLocaleDateString_month_short (d : Date) : string :=
  match d with
  | InvalidDate => "Invalid Date"
  | LocalDate _ m =>
      match m with
      | January => "Jan" | February => "Feb" | March => "Mar"
      | April => "Apr" | May => "Mei" | June => "Jun"
      | July => "Jul" | August => "Agu" | September => "Sep"
      | October => "Okt" | November => "Nov" | December => "Des"
      end
  end.

Record Profile : Type := mkProfile {
  full_name : option string;
  sbu_name : option string
}.

(** One row of the [reports] query; [profiles] is the joined profile. *)
Record Report : Type := mkReport {
  id : string;
  status : string;
  calculated_score : option float;
  indicator_type : option string;
  created_at : Date;
  approved_at : option Date;
  profiles : option Profile
}.

(** [report.profiles?.sbu_name]. *)
Definition report_sbu_name (report : Report) : option string :=
  match profiles report with
  | Some p => sbu_name p
  | None => None
  end.

(* ================================================================= *)
(** ** Outputs and component state *)

Record SbuData : Type := mkSbuData {
  scores : list float;
  totalReports : nat
}.

Module Item.
(** An element of the leaderboard before sorting and ranking. *)
Record t : Type := mk {
  sbu : string;
  score : float;
  totalReports : nat;
  change : float
}.
End Item.

Record LeaderboardRow : Type := mkLeaderboardRow {
  rank : nat;
  sbu : string;
  score : float;
  change : string
}.

Inductive JSValue : Type :=
  | JNum (n : float)
  | JStr (s : string).

Module Bucket.
Record t : Type := mk {
  total : nat;
  approved : nat;
  rejected : nat
}.
End Bucket.

Record TrendPoint : Type := mkTrendPoint {
  month : string;
  total_laporan : nat;
  approved : nat;
  rejected : nat
}.

(** A value held in [indicatorCounts]: a count, or, once the key has named
    a built-in function, the string made of the source text of that
    function followed by the characters appended to it. *)
Inductive CountValue : Type :=
  | Count (n : nat)
  | Text (builtin : string) (appended : string).

Record CompositionSlice : Type := mkCompositionSlice {
  name : string;
  value : CountValue;
  color : string
}.

(** What the builders can read and write: the pseudo-random source behind
    [Math.random] (its successive results and how many were drawn) and the
    four pieces of React state. *)
Record Component : Type := mkComponent {
  random_source : nat -> float;
  random_calls : nat;
  leaderboardData : list LeaderboardRow;
  performanceComparisonData : list (JSObject JSValue);
  trendData : list TrendPoint;
  activityCompositionData : list CompositionSlice
}.

Definition Effect (A : Type) : Type := Component -> Completion A * Component.

Definition ret {A : Type} (a : A) : Effect A := fun c => (Normal a, c).

Definition bind {A B : Type} (m : Effect A) (k : A -> Effect B) : Effect B :=
  fun c =>
    let (r, c') := m c in
    match r with
    | Normal a => k a c'
    | Throw e => (Throw e, c')
    | Untracked => (Untracked, c')
    end.

Notation "x <- m ;; k" := (bind m (fun x => k))
  (at level 61, m at next level, right associativity).

(** A computation that does not touch the component. *)
Definition lift {A : Type} (r : Completion A) : Effect A := fun c => (r, c).

(** The component as the call leaves it. *)
Definition exec {A : Type} (m : Effect A) (c : Component) : Component :=
  snd (m c).

(** [xs.map(f)] for a callback with effects: elements are visited in order. *)
Fixpoint mapM {A B : Type} (f : A -> Effect B) (l : list A)
  : Effect (list B) :=
  match l with
  | [] => ret []
  | x :: t => y <- f x ;; ys <- mapM f t ;; ret (y :: ys)
  end.

Definition Math_random : Effect float :=
  fun c =>
    (Normal (random_source c (random_calls c)),
     mkComponent (random_source c) (S (random_calls c)) (leaderboardData c)
       (performanceComparisonData c) (trendData c)
       (activityCompositionData c)).

Definition setLeaderboardData (v : list LeaderboardRow) : Effect unit :=
  fun c =>
    (Normal tt,
     mkComponent (random_source c) (random_calls c) v
       (performanceComparisonData c) (trendData c)
       (activityCompositionData c)).

Definition setPerformanceComparisonData (v : list (JSObject JSValue))
  : Effect unit :=
  fun c =>
    (Normal tt,
     mkComponent (random_source c) (random_calls c) (leaderboardData c) v
       (trendData c) (activityCompositionData c)).

Definition setTrendData (v : list TrendPoint) : Effect unit :=
  fun c =>
    (Normal tt,
     mkComponent (random_source c) (random_calls c) (leaderboardData c)
       (performanceComparisonData c) v (activityCompositionData c)).

Definition setActivityCompositionData (v : list CompositionSlice)
  : Effect unit :=
  fun c =>
    (Normal tt,
     mkComponent (random_source c) (random_calls c) (leaderboardData c)
       (performanceComparisonData c) (trendData c) v).

(* ================================================================= *)
(** ** generateLeaderboardData *)

(** The body of [reports.forEach] in [generateLeaderboardData].  When
    [sbuScores[sbuName]] finds an inherited value the entry is not created,
    the [scores] of that value are [undefined] and calling [push] on them
    throws. *)
Definition leaderboard_visit (sbuScores : JSObject SbuData) (report : Report)
  : Completion (JSObject SbuData) :=
  let sbuName := report_sbu_name report in
  if negb (truthy_string sbuName)
     || negb (truthy_number (calculated_score report))
  then Normal sbuScores
  else
    match sbuName, calculated_score report with
    | Some sbuName, Some s =>
        match lookup sbuName sbuScores with
        | Builtin _ | ObjectPrototype => Throw TypeError
        | Own _ | Undefined =>
            let sbuScores :=
              match prop_get sbuName sbuScores with
              | None => prop_set sbuName (mkSbuData [] 0) sbuScores
              | Some _ => sbuScores
              end in
            let sbuScores :=
              prop_update sbuName
                (fun d => mkSbuData (scores d ++ [s]) (totalReports d))
                sbuScores in
            Normal
              (prop_update sbuName
                 (fun d => mkSbuData (scores d) (S (totalReports d)))
                 sbuScores)
        end
    | _, _ => Normal sbuScores
    end.

Definition sbuScores (reports : list Report) : Completion (JSObject SbuData) :=
  forEach leaderboard_visit reports [].

(** The first [.map]: one item per unit, drawing [Math.random] once. *)
Definition leaderboard_item (entry : string * SbuData) : Effect Item.t :=
  let (sbu, data) := entry in
  r <- Math_random ;;
  ret (Item.mk sbu (average (scores data)) (totalReports data)
         ((r - 0.5) * 5)%float).

(** The comparator [(a, b) => b.score - a.score]. *)
Definition by_score_descending (a b : Item.t) : float :=
  (Item.score b - Item.score a)%float.

(** The second [.map]: rank, unit, rounded score and signed change. *)
Definition leaderboard_row (item : Item.t) (index : nat) : LeaderboardRow :=
  mkLeaderboardRow (index + 1) (Item.sbu item)
    (Number_toFixed_1 (Item.score item))
    (if (0 <? Item.change item)%float
     then ("+" ++ toFixed_1 (Item.change item))%string
     else toFixed_1 (Item.change item)).

Definition generateLeaderboardData (reports : list Report) : Effect unit :=
  sbuScores <- lift (sbuScores reports) ;;
  items <- mapM leaderboard_item (Object_entries sbuScores) ;;
  let leaderboard :=
    map_index leaderboard_row 0 (Array_sort by_score_descending items) in
  setLeaderboardData leaderboard.

(* ================================================================= *)
(** ** generatePerformanceData *)

(** [if (!sbuData[sbuName]) sbuData[sbuName] = [];
    sbuData[sbuName].push(score)] on an own entry [sbuData] of
    [indicatorPerformance]: an inherited value is kept and has no [push]. *)
Definition performance_push (sbuName : string) (s : float)
  (sbuData : JSObject (list float)) : Completion (JSObject (list float)) :=
  match lookup sbuName sbuData with
  | Builtin _ | ObjectPrototype => Throw TypeError
  | Own _ | Undefined =>
      let sbuData :=
        match prop_get sbuName sbuData with
        | None => prop_set sbuName [] sbuData
        | Some _ => sbuData
        end in
      Normal (prop_update sbuName (fun l => l ++ [s]) sbuData)
  end.

(** The body of [reports.forEach] in [generatePerformanceData].  For the
    indicator [__proto__] the entry read is [Object.prototype]: its
    [__proto__] is [null] and cannot be assigned, its built-in functions
    have no [push], and any other unit name is written into
    [Object.prototype].  For an indicator named like a built-in function
    the entry read is that function object. *)
Definition performance_visit
  (indicatorPerformance : JSObject (JSObject (list float))) (report : Report)
  : Completion (JSObject (JSObject (list float))) :=
  let sbuName := report_sbu_name report in
  let indicator := indicator_type report in
  if negb (truthy_string sbuName) || negb (truthy_string indicator)
     || negb (truthy_number (calculated_score report))
  then Normal indicatorPerformance
  else
    match sbuName, indicator, calculated_score report with
    | Some sbuName, Some indicator, Some s =>
        match lookup indicator indicatorPerformance with
        | ObjectPrototype =>
            if inherited sbuName then Throw TypeError else Untracked
        | Builtin _ => Untracked
        | Own _ | Undefined =>
            let indicatorPerformance :=
              match prop_get indicator indicatorPerformance with
              | None => prop_set indicator [] indicatorPerformance
              | Some _ => indicatorPerformance
              end in
            match prop_get indicator indicatorPerformance with
            | Some sbuData =>
                match performance_push sbuName s sbuData with
                | Normal sbuData =>
                    Normal (prop_set indicator sbuData indicatorPerformance)
                | Throw e => Throw e
                | Untracked => Untracked
                end
            | None => Normal indicatorPerformance
            end
        end
    | _, _, _ => Normal indicatorPerformance
    end.

Definition indicatorPerformance (reports : list Report)
  : Completion (JSObject (JSObject (list float))) :=
  forEach performance_visit reports [].

(** The body of [Object.entries(sbuData).forEach]: it writes the unit's
    column into [result] and appends the unit's scores to [totalScores]. *)
Definition comparison_visit (acc : JSObject JSValue * list float)
  (entry : string * list float) : JSObject JSValue * list float :=
  let (result, totalScores) := acc in
  let (sbu, scores) := entry in
  let avgScore := average scores in
  (prop_set sbu (JNum (Math_round avgScore)) result, totalScores ++ scores).

(** The callback of [Object.entries(indicatorPerformance).map]. *)
Definition comparison_row (entry : string * JSObject (list float))
  : JSObject JSValue :=
  let (indicator, sbuData) := entry in
  let (result, totalScores) :=
    fold_left comparison_visit (Object_entries sbuData)
      ([("indicator", JStr indicator)], []) in
  prop_set "rata_rata"
    (JNum (if (0 <? List.length totalScores)%nat
           then Math_round (average totalScores)
           else 0%float))
    result.

Definition comparisonData
  (indicatorPerformance : JSObject (JSObject (list float)))
  : list (JSObject JSValue) :=
  map comparison_row (Object_entries indicatorPerformance).

Definition generatePerformanceData (reports : list Report) : Effect unit :=
  indicatorPerformance <- lift (indicatorPerformance reports) ;;
  setPerformanceComparisonData (comparisonData indicatorPerformance).

(* ================================================================= *)
(** ** generateTrendData *)

Definition monthKey (report : Report) : string :=
  toLocaleDateString_month_short (created_at report).

Definition is_approved (report : Report) : bool :=
  String.eqb (status report) "approved"
  || String.eqb (status report) "completed".

Definition is_rejected (report : Report) : bool :=
  String.eqb (status report) "rejected"
  || String.eqb (status report) "system_rejected".

(** The body of [reports.forEach] in [generateTrendData].  A month label
    is never the name of an inherited property, so [monthlyData[monthKey]]
    finds own properties only. *)
Definition trend_visit (monthlyData : JSObject Bucket.t) (report : Report)
  : JSObject Bucket.t :=
  let monthKey := monthKey report in
  let monthlyData :=
    match prop_get monthKey monthlyData with
    | None => prop_set monthKey (Bucket.mk 0 0 0) monthlyData
    | Some _ => monthlyData
    end in
  let monthlyData :=
    prop_update monthKey
      (fun b => Bucket.mk (S (Bucket.total b)) (Bucket.approved b)
                  (Bucket.rejected b)) monthlyData in
  if is_approved report then
    prop_update monthKey
      (fun b => Bucket.mk (Bucket.total b) (S (Bucket.approved b))
                  (Bucket.rejected b)) monthlyData
  else if is_rejected report then
    prop_update monthKey
      (fun b => Bucket.mk (Bucket.total b) (Bucket.approved b)
                  (S (Bucket.rejected b))) monthlyData
  else monthlyData.

Definition monthlyData (reports : list Report) : JSObject Bucket.t :=
  fold_left trend_visit reports [].

Definition trend_point (entry : string * Bucket.t) : TrendPoint :=
  let (month, data) := entry in
  mkTrendPoint month (Bucket.total data) (Bucket.approved data)
    (Bucket.rejected data).

Definition trendArray (reports : list Report) : list TrendPoint :=
  map trend_point (Object_entries (monthlyData reports)).

Definition generateTrendData (reports : list Report) : Effect unit :=
  setTrendData (trendArray reports).

(* ================================================================= *)
(** ** generateCompositionData *)

(** [report.indicator_type || 'Unknown']. *)
Definition composition_key (report : Report) : string :=
  if truthy_string (indicator_type report) then
    match indicator_type report with
    | Some s => s
    | None => "Unknown"
    end
  else "Unknown".

(** [n || 0] for a count. *)
Definition count_or_zero (n : nat) : nat := if (n =? 0)%nat then 0%nat else n.

(** The body of [reports.forEach] in [generateCompositionData]:
    [indicatorCounts[indicator] = (indicatorCounts[indicator] || 0) + 1].
    A count is incremented and a missing one starts at 1; a string has "1"
    appended, and so has the text of a built-in function found on
    [Object.prototype], which is then stored as an own property; for
    [__proto__] the string built from [Object.prototype] is handed to the
    setter of [__proto__], which ignores a value that is not an object. *)
Definition composition_visit (indicatorCounts : JSObject CountValue)
  (report : Report) : JSObject CountValue :=
  let indicator := composition_key report in
  match lookup indicator indicatorCounts with
  | Own (Count n) =>
      prop_set indicator (Count (count_or_zero n + 1)) indicatorCounts
  | Own (Text f s) =>
      prop_set indicator (Text f (s ++ "1")) indicatorCounts
  | Undefined => prop_set indicator (Count (0 + 1)) indicatorCounts
  | Builtin f => prop_set indicator (Text f "1") indicatorCounts
  | ObjectPrototype => indicatorCounts
  end.

Definition indicatorCounts (reports : list Report) : JSObject CountValue :=
  fold_left composition_visit reports [].

Definition colors : list string :=
  [ "hsl(var(--primary))";
    "hsl(var(--secondary))";
    "hsl(var(--accent))";
    "hsl(var(--desmon-primary))";
    "hsl(var(--desmon-secondary))" ].

Definition composition_slice (entry : string * CountValue) (index : nat)
  : CompositionSlice :=
  let (name, value) := entry in
  mkCompositionSlice name value
    (nth (index mod List.length colors) colors "").

Definition compositionArray (reports : list Report) : list CompositionSlice :=
  map_index composition_slice 0 (Object_entries (indicatorCounts reports)).

Definition generateCompositionData (reports : list Report) : Effect unit :=
  setActivityCompositionData (compositionArray reports).

(* ================================================================= *)
(** ** Vocabulary of the properties *)

(** The keys of a list in order of first occurrence. *)
Fixpoint first_seen (ks : list string) : list string :=
  match ks with
  | [] => []
  | k :: t => k :: filter (fun k' => negb (String.eqb k k')) (first_seen t)
  end.

(** Grouping as every builder performs it: a record with a key either
    creates the property (from [init]) or updates the value already there. *)
Definition group_step {R V : Type} (key : R -> option string) (init : V)
  (upd : R -> V -> V) (o : JSObject V) (r : R) : JSObject V :=
  match key r with
  | None => o
  | Some k =>
      match prop_get k o with
      | None => o ++ [(k, upd r init)]
      | Some _ => prop_update k (upd r) o
      end
  end.

Definition has_key {R : Type} (key : R -> option string) (k : string) (r : R)
  : bool :=
  match key r with
  | Some k' => String.eqb k' k
  | None => false
  end.

Definition keys_of {R : Type} (key : R -> option string) (rs : list R)
  : list string :=
  flat_map (fun r => match key r with Some k => [k] | None => [] end) rs.

Definition group_value {R V : Type} (key : R -> option string) (init : V)
  (upd : R -> V -> V) (k : string) (rs : list R) : V :=
  fold_left (fun v r => upd r v) (filter (has_key key k) rs) init.

(** The object a grouping loop leaves behind, written as a function of the
    input: one property per key, in order of first occurrence. *)
Definition grouped {R V : Type} (key : R -> option string) (init : V)
  (upd : R -> V -> V) (rs : list R) : JSObject V :=
  map (fun k => (k, group_value key init upd k rs))
    (first_seen (keys_of key rs)).

(** The mean of a list of doubles as the language computes it: the sum
    taken from the left, starting from 0, then divided by the number of
    elements. *)
Definition double_mean (l : list float) : float :=
  (fold_left PrimFloat.add l 0 / Number_of_nat (List.length l))%float.

(** The score of a record is present. *)
Definition is_scored (r : Report) : bool :=
  match calculated_score r with Some _ => true | None => false end.

(** The score of a record passes the guard of the builders. *)
Definition counted (r : Report) : bool := truthy_number (calculated_score r).

Definition has_unit (r : Report) : bool := truthy_string (report_sbu_name r).

Definition has_indicator (r : Report) : bool :=
  truthy_string (indicator_type r).

Definition unit_name (r : Report) : string :=
  match report_sbu_name r with Some s => s | None => "" end.

Definition indicator_name (r : Report) : string :=
  match indicator_type r with Some s => s | None => "" end.

Definition score_of (r : Report) : float :=
  match calculated_score r with Some q => q | None => 0%float end.

(** No record carries a score that the language reads as false: the
    score [0] (or [NaN], which a query never delivers). *)
Definition no_zero_score (reports : list Report) : Prop :=
  forallb (fun r => match calculated_score r with
                    | Some q => truthy_number (Some q)
                    | None => true
                    end) reports = true.

(** The records of unit [u] selected by [p] ([is_scored] or [counted]). *)
Definition unit_records (p : Report -> bool) (u : string)
  (reports : list Report) : list Report :=
  filter (fun r => has_unit r && p r && String.eqb (unit_name r) u) reports.

Definition unit_scores (p : Report -> bool) (u : string)
  (reports : list Report) : list float :=
  map score_of (unit_records p u reports).

Definition unit_mean (p : Report -> bool) (u : string)
  (reports : list Report) : float :=
  double_mean (unit_scores p u reports).

(** The units with at least one selected record, in first-seen order. *)
Definition units_seen (p : Report -> bool) (reports : list Report)
  : list string :=
  first_seen (map unit_name (filter (fun r => has_unit r && p r) reports)).

(** The records of indicator [i] that have a unit and are selected by [p]. *)
Definition indicator_records (p : Report -> bool) (i : string)
  (reports : list Report) : list Report :=
  filter (fun r => has_unit r && has_indicator r && p r
                   && String.eqb (indicator_name r) i) reports.

Definition indicator_scores (p : Report -> bool) (i : string)
  (reports : list Report) : list float :=
  map score_of (indicator_records p i reports).

(** The indicators with at least one such record, in first-seen order. *)
Definition indicators_seen (p : Report -> bool) (reports : list Report)
  : list string :=
  first_seen
    (map indicator_name
       (filter (fun r => has_unit r && has_indicator r && p r) reports)).

(** The records of the cell (indicator [i], unit [u]). *)
Definition cell_records (p : Report -> bool) (i u : string)
  (reports : list Report) : list Report :=
  filter (fun r => String.eqb (unit_name r) u) (indicator_records p i reports).

Definition cell_scores (p : Report -> bool) (i u : string)
  (reports : list Report) : list float :=
  map score_of (cell_records p i u reports).

(** The units with a record in the cells of indicator [i], first-seen. *)
Definition units_of_indicator (p : Report -> bool) (i : string)
  (reports : list Report) : list string :=
  first_seen (map unit_name (indicator_records p i reports)).

(** The units observed anywhere in the input, for any indicator. *)
Definition units_of_input (p : Report -> bool) (reports : list Report)
  : list string :=
  first_seen
    (map unit_name
       (filter (fun r => has_unit r && has_indicator r && p r) reports)).

(** The per-unit columns of a comparison row: every property but the two
    fixed ones. *)
Definition unit_columns (row : JSObject JSValue) : list string :=
  filter (fun k => negb (String.eqb k "indicator")
                   && negb (String.eqb k "rata_rata")) (map fst row).

(** The grouping keys of the four loops. *)
Definition leaderboard_key (r : Report) : option string :=
  if has_unit r && counted r then Some (unit_name r) else None.

Definition performance_key (r : Report) : option string :=
  if has_unit r && has_indicator r && counted r
  then Some (indicator_name r) else None.

Definition cell_key (r : Report) : option string := Some (unit_name r).

Definition trend_key (r : Report) : option string := Some (monthKey r).

Definition composition_group (r : Report) : option string :=
  Some (composition_key r).

Definition push_score (r : Report) (d : SbuData) : SbuData :=
  mkSbuData (scores d ++ [score_of r]) (S (totalReports d)).

Definition push_cell (r : Report) (l : list float) : list float :=
  l ++ [score_of r].

Definition push_unit (r : Report) (sbuData : JSObject (list float))
  : JSObject (list float) :=
  group_step cell_key [] push_cell sbuData r.

Definition tally (r : Report) (b : Bucket.t) : Bucket.t :=
  Bucket.mk (S (Bucket.total b))
    (if is_approved r then S (Bucket.approved b) else Bucket.approved b)
    (if is_approved r then Bucket.rejected b
     else if is_rejected r then S (Bucket.rejected b) else Bucket.rejected b).

(** What one more record does to the value of its slice. *)
Definition count_up (r : Report) (v : CountValue) : CountValue :=
  match v with
  | Count n => Count (n + 1)
  | Text f s => Text f (s ++ "1")
  end.

(** The number of records a slice stands for; a string stands for none. *)
Definition count_of (v : CountValue) : nat :=
  match v with
  | Count n => n
  | Text _ _ => 0%nat
  end.

(** The record falls in the month labelled [k]. *)
Definition in_month (k : string) (r : Report) : bool :=
  String.eqb (monthKey r) k.

(** The status of the record is one of [l]. *)
Definition status_in (l : list string) (r : Report) : bool :=
  existsb (String.eqb (status r)) l.

(** The record is counted in the composition slice named [k]. *)
Definition in_slice (k : string) (r : Report) : bool :=
  String.eqb (composition_key r) k.

(** The number of records of [l] that satisfy [p]. *)
Definition count {A : Type} (p : A -> bool) (l : list A) : nat :=
  List.length (filter p l).

(** The part of a leaderboard row that does not come from [Math.random]. *)
Definition standing (row : LeaderboardRow) : nat * string * float :=
  (rank row, sbu row, score row).

(** The same collection with other scores. *)
Definition with_scores (f : Report -> option float) (reports : list Report)
  : list Report :=
  map (fun r => mkReport (id r) (status r) (f r) (indicator_type r)
                  (created_at r) (approved_at r) (profiles r)) reports.

Definition sum_nat (l : list nat) : nat := fold_right Nat.add 0%nat l.

(** The comparator that orders by a numeric key, largest first. *)
Definition descending {A : Type} (f : A -> float) (a b : A) : float :=
  (f b - f a)%float.

(** The units of the leaderboard, best mean first: the stable descending
    sort of the units in the enumeration order of their table. *)
Definition ranked_units (p : Report -> bool) (reports : list Report)
  : list string :=
  Array_sort (descending (fun u => unit_mean p u reports))
    (enumeration_order (fun u => u) (units_seen p reports)).

(** Unit and mean of an item. *)
Definition item_core (item : Item.t) : string * float :=
  (Item.sbu item, Item.score item).

(** The sum of a measure of the values of an object. *)
Definition measure {V : Type} (m : V -> nat) (o : JSObject V) : nat :=
  sum_nat (map (fun kv => m (snd kv)) o).

(* ================================================================= *)
(** ** Sample inputs *)

(** A report of unit [u] and indicator [i] with score [s], status [st],
    created at [d]. *)
Definition sample (u i : option string) (s : option float) (st : string)
  (d : Date) : Report :=
  mkReport "" st s i d None (Some (mkProfile None u)).

(** A component that has drawn nothing yet and holds no data. *)
Definition fresh (random : nat -> float) : Component :=
  mkComponent random 0 [] [] [] [].

Definition scored_sample (u i : string) (s : float) : Report :=
  sample (Some u) (Some i) (Some s) "approved" (LocalDate 2024 January).


(* ================================================================= *)
(** ** Labels, months and comparators *)

(** No record names its unit like a property that every object inherits. *)
Definition plain_units (reports : list Report) : Prop :=
  forallb (fun r => negb (inherited (unit_name r))) reports = true.

(** No record names its indicator like a property that every object
    inherits. *)
Definition plain_indicators (reports : list Report) : Prop :=
  forallb (fun r => negb (inherited (indicator_name r))) reports = true.

(** The calendar month of a date, whatever the year; none for an invalid
    date. *)
Definition month_of (d : Date) : option Month :=
  match d with
  | InvalidDate => None
  | LocalDate _ m => Some m
  end.

Definition Month_eqb (a b : Month) : bool :=
  match a, b with
  | January, January | February, February | March, March | April, April
  | May, May | June, June | July, July | August, August
  | September, September | October, October | November, November
  | December, December => true
  | _, _ => false
  end.

(** Two records are dated in the same calendar month (of any two years),
    or both carry an invalid date. *)
Definition same_month (r r' : Report) : bool :=
  match month_of (created_at r), month_of (created_at r') with
  | Some m, Some m' => Month_eqb m m'
  | None, None => true
  | _, _ => false
  end.

(** The comparator asks for [a] after [b]: it answers a positive number. *)
Definition goes_after {A : Type} (cmp : A -> A -> float) (a b : A) : bool :=
  (0 <? cmp a b)%float.

(** The comparator asks neither for [a] after [b] nor for [b] after [a]. *)
Definition tied {A : Type} (cmp : A -> A -> float) (a b : A) : bool :=
  negb (goes_after cmp a b) && negb (goes_after cmp b a).

(** The comparator is consistent on the list [l], as the language requires
    for the order of [sort] to be defined: it never asks for [a] after [b]
    and [b] after [a], and when it asks neither for [a] after [b] nor for
    [b] after [c], it does not ask for [a] after [c].  The difference of
    two doubles is such a comparator whenever no double is [NaN] and no
    difference is. *)
Definition consistent {A : Type} (cmp : A -> A -> float) (l : list A) : bool :=
  forallb
    (fun a =>
       forallb
         (fun b =>
            negb (goes_after cmp a b && goes_after cmp b a)
            && forallb
                 (fun c =>
                    implb (negb (goes_after cmp a b)
                           && negb (goes_after cmp b c))
                      (negb (goes_after cmp a c))) l) l) l.

(** The scores gathered for the overall mean of indicator [i]: unit by
    unit in the enumeration order of the units, each unit's scores in input
    order. *)
Definition gathered_scores (p : Report -> bool) (i : string)
  (reports : list Report) : list float :=
  List.concat
    (map (fun u => cell_scores p i u reports)
       (enumeration_order (fun u => u) (units_of_indicator p i reports))).

(** The table of units that [generateLeaderboardData] builds from the
    records selected by [p]: for every unit its scores in input order and
    their number. *)
Definition unit_table (p : Report -> bool) (reports : list Report)
  : JSObject SbuData :=
  map (fun u => (u, mkSbuData (unit_scores p u reports)
                      (List.length (unit_records p u reports))))
    (units_seen p reports).

(** The table of indicators that [generatePerformanceData] builds from the
    records selected by [p]: for every indicator, for every unit that
    reports it, the scores of the cell in input order. *)
Definition performance_table (p : Report -> bool) (reports : list Report)
  : JSObject (JSObject (list float)) :=
  map (fun i => (i, map (fun u => (u, cell_scores p i u reports))
                      (units_of_indicator p i reports)))
    (indicators_seen p reports).

(* ================================================================= *)
(** ** fetchAnalyticsData and the live figures *)

(** What a query resolves to: [{ data, error }]. *)
Record QueryResult (A : Type) : Type := mkQueryResult {
  data : option (list A);
  error : option string
}.

Arguments mkQueryResult {A} _ _.
Arguments data {A} _.
Arguments error {A} _.

Module Toast.
Record t : Type := mk {
  title : string;
  description : string;
  variant : string
}.
End Toast.

Module Live.
Record t : Type := mk {
  totalReports : Z;
  approvalRate : Q;
  averageScore : float;
  activeSBU : Z
}.
End Live.

(** A row of the [profiles] query of [fetchAnalyticsData]. *)
Record SbuUser : Type := mkSbuUser {
  user_sbu_name : option string
}.

Module Analytics.
(** The state of the analytics view: the four aggregates, the loading
    flag, the live figures, and what was sent to [toast] and to
    [console.error] (label and error). *)
Record t : Type := mk {
  component : Component;
  loading : bool;
  liveData : Live.t;
  toasts : list Toast.t;
  console : list (string * string)
}.
End Analytics.

(** Where a [try] block stops: at a [throw], or at its end. *)
Inductive Outcome (S : Type) : Type :=
  | Thrown (e : string) (s : S)
  | Done (s : S).

Arguments Thrown {S} _ _.
Arguments Done {S} _.

(** [r.calculated_score || 0]. *)
Definition or_zero (x : option float) : float :=
  match x with
  | Some q => if truthy_number (Some q) then q else 0%float
  | None => 0%float
  end.

(** [xs?.length || 0]. *)
Definition length_or_zero {A : Type} (xs : option (list A)) : nat :=
  match xs with
  | Some l => List.length l
  | None => 0%nat
  end.

(** [xs?.filter(p).length || 0]. *)
Definition count_or_none {A : Type} (p : A -> bool) (xs : option (list A))
  : nat :=
  match xs with
  | Some l => List.length (filter p l)
  | None => 0%nat
  end.

(** [reports?.filter(r => r.calculated_score !== null) || []]. *)
Definition completedWithScores (reports : option (list Report))
  : list Report :=
  match reports with
  | Some l => filter is_scored l
  | None => []
  end.

(** The mean score of the dashboard figures:
    [scored.length > 0 ? scored.reduce((sum, r) => sum + (r.calculated_score
    || 0), 0) / scored.length : 0]. *)
Definition averageScore_of (reports : option (list Report)) : float :=
  let scored := completedWithScores reports in
  if (0 <? List.length scored)%nat
  then (fold_left (fun sum r => sum + or_zero (calculated_score r)) scored 0
        / Number_of_nat (List.length scored))%float
  else 0%float.

(** [totalReports > 0 ? (approvedReports / totalReports) * 100 : 0], as
    the exact value of the quotient of the two counts. *)
Definition approvalRate_of (reports : option (list Report)) : Q :=
  let totalReports := length_or_zero reports in
  let approvedReports := count_or_none is_approved reports in
  if (0 <? totalReports)%nat
  then (inject_Z (Z.of_nat approvedReports)
        / inject_Z (Z.of_nat totalReports) * 100)%Q
  else 0%Q.

(** [new Set(sbuUsers?.map(u => u.sbu_name).filter(Boolean))]: the
    elements of the set, in insertion order. *)
Definition uniqueSBUs (sbuUsers : option (list SbuUser)) : list string :=
  match sbuUsers with
  | Some l =>
      first_seen
        (flat_map (fun u => match user_sbu_name u with
                            | Some (String c s) => [String c s]
                            | _ => []
                            end) l)
  | None => []
  end.

Definition liveData_of (reports : option (list Report))
  (sbuUsers : option (list SbuUser)) : Live.t :=
  Live.mk (Z.of_nat (length_or_zero reports)) (approvalRate_of reports)
    (averageScore_of reports)
    (Z.of_nat (List.length (uniqueSBUs sbuUsers))).

(** [reports || []]. *)
Definition or_empty {A : Type} (xs : option (list A)) : list A :=
  match xs with
  | Some l => l
  | None => []
  end.

Definition set_loading (b : bool) (v : Analytics.t) : Analytics.t :=
  Analytics.mk (Analytics.component v) b (Analytics.liveData v)
    (Analytics.toasts v) (Analytics.console v).

(** [setLiveData(v)]. *)
Definition setLiveData (live : Live.t) (v : Analytics.t) : Analytics.t :=
  Analytics.mk (Analytics.component v) (Analytics.loading v) live
    (Analytics.toasts v) (Analytics.console v).

(** A builder called inside the [try] block: what it stores is kept, and a
    [throw] leaves the block; [None] when the builder ends as
    [Untracked]. *)
Definition run_builder (m : Effect unit) (v : Analytics.t)
  : option (Outcome Analytics.t) :=
  let (r, c) := m (Analytics.component v) in
  let v :=
    Analytics.mk c (Analytics.loading v) (Analytics.liveData v)
      (Analytics.toasts v) (Analytics.console v) in
  match r with
  | Normal _ => Some (Done v)
  | Throw e => Some (Thrown e v)
  | Untracked => None
  end.

(** The next statement of a block runs when the previous one is done. *)
Definition and_then {S : Type} (o : option (Outcome S))
  (k : S -> option (Outcome S)) : option (Outcome S) :=
  match o with
  | Some (Done s) => k s
  | _ => o
  end.

(** The [try] block of [fetchAnalyticsData], given what the two queries
    resolve to. *)
Definition fetchAnalyticsData_try (reportsQuery : QueryResult Report)
  (sbuQuery : QueryResult SbuUser) (v : Analytics.t)
  : option (Outcome Analytics.t) :=
  let v := set_loading true v in
  match error reportsQuery with
  | Some reportsError => Some (Thrown reportsError v)
  | None =>
      match error sbuQuery with
      | Some sbuError => Some (Thrown sbuError v)
      | None =>
          let reports := data reportsQuery in
          let v := setLiveData (liveData_of reports (data sbuQuery)) v in
          and_then (run_builder (generateLeaderboardData (or_empty reports)) v)
            (fun v =>
          and_then (run_builder (generatePerformanceData (or_empty reports)) v)
            (fun v =>
          and_then (run_builder (generateTrendData (or_empty reports)) v)
            (fun v =>
          run_builder (generateCompositionData (or_empty reports)) v)))
      end
  end.

(** [fetchAnalyticsData]: the [try] block, its [catch] and its [finally];
    [None] when a builder ends as [Untracked]. *)
Definition fetchAnalyticsData (reportsQuery : QueryResult Report)
  (sbuQuery : QueryResult SbuUser) (v : Analytics.t) : option Analytics.t :=
  match fetchAnalyticsData_try reportsQuery sbuQuery v with
  | Some (Thrown e v) =>
      Some
        (set_loading false
           (Analytics.mk (Analytics.component v) (Analytics.loading v)
              (Analytics.liveData v)
              (Analytics.toasts v
               ++ [Toast.mk "Error" "Gagal memuat data analytics"
                     "destructive"])
              (Analytics.console v ++ [("Error fetching analytics data:", e)])))
  | Some (Done v) => Some (set_loading false v)
  | None => None
  end.

(** [userRole === 'sbu' && sbuName === currentSBU]. *)
Definition isCurrentUserSBU (userRole currentSBU sbuName : string) : bool :=
  String.eqb userRole "sbu" && String.eqb sbuName currentSBU.

(* ================================================================= *)
(** ** DashboardStats *)

Inductive Icon : Type :=
  | FileText | CheckCircle | Clock | XCircle | TrendingUp | Users.

Module Trend.
Record t : Type := mk {
  value : Z;
  isPositive : bool
}.
End Trend.

Module Card.
Record t : Type := mk {
  title : string;
  value : string;
  description : string;
  icon : Icon;
  trend : option Trend.t
}.
End Card.

Module Dashboard.
Record t : Type := mk {
  stats : list Card.t;
  loading : bool;
  toasts : list Toast.t;
  console : list (string * string)
}.
End Dashboard.

(** [date.getMonth()]. *)
Definition getMonth (m : Month) : nat :=
  match m with
  | January => 0 | February => 1 | March => 2 | April => 3 | May => 4
  | June => 5 | July => 6 | August => 7 | September => 8 | October => 9
  | November => 10 | December => 11
  end%nat.

(** [n.toString()] for a count. *)
Definition Number_toString (n : nat) : string :=
  NilZero.string_of_uint (Nat.to_uint n).

(** [new Date(r.created_at)] falls in the month [currentMonth] of the year
    [currentYear]; an invalid date falls in none. *)
Definition in_current_month (currentYear : Z) (currentMonth : Month)
  (r : Report) : bool :=
  match created_at r with
  | InvalidDate => false
  | LocalDate y m =>
      (getMonth m =? getMonth currentMonth)%nat && (y =? currentYear)%Z
  end.

Definition pendingReports_admin (reports : option (list Report)) : nat :=
  count_or_none (fun r => String.eqb (status r) "pending_approval") reports.

Definition completedReports_admin (reports : option (list Report)) : nat :=
  count_or_none (fun r => String.eqb (status r) "completed") reports.

Definition rejectedReports_admin (reports : option (list Report)) : nat :=
  count_or_none is_rejected reports.

(** The cards of [fetchAdminStats].  [toLocaleString] is the number
    formatting of the browser's locale, [sbuUsers] the rows of the profiles
    query, [currentYear] and [currentMonth] come from [new Date()]. *)
Definition adminCards (toLocaleString : nat -> string) (currentYear : Z)
  (currentMonth : Month) (reports : option (list Report))
  (sbuUsers : option (list string)) : list Card.t :=
  let totalReports := length_or_zero reports in
  let pendingReports := pendingReports_admin reports in
  let completedReports := completedReports_admin reports in
  let rejectedReports := rejectedReports_admin reports in
  let activeSBU := length_or_zero sbuUsers in
  let averageScore := averageScore_of reports in
  let currentMonthReports :=
    count_or_none (in_current_month currentYear currentMonth) reports in
  let totalTrend := if (0 <? currentMonthReports)%nat then 12%Z else 0%Z in
  let pendingTrend := if (10 <? pendingReports)%nat then (-8)%Z else 5%Z in
  let completedTrend :=
    if (100 <? completedReports)%nat then 15%Z else 8%Z in
  let rejectedTrend := if (50 <? rejectedReports)%nat then (-5)%Z else 2%Z in
  let scoreTrend := if (80 <? averageScore)%float then 3%Z else (-1)%Z in
  [ Card.mk "Total Laporan" (toLocaleString totalReports)
      "Laporan bulan ini" FileText
      (Some (Trend.mk totalTrend (0 <? totalTrend)%Z));
    Card.mk "Menunggu Approval" (Number_toString pendingReports)
      "Menunggu persetujuan admin" Clock
      (Some (Trend.mk (Z.abs pendingTrend) (0 <? pendingTrend)%Z));
    Card.mk "Selesai Diproses" (toLocaleString completedReports)
      "Laporan dengan skor final" CheckCircle
      (Some (Trend.mk completedTrend true));
    Card.mk "Ditolak" (Number_toString rejectedReports)
      "Ditolak admin/sistem" XCircle
      (Some (Trend.mk (Z.abs rejectedTrend) (0 <? rejectedTrend)%Z));
    Card.mk "SBU Aktif" (Number_toString activeSBU)
      "Unit bisnis terdaftar" Users None;
    Card.mk "Skor Rata-rata" (toFixed_1 averageScore)
      "Performa nasional" TrendingUp
      (Some (Trend.mk (Z.abs scoreTrend) (0 <? scoreTrend)%Z)) ].

Definition approvedReports_sbu (reports : option (list Report)) : nat :=
  count_or_none is_approved reports.

Definition pendingReports_sbu (reports : option (list Report)) : nat :=
  count_or_none
    (fun r => String.eqb (status r) "pending_approval"
              || String.eqb (status r) "processing"
              || String.eqb (status r) "queued") reports.

(** [userScore > 90 ? 3 : userScore > 80 ? 5 : 8]. *)
Definition ranking_of (userScore : float) : nat :=
  if (90 <? userScore)%float then 3%nat
  else if (80 <? userScore)%float then 5%nat else 8%nat.

(** The cards of [fetchSBUStats]. *)
Definition sbuCards (reports : option (list Report)) : list Card.t :=
  let totalReports := length_or_zero reports in
  let approvedReports := approvedReports_sbu reports in
  let pendingReports := pendingReports_sbu reports in
  let userScore := averageScore_of reports in
  let ranking := ranking_of userScore in
  let totalTrend := if (10 <? totalReports)%nat then 20%Z else 5%Z in
  let approvedTrend := if (5 <? approvedReports)%nat then 18%Z else 10%Z in
  let scoreTrend := if (85 <? userScore)%float then 5%Z else (-2)%Z in
  [ Card.mk "Laporan Saya" (Number_toString totalReports)
      "Total laporan yang dikirim" FileText
      (Some (Trend.mk totalTrend true));
    Card.mk "Disetujui" (Number_toString approvedReports)
      "Laporan valid" CheckCircle (Some (Trend.mk approvedTrend true));
    Card.mk "Dalam Proses" (Number_toString pendingReports)
      "Sedang divalidasi" Clock None;
    Card.mk "Skor KPI" (toFixed_1 userScore)
      ("Peringkat #" ++ Number_toString ranking ++ " nasional")%string
      TrendingUp
      (Some (Trend.mk (Z.abs scoreTrend) (0 <? scoreTrend)%Z)) ].

Definition set_stats_loading (b : bool) (d : Dashboard.t) : Dashboard.t :=
  Dashboard.mk (Dashboard.stats d) b (Dashboard.toasts d)
    (Dashboard.console d).

Definition setStats (cards : list Card.t) (d : Dashboard.t) : Dashboard.t :=
  Dashboard.mk cards (Dashboard.loading d) (Dashboard.toasts d)
    (Dashboard.console d).

(** What the environment answers during one [fetchStats]: the signed-in
    user, the two queries, the locale's number formatting and today's
    year and month. *)
Record StatsWorld : Type := mkStatsWorld {
  user : option string;
  reportsQuery : QueryResult Report;
  sbuQuery : QueryResult string;
  toLocaleString : nat -> string;
  currentYear : Z;
  currentMonth : Month
}.

(** [fetchAdminStats]. *)
Definition fetchAdminStats (w : StatsWorld) (d : Dashboard.t)
  : Outcome Dashboard.t :=
  match user w with
  | None => Done d
  | Some _ =>
      match error (reportsQuery w) with
      | Some reportsError => Thrown reportsError d
      | None =>
          match error (sbuQuery w) with
          | Some sbuError => Thrown sbuError d
          | None =>
              Done (setStats
                      (adminCards (toLocaleString w) (currentYear w)
                         (currentMonth w) (data (reportsQuery w))
                         (data (sbuQuery w))) d)
          end
      end
  end.

(** [fetchSBUStats]. *)
Definition fetchSBUStats (w : StatsWorld) (d : Dashboard.t)
  : Outcome Dashboard.t :=
  match user w with
  | None => Done d
  | Some _ =>
      match error (reportsQuery w) with
      | Some reportsError => Thrown reportsError d
      | None => Done (setStats (sbuCards (data (reportsQuery w))) d)
      end
  end.

(** [fetchStats]: dispatch on the role, [catch] and [finally]. *)
Definition fetchStats (userRole : string) (w : StatsWorld) (d : Dashboard.t)
  : Dashboard.t :=
  let d := set_stats_loading true d in
  let d :=
    match (if String.eqb userRole "admin" then fetchAdminStats w d
           else fetchSBUStats w d) with
    | Thrown e d =>
        Dashboard.mk (Dashboard.stats d) (Dashboard.loading d)
          (Dashboard.toasts d
           ++ [Toast.mk "Error" "Gagal memuat statistik dashboard"
                 "destructive"])
          (Dashboard.console d ++ [("Error fetching stats:", e)])
    | Done d => d
    end in
  set_stats_loading false d.

(** The number of placeholder cards drawn while loading:
    [userRole === 'admin' ? 6 : 4]. *)
Definition skeleton_count (userRole : string) : nat :=
  if String.eqb userRole "admin" then 6%nat else 4%nat.

(* ================================================================= *)
(** ** ReportsManagement *)

Record Approver : Type := mkApprover {
  approver_full_name : option string
}.

Module Fetched.
(** A row of the query of [fetchReports]. *)
Record t : Type := mk {
  id : string;
  file_name : string;
  status : string;
  indicator_type : option string;
  calculated_score : option float;
  created_at : string;
  approved_at : option string;
  rejection_reason : option string;
  profiles : option Profile;
  approver : option Approver
}.
End Fetched.

Module Listed.
(** A report as the list shows it. *)
Record t : Type := mk {
  id : string;
  fileName : string;
  submittedBy : string;
  sbu : string;
  submittedAt : string;
  status : string;
  indicatorType : option string;
  calculatedScore : option float;
  approvedBy : option string;
  approvedAt : option string;
  rejectionReason : option string
}.
End Listed.

(** [x || d] for a possibly absent string. *)
Definition or_default (x : option string) (d : string) : string :=
  match x with
  | Some (String c s) => String c s
  | _ => d
  end.

(** [x || null] for a possibly absent string. *)
Definition or_null (x : option string) : option string :=
  match x with
  | Some (String c s) => Some (String c s)
  | _ => None
  end.

(** The callback of [(data || []).map] in [fetchReports];
    [toLocaleString_id] stands for [new Date(s).toLocaleString('id-ID')]. *)
Definition transform_report (toLocaleString_id : string -> string)
  (report : Fetched.t) : Listed.t :=
  Listed.mk (Fetched.id report) (Fetched.file_name report)
    (or_default
       (match Fetched.profiles report with
        | Some p => full_name p
        | None => None
        end) "Unknown User")
    (or_default
       (match Fetched.profiles report with
        | Some p => sbu_name p
        | None => None
        end) "Unknown SBU")
    (toLocaleString_id (Fetched.created_at report))
    (Fetched.status report) (Fetched.indicator_type report)
    (Fetched.calculated_score report)
    (or_null
       (match Fetched.approver report with
        | Some a => approver_full_name a
        | None => None
        end))
    (match or_null (Fetched.approved_at report) with
     | Some s => Some (toLocaleString_id s)
     | None => None
     end)
    (Fetched.rejection_reason report).

Definition transformedReports (toLocaleString_id : string -> string)
  (data : option (list Fetched.t)) : list Listed.t :=
  map (transform_report toLocaleString_id) (or_empty data).

(** [s.includes(sub)]. *)
Fixpoint includes (s sub : string) : bool :=
  prefix sub s
  || match s with
     | EmptyString => false
     | String _ t => includes t sub
     end.

(** The predicate of [reports.filter] in [filteredReports]; [toLowerCase]
    is the lower-casing of the language. *)
Definition report_shown (toLowerCase : string -> string)
  (searchTerm statusFilter indicatorFilter : string) (report : Listed.t)
  : bool :=
  if negb (String.eqb searchTerm "")
     && negb (includes (toLowerCase (Listed.fileName report))
                (toLowerCase searchTerm))
     && negb (includes (toLowerCase (Listed.submittedBy report))
                (toLowerCase searchTerm))
  then false
  else if negb (String.eqb statusFilter "all")
          && negb (String.eqb (Listed.status report) statusFilter)
  then false
  else if negb (String.eqb indicatorFilter "all")
          && negb (match Listed.indicatorType report with
                   | Some i => String.eqb i indicatorFilter
                   | None => false
                   end)
  then false
  else true.

Definition filteredReports (toLowerCase : string -> string)
  (searchTerm statusFilter indicatorFilter : string)
  (reports : list Listed.t) : list Listed.t :=
  filter (report_shown toLowerCase searchTerm statusFilter indicatorFilter)
    reports.

(** [handleSelectAll]: the new value of [selectedReports]. *)
Definition handleSelectAll (filteredReports : list Listed.t) (checked : bool)
  : list string :=
  if checked then map Listed.id filteredReports else [].

(** [handleSelectReport]: the new value of [selectedReports]. *)
Definition handleSelectReport (selectedReports : list string)
  (reportId : string) (checked : bool) : list string :=
  if checked then selectedReports ++ [reportId]
  else filter (fun id => negb (String.eqb id reportId)) selectedReports.

(** [handleUploadNew]: the path it navigates to. *)
Definition handleUploadNew (userRole : string) : string :=
  let basePath := if String.eqb userRole "admin" then "/admin" else "/sbu" in
  (basePath ++ "/upload")%string.

(* ================================================================= *)
(** ** RecentActivity *)

Module Recent.
(** A row of the query of [fetchRecentActivity]. *)
Record t : Type := mk {
  id : string;
  file_name : string;
  status : string;
  created_at : string;
  updated_at : string;
  approved_at : option string;
  profiles : option Profile
}.
End Recent.

Module Activity.
Inductive kind : Type := upload | approve | reject | process.
Inductive state : Type := success | pending | error | processing.
Record t : Type := mk {
  id : string;
  type : kind;
  title : string;
  description : string;
  user : string;
  timestamp : string;
  status : state
}.
End Activity.

(** [n] written in decimal, as a template string does. *)
Definition Z_toString (n : Z) : string :=
  NilZero.string_of_int (Z.to_int n).

(** [Math.floor(x / d)] for an integer or [NaN] ([None]). *)
Definition floor_div (x : option Z) (d : Z) : option Z :=
  match x with
  | Some z => Some (z / d)%Z
  | None => None
  end.

(** [x > 0]; false for [NaN]. *)
Definition positive (x : option Z) : bool :=
  match x with
  | Some z => (0 <? z)%Z
  | None => false
  end.

Definition template (x : option Z) (suffix : string) : string :=
  match x with
  | Some z => (Z_toString z ++ suffix)%string
  | None => ("NaN" ++ suffix)%string
  end.

(** [formatTimeAgo]: [getTime] gives the milliseconds of [new
    Date(dateString)], [None] for an invalid date; [now] is
    [new Date().getTime()]. *)
Definition formatTimeAgo (getTime : string -> option Z) (now : Z)
  (dateString : string) : string :=
  let diffMs :=
    match getTime dateString with
    | Some t => Some (now - t)%Z
    | None => None
    end in
  let diffMinutes := floor_div diffMs (1000 * 60) in
  let diffHours := floor_div diffMinutes 60 in
  let diffDays := floor_div diffHours 24 in
  if positive diffDays then template diffDays " hari yang lalu"
  else if positive diffHours then template diffHours " jam yang lalu"
  else if positive diffMinutes then template diffMinutes " menit yang lalu"
  else "Baru saja".

(** The callback of [(reports || []).map] in [fetchRecentActivity]: the
    [switch] on the status, starting from the defaults. *)
Definition activity_of (getTime : string -> option Z) (now : Z)
  (report : Recent.t) : Activity.t :=
  let sbuName :=
    or_default
      (match Recent.profiles report with
       | Some p => sbu_name p
       | None => None
       end) "Unknown SBU" in
  let st := Recent.status report in
  let '(activityType, description, status, timestamp) :=
    if String.eqb st "queued" || String.eqb st "processing" then
      (Activity.upload, (sbuName ++ " mengunggah laporan")%string,
       Activity.processing, Recent.created_at report)
    else if String.eqb st "pending_approval" then
      (Activity.process,
       ("Laporan dari " ++ sbuName ++ " menunggu approval admin")%string,
       Activity.pending, Recent.updated_at report)
    else if String.eqb st "approved" then
      (Activity.approve,
       ("Admin menyetujui laporan dari " ++ sbuName)%string,
       Activity.success,
       or_default (Recent.approved_at report) (Recent.updated_at report))
    else if String.eqb st "completed" then
      (Activity.process,
       ("Kalkulasi skor selesai untuk laporan " ++ sbuName)%string,
       Activity.success, Recent.updated_at report)
    else if String.eqb st "rejected" || String.eqb st "system_rejected" then
      (Activity.reject, ("Laporan dari " ++ sbuName ++ " ditolak")%string,
       Activity.error, Recent.updated_at report)
    else if String.eqb st "failed" then
      (Activity.process,
       ("Gagal memproses laporan dari " ++ sbuName)%string,
       Activity.error, Recent.updated_at report)
    else
      (Activity.upload, "", Activity.pending, Recent.created_at report) in
  Activity.mk (Recent.id report) activityType (Recent.file_name report)
    description sbuName (formatTimeAgo getTime now timestamp) status.

Definition reportActivities (getTime : string -> option Z) (now : Z)
  (reports : option (list Recent.t)) : list Activity.t :=
  map (activity_of getTime now) (or_empty reports).


(* ================================================================= *)
(** ** Facts about dictionaries *)

Section ObjectFacts.

Context {V : Type}.
Implicit Types (o : JSObject V) (k : string) (v : V).

Lemma prop_set_fresh o k v :
  prop_get k o = None -> prop_set k v o = o ++ [(k, v)].
Proof.
  induction o as [|[k' v'] o IH]; simpl; intros H; [reflexivity|].
  destruct (String.eqb k' k); [discriminate|].
  now rewrite IH.
Qed.

Lemma prop_set_present o k v (f : V -> V) :
  prop_get k o = Some v -> prop_set k (f v) o = prop_update k f o.
Proof.
  induction o as [|[k' v'] o IH]; simpl; intros H; [discriminate|].
  destruct (String.eqb k' k).
  - now inversion H.
  - now rewrite IH.
Qed.

Lemma prop_update_fresh o k v (f : V -> V) :
  prop_get k o = None ->
  prop_update k f (o ++ [(k, v)]) = o ++ [(k, f v)].
Proof.
  induction o as [|[k' v'] o IH]; simpl; intros H.
  - now rewrite String.eqb_refl.
  - destruct (String.eqb k' k); [discriminate|].
    now rewrite IH.
Qed.

Lemma prop_update_twice o k (f g : V -> V) :
  prop_update k f (prop_update k g o) = prop_update k (fun v => f (g v)) o.
Proof.
  induction o as [|[k' v'] o IH]; simpl; [reflexivity|].
  destruct (String.eqb k' k) eqn:E; simpl; rewrite E; [reflexivity|].
  now rewrite IH.
Qed.

Lemma prop_update_ext o k (f g : V -> V) :
  (forall v, f v = g v) -> prop_update k f o = prop_update k g o.
Proof.
  intros H; induction o as [|[k' v'] o IH]; simpl; [reflexivity|].
  destruct (String.eqb k' k); now rewrite ?H, ?IH.
Qed.

Lemma prop_get_table (f : string -> V) (ks : list string) k :
  In k ks -> prop_get k (map (fun k' => (k', f k')) ks) = Some (f k).
Proof.
  induction ks as [|a ks IH]; simpl; [tauto|].
  intros H. destruct (String.eqb_spec a k) as [->|Hne]; [reflexivity|].
  destruct H as [H|H]; [contradiction|]. now apply IH.
Qed.

Lemma prop_get_table_none (f : string -> V) (ks : list string) k :
  ~ In k ks -> prop_get k (map (fun k' => (k', f k')) ks) = None.
Proof.
  induction ks as [|a ks IH]; simpl; [reflexivity|].
  intros H. destruct (String.eqb_spec a k) as [->|Hne]; [tauto|].
  apply IH. tauto.
Qed.

Lemma prop_update_table (f : string -> V) (g : V -> V) (ks : list string) k :
  NoDup ks ->
  prop_update k g (map (fun k' => (k', f k')) ks)
  = map (fun k' => (k', if String.eqb k' k then g (f k') else f k')) ks.
Proof.
  induction ks as [|a ks IH]; simpl; intros Hnd; [reflexivity|].
  inversion Hnd as [|? ? Hnotin Hnd']; subst.
  destruct (String.eqb_spec a k) as [->|Hne].
  - f_equal. apply map_ext_in. intros k' Hin.
    destruct (String.eqb_spec k' k) as [->|_]; [contradiction|reflexivity].
  - now rewrite IH.
Qed.

End ObjectFacts.

(* ================================================================= *)
(** ** Facts about first-seen order *)

Lemma first_seen_In (k : string) (l : list string) :
  In k (first_seen l) <-> In k l.
Proof.
  induction l as [|a l IH]; simpl; [tauto|].
  rewrite filter_In, IH.
  destruct (String.eqb_spec a k) as [->|Hne]; simpl.
  - tauto.
  - split; [tauto|]. intros [H|H]; [contradiction|tauto].
Qed.

Lemma first_seen_NoDup (l : list string) : NoDup (first_seen l).
Proof.
  induction l as [|a l IH]; simpl; constructor.
  - rewrite filter_In. intros [_ H]. now rewrite String.eqb_refl in H.
  - now apply NoDup_filter.
Qed.

Lemma first_seen_snoc (l : list string) (k : string) :
  first_seen (l ++ [k])
  = if existsb (String.eqb k) l then first_seen l else first_seen l ++ [k].
Proof.
  induction l as [|a l IH]; simpl; [reflexivity|].
  rewrite IH. rewrite (String.eqb_sym k a).
  destruct (String.eqb a k) eqn:E; simpl.
  - destruct (existsb (String.eqb k) l); [reflexivity|].
    rewrite filter_app. simpl. rewrite E. simpl. now rewrite app_nil_r.
  - destruct (existsb (String.eqb k) l); [reflexivity|].
    rewrite filter_app. simpl. now rewrite E.
Qed.

Lemma existsb_eqb_In (k : string) (l : list string) :
  existsb (String.eqb k) l = true <-> In k l.
Proof.
  rewrite existsb_exists. split.
  - intros [x [Hin Heq]]. apply String.eqb_eq in Heq. now subst.
  - intros H. exists k. split; [assumption|apply String.eqb_refl].
Qed.

(* ================================================================= *)
(** ** The grouping loop computes [grouped] *)

Section Grouping.

Context {R V : Type}.
Variable key : R -> option string.
Variable init : V.
Variable upd : R -> V -> V.

Lemma keys_of_app (rs rs' : list R) :
  keys_of key (rs ++ rs') = keys_of key rs ++ keys_of key rs'.
Proof. unfold keys_of. apply flat_map_app. Qed.

Lemma has_key_keys_of (k : string) (rs : list R) (r : R) :
  In r rs -> has_key key k r = true -> In k (keys_of key rs).
Proof.
  unfold keys_of, has_key. intros Hin Hk. apply in_flat_map.
  exists r. split; [assumption|].
  destruct (key r) as [k'|]; [|discriminate].
  apply String.eqb_eq in Hk. subst. now left.
Qed.

Lemma keys_of_has_key (k : string) (rs : list R) :
  In k (keys_of key rs) -> exists r, In r rs /\ key r = Some k.
Proof.
  unfold keys_of. rewrite in_flat_map. intros [r [Hin Hk]].
  exists r. split; [assumption|].
  destruct (key r) as [k'|]; simpl in Hk; [|tauto].
  destruct Hk as [->|[]]. reflexivity.
Qed.

Lemma group_value_unseen (k : string) (rs : list R) :
  ~ In k (keys_of key rs) -> filter (has_key key k) rs = [].
Proof.
  intros Hnot. induction rs as [|r rs IH]; simpl; [reflexivity|].
  destruct (has_key key k r) eqn:E.
  - exfalso. apply Hnot. apply (has_key_keys_of k (r :: rs) r); simpl; auto.
  - apply IH. intros H. apply Hnot.
    change (r :: rs) with ([r] ++ rs). rewrite keys_of_app.
    apply in_or_app. now right.
Qed.

Lemma group_value_snoc (k : string) (rs : list R) (r : R) :
  group_value key init upd k (rs ++ [r])
  = if has_key key k r then upd r (group_value key init upd k rs)
    else group_value key init upd k rs.
Proof.
  unfold group_value. rewrite filter_app. simpl.
  destruct (has_key key k r).
  - now rewrite fold_left_app.
  - now rewrite app_nil_r.
Qed.

Lemma group_step_grouped (rs : list R) (r : R) :
  group_step key init upd (grouped key init upd rs) r
  = grouped key init upd (rs ++ [r]).
Proof.
  unfold group_step, grouped. rewrite keys_of_app.
  destruct (key r) as [k|] eqn:Hk.
  - assert (Hr : forall k', has_key key k' r = String.eqb k k')
      by (intros k'; unfold has_key; now rewrite Hk).
    replace (keys_of key [r]) with [k]
      by (unfold keys_of; simpl; now rewrite Hk).
    rewrite first_seen_snoc.
    destruct (existsb (String.eqb k) (keys_of key rs)) eqn:Hex.
    + apply existsb_eqb_In in Hex.
      rewrite prop_get_table by now apply first_seen_In.
      rewrite prop_update_table by apply first_seen_NoDup.
      apply map_ext. intros k'. rewrite group_value_snoc, Hr.
      now rewrite (String.eqb_sym k' k).
    + assert (Hnot : ~ In k (keys_of key rs)).
      { intros H. apply existsb_eqb_In in H. congruence. }
      rewrite prop_get_table_none by now rewrite first_seen_In.
      rewrite map_app. simpl. f_equal.
      * apply map_ext_in. intros k' Hin. rewrite group_value_snoc, Hr.
        destruct (String.eqb_spec k k') as [E|_]; [|reflexivity].
        subst k'. rewrite first_seen_In in Hin. contradiction.
      * rewrite group_value_snoc, Hr, String.eqb_refl.
        unfold group_value. now rewrite group_value_unseen.
  - replace (keys_of key [r]) with (@nil string)
      by (unfold keys_of; simpl; now rewrite Hk).
    rewrite app_nil_r. apply map_ext. intros k'.
    rewrite group_value_snoc. unfold has_key. now rewrite Hk.
Qed.

Lemma fold_group_step (rs : list R) :
  fold_left (group_step key init upd) rs [] = grouped key init upd rs.
Proof.
  induction rs as [|r rs IH] using rev_ind; [reflexivity|].
  rewrite fold_left_app. simpl. rewrite IH. apply group_step_grouped.
Qed.

End Grouping.


Section RowFacts.

Context {V : Type}.

Lemma prop_get_set_same (o : JSObject V) (k : string) (v : V) :
  prop_get k (prop_set k v o) = Some v.
Proof.
  induction o as [|[k' v'] o IH]; simpl.
  - now rewrite String.eqb_refl.
  - destruct (String.eqb k' k) eqn:E; simpl; now rewrite E.
Qed.

Lemma prop_get_set_other (o : JSObject V) (k k' : string) (v : V) :
  k' <> k -> prop_get k (prop_set k' v o) = prop_get k o.
Proof.
  intros Hne. induction o as [|[a w] o IH]; simpl.
  - destruct (String.eqb_spec k' k); [contradiction|reflexivity].
  - destruct (String.eqb_spec a k') as [->|Ha]; simpl.
    + destruct (String.eqb_spec k' k); [contradiction|reflexivity].
    + now rewrite IH.
Qed.

Lemma prop_get_fold_set (g : string -> V) (ks : list string)
  (res : JSObject V) (u : string) :
  prop_get u (fold_left (fun res k => prop_set k (g k) res) ks res)
  = if existsb (String.eqb u) ks then Some (g u) else prop_get u res.
Proof.
  revert res. induction ks as [|k t IH]; intros res; simpl; [reflexivity|].
  rewrite IH. destruct (existsb (String.eqb u) t).
  - now rewrite orb_true_r.
  - rewrite orb_false_r. destruct (String.eqb_spec u k) as [->|Hne].
    + apply prop_get_set_same.
    + apply prop_get_set_other. congruence.
Qed.

End RowFacts.

(* ================================================================= *)
(** ** Loops that complete normally *)

Lemma forEach_steps {S R : Type} (visit : S -> R -> Completion S)
  (step : S -> R -> S) (rs : list R) (s : S) :
  (forall s r, In r rs -> visit s r = Normal (step s r)) ->
  forEach visit rs s = Normal (fold_left step rs s).
Proof.
  revert s. induction rs as [|r rs IH]; intros s H; [reflexivity|].
  cbn [forEach fold_left]. rewrite (H s r) by now left.
  apply IH. intros s' r' Hin. apply H. now right.
Qed.

Lemma forEach_app {S R : Type} (visit : S -> R -> Completion S)
  (rs rs' : list R) (s : S) :
  forEach visit (rs ++ rs') s
  = match forEach visit rs s with
    | Normal s' => forEach visit rs' s'
    | Throw e => Throw e
    | Untracked => Untracked
    end.
Proof.
  revert s. induction rs as [|r rs IH]; intros s; [reflexivity|].
  cbn [forEach app]. destruct (visit s r); [apply IH|reflexivity..].
Qed.

Lemma inherited_proto (k : string) :
  inherited k = false -> String.eqb k "__proto__" = false.
Proof.
  intros H. destruct (String.eqb_spec k "__proto__") as [->|_];
    [discriminate H|reflexivity].
Qed.

(** A key that names no inherited property finds an own property or
    nothing. *)
Lemma lookup_plain {V : Type} (k : string) (o : JSObject V) :
  inherited k = false ->
  lookup k o = match prop_get k o with
               | Some v => Own v
               | None => Undefined
               end.
Proof.
  intros H. unfold lookup. destruct (prop_get k o); [reflexivity|].
  now rewrite (inherited_proto k H), H.
Qed.

(** A key that names an inherited property is never an own property of a
    table the builders fill. *)
Lemma lookup_inherited {V : Type} (k : string) (o : JSObject V) :
  inherited k = true -> prop_get k o = None ->
  lookup k o = if String.eqb k "__proto__" then ObjectPrototype
               else Builtin k.
Proof. intros H H0. unfold lookup. now rewrite H0, H. Qed.

(* ================================================================= *)
(** ** Each loop body is a grouping step *)

Lemma leaderboard_visit_step (o : JSObject SbuData) (r : Report) :
  inherited (unit_name r) = false ->
  leaderboard_visit o r
  = Normal (group_step leaderboard_key (mkSbuData [] 0) push_score o r).
Proof.
  unfold leaderboard_visit, group_step, leaderboard_key, has_unit, counted,
    unit_name, push_score, score_of.
  destruct (report_sbu_name r) as [[|c s]|]; simpl; try reflexivity.
  destruct (calculated_score r) as [q|]; simpl; try reflexivity.
  destruct (negb (PrimFloat.eqb q 0 || is_nan q)); simpl; try reflexivity.
  intros Hp. rewrite (lookup_plain _ o Hp).
  destruct (prop_get (String c s) o) eqn:E.
  - now rewrite prop_update_twice.
  - rewrite prop_set_fresh by assumption.
    now rewrite !prop_update_fresh by assumption.
Qed.

Lemma performance_push_step (r : Report) (q : float)
  (sbuData : JSObject (list float)) :
  inherited (unit_name r) = false -> calculated_score r = Some q ->
  performance_push (unit_name r) q sbuData = Normal (push_unit r sbuData).
Proof.
  intros Hp Hq. unfold performance_push, push_unit, group_step, cell_key,
    push_cell, score_of. rewrite Hq, (lookup_plain _ sbuData Hp).
  destruct (prop_get (unit_name r) sbuData) eqn:E; [reflexivity|].
  rewrite prop_set_fresh by assumption.
  now rewrite prop_update_fresh by assumption.
Qed.

Lemma performance_visit_step (o : JSObject (JSObject (list float)))
  (r : Report) :
  inherited (unit_name r) = false -> inherited (indicator_name r) = false ->
  performance_visit o r = Normal (group_step performance_key [] push_unit o r).
Proof.
  intros Hu Hi.
  unfold performance_visit, group_step, performance_key, has_unit,
    has_indicator, counted.
  destruct (report_sbu_name r) as [[|c s]|] eqn:Eu; simpl; try reflexivity.
  destruct (indicator_type r) as [[|c' s']|] eqn:Ei; simpl; try reflexivity.
  destruct (calculated_score r) as [q|] eqn:Eq; simpl; try reflexivity.
  destruct (negb (PrimFloat.eqb q 0 || is_nan q)); simpl; try reflexivity.
  assert (Hname : unit_name r = String c s)
    by (unfold unit_name; now rewrite Eu).
  assert (Hind : indicator_name r = String c' s')
    by (unfold indicator_name; now rewrite Ei).
  rewrite Hind in *. rewrite (lookup_plain _ o Hi).
  rewrite <- Hname.
  unfold JSObject in *.
  destruct (prop_get (String c' s') o) as [d|] eqn:E.
  - rewrite E, (performance_push_step r q d Hu Eq).
    f_equal. now apply (prop_set_present o _ d (push_unit r)).
  - rewrite prop_get_set_same, (performance_push_step r q [] Hu Eq).
    f_equal. rewrite (prop_set_fresh o _ [] E).
    rewrite (prop_set_present _ _ [] (push_unit r))
      by (rewrite <- (prop_set_fresh o _ [] E); apply prop_get_set_same).
    now apply prop_update_fresh.
Qed.

Lemma trend_visit_step (o : JSObject Bucket.t) (r : Report) :
  trend_visit o r = group_step trend_key (Bucket.mk 0 0 0) tally o r.
Proof.
  unfold trend_visit, group_step, trend_key, tally.
  destruct (prop_get (monthKey r) o) eqn:E.
  - destruct (is_approved r); [|destruct (is_rejected r)];
      rewrite ?prop_update_twice; now apply prop_update_ext.
  - rewrite prop_set_fresh by assumption.
    destruct (is_approved r); [|destruct (is_rejected r)];
      now rewrite !prop_update_fresh by assumption.
Qed.

Lemma fold_left_ext {A B : Type} (f g : A -> B -> A) (l : list B) (a : A) :
  (forall x y, f x y = g x y) -> fold_left f l a = fold_left g l a.
Proof.
  intros H. revert a. induction l as [|b l IH]; simpl; intros a;
    [reflexivity|]. now rewrite H, IH.
Qed.

Lemma monthlyData_grouped (reports : list Report) :
  monthlyData reports = grouped trend_key (Bucket.mk 0 0 0) tally reports.
Proof.
  unfold monthlyData. rewrite <- fold_group_step.
  apply fold_left_ext, trend_visit_step.
Qed.


Lemma composition_key_plain (r : Report) :
  inherited (indicator_name r) = false -> inherited (composition_key r) = false.
Proof.
  unfold composition_key, indicator_name.
  destruct (indicator_type r) as [[|c s]|]; simpl; auto.
Qed.

Lemma composition_visit_step (o : JSObject CountValue) (r : Report) :
  inherited (indicator_name r) = false ->
  composition_visit o r
  = group_step composition_group (Count 0) count_up o r.
Proof.
  intros Hp. apply composition_key_plain in Hp.
  unfold composition_visit, group_step, composition_group, count_up.
  rewrite (lookup_plain _ o Hp).
  destruct (prop_get (composition_key r) o) as [[n|f s]|] eqn:E.
  - rewrite (prop_set_present o _ (Count n)
               (fun v => match v with
                         | Count n => Count (count_or_zero n + 1)
                         | Text f s => Text f (s ++ "1")
                         end)) by assumption.
    apply prop_update_ext. intros [[|m]|f s]; reflexivity.
  - rewrite (prop_set_present o _ (Text f s)
               (fun v => match v with
                         | Count n => Count (count_or_zero n + 1)
                         | Text f s => Text f (s ++ "1")
                         end)) by assumption.
    apply prop_update_ext. intros [[|m]|f' s']; reflexivity.
  - now rewrite prop_set_fresh by assumption.
Qed.

Lemma fold_left_ext_in {A B : Type} (f g : A -> B -> A) (l : list B) (a : A) :
  (forall x y, In y l -> f x y = g x y) -> fold_left f l a = fold_left g l a.
Proof.
  revert a. induction l as [|b l IH]; simpl; intros a H; [reflexivity|].
  rewrite H by now left. apply IH. intros x y Hy. apply H. now right.
Qed.

Lemma plain_units_In (reports : list Report) (r : Report) :
  plain_units reports -> In r reports -> inherited (unit_name r) = false.
Proof.
  unfold plain_units. rewrite forallb_forall. intros H Hr.
  apply negb_true_iff. now apply H.
Qed.

Lemma plain_indicators_In (reports : list Report) (r : Report) :
  plain_indicators reports -> In r reports ->
  inherited (indicator_name r) = false.
Proof.
  unfold plain_indicators. rewrite forallb_forall. intros H Hr.
  apply negb_true_iff. now apply H.
Qed.

Lemma sbuScores_grouped (reports : list Report) :
  plain_units reports ->
  sbuScores reports
  = Normal (grouped leaderboard_key (mkSbuData [] 0) push_score reports).
Proof.
  intros H. unfold sbuScores. rewrite <- fold_group_step.
  apply forEach_steps. intros s r Hr.
  apply leaderboard_visit_step. now apply (plain_units_In reports).
Qed.

Lemma indicatorPerformance_grouped (reports : list Report) :
  plain_units reports -> plain_indicators reports ->
  indicatorPerformance reports
  = Normal (grouped performance_key [] push_unit reports).
Proof.
  intros Hu Hi. unfold indicatorPerformance. rewrite <- fold_group_step.
  apply forEach_steps. intros s r Hr. apply performance_visit_step.
  - now apply (plain_units_In reports).
  - now apply (plain_indicators_In reports).
Qed.

Lemma indicatorCounts_grouped (reports : list Report) :
  plain_indicators reports ->
  indicatorCounts reports
  = grouped composition_group (Count 0) count_up reports.
Proof.
  intros H. unfold indicatorCounts. rewrite <- fold_group_step.
  apply fold_left_ext_in. intros o r Hr. apply composition_visit_step.
  now apply (plain_indicators_In reports).
Qed.

(* ================================================================= *)
(** ** Enumeration order *)

Section Enumeration.

Context {A : Type}.
Variable key : A -> string.

Lemma insert_ascending_perm (x : A) (l : list A) :
  Permutation (insert_ascending key x l) (x :: l).
Proof.
  induction l as [|y t IH]; simpl; [reflexivity|].
  destruct (index_value (key x) <=? index_value (key y))%N; [reflexivity|].
  rewrite IH. apply perm_swap.
Qed.

Lemma sort_ascending_perm (l : list A) :
  Permutation (fold_right (insert_ascending key) [] l) l.
Proof.
  induction l as [|x t IH]; simpl; [reflexivity|].
  rewrite insert_ascending_perm. now apply perm_skip.
Qed.

Lemma filter_split_perm (p : A -> bool) (l : list A) :
  Permutation (filter p l ++ filter (fun x => negb (p x)) l) l.
Proof.
  induction l as [|x t IH]; simpl; [reflexivity|].
  destruct (p x); simpl.
  - now apply perm_skip.
  - rewrite <- Permutation_middle. now apply perm_skip.
Qed.

Lemma enumeration_order_perm (l : list A) :
  Permutation (enumeration_order key l) l.
Proof.
  unfold enumeration_order. rewrite sort_ascending_perm.
  apply filter_split_perm.
Qed.

Lemma enumeration_order_plain (l : list A) :
  (forall x, In x l -> is_index (key x) = false) ->
  enumeration_order key l = l.
Proof.
  intros H. unfold enumeration_order.
  assert (H1 : filter (fun x => is_index (key x)) l = []).
  { induction l as [|x t IH]; simpl; [reflexivity|].
    rewrite (H x) by now left. apply IH. intros y Hy. apply H. now right. }
  assert (H2 : filter (fun x => negb (is_index (key x))) l = l).
  { induction l as [|x t IH]; simpl; [reflexivity|].
    rewrite (H x) by now left. simpl. f_equal. apply IH.
    - intros y Hy. apply H. now right.
    - simpl in H1. rewrite (H x) in H1 by now left. assumption. }
  now rewrite H1, H2.
Qed.

Lemma enumeration_order_In (x : A) (l : list A) :
  In x (enumeration_order key l) <-> In x l.
Proof.
  split; apply Permutation_in;
    [apply enumeration_order_perm|symmetry; apply enumeration_order_perm].
Qed.

End Enumeration.

Lemma insert_ascending_map {A B : Type} (key : A -> string) (g : B -> A)
  (x : B) (l : list B) :
  insert_ascending key (g x) (map g l)
  = map g (insert_ascending (fun y => key (g y)) x l).
Proof.
  induction l as [|y t IH]; simpl; [reflexivity|].
  destruct (index_value (key (g x)) <=? index_value (key (g y)))%N;
    [reflexivity|]. simpl. now rewrite IH.
Qed.

Lemma enumeration_order_map {A B : Type} (key : A -> string) (g : B -> A)
  (l : list B) :
  enumeration_order key (map g l)
  = map g (enumeration_order (fun y => key (g y)) l).
Proof.
  unfold enumeration_order. rewrite !filter_map_swap, map_app. f_equal.
  induction (filter (fun a => is_index (key (g a))) l) as [|x t IH]; simpl;
    [reflexivity|].
  now rewrite IH, insert_ascending_map.
Qed.

(** The entries of a grouped object: the same table, over the keys in
    enumeration order. *)
Lemma Object_entries_table {V : Type} (f : string -> V) (ks : list string) :
  Object_entries (map (fun k => (k, f k)) ks)
  = map (fun k => (k, f k)) (enumeration_order (fun k => k) ks).
Proof. unfold Object_entries. now rewrite enumeration_order_map. Qed.

(* ================================================================= *)
(** ** Counting *)

Lemma sum_nat_app (l l' : list nat) :
  sum_nat (l ++ l') = (sum_nat l + sum_nat l')%nat.
Proof. induction l as [|x t IH]; simpl; [reflexivity|]. rewrite IH. lia. Qed.

Lemma sum_nat_perm (l l' : list nat) :
  Permutation l l' -> sum_nat l = sum_nat l'.
Proof. induction 1; simpl; lia. Qed.

Lemma keys_of_total {R : Type} (f : R -> string) (rs : list R) :
  keys_of (fun r => Some (f r)) rs = map f rs.
Proof.
  induction rs as [|r rs IH]; simpl; [reflexivity|]. now rewrite <- IH.
Qed.

Lemma has_key_total {R : Type} (f : R -> string) (k : string) (r : R) :
  has_key (fun r => Some (f r)) k r = String.eqb (f r) k.
Proof. reflexivity. Qed.

Section Measure.

Context {R V : Type}.
Variable key : R -> option string.
Variable init : V.
Variable upd : R -> V -> V.
Variable m : V -> nat.
Hypothesis m_init : m init = 0%nat.
Hypothesis m_upd : forall r v, m (upd r v) = S (m v).

Lemma measure_update (o : JSObject V) (k : string) (r : R) (v : V) :
  prop_get k o = Some v ->
  measure m (prop_update k (upd r) o) = S (measure m o).
Proof.
  unfold measure. induction o as [|[k' v'] o IH]; simpl; [discriminate|].
  destruct (String.eqb k' k); simpl; intros H.
  - now rewrite m_upd.
  - rewrite IH by assumption. lia.
Qed.

Lemma measure_step (o : JSObject V) (r : R) :
  measure m (group_step key init upd o r)
  = (measure m o + List.length (keys_of key [r]))%nat.
Proof.
  unfold group_step, keys_of. simpl.
  destruct (key r) as [k|]; simpl; [|lia].
  destruct (prop_get k o) eqn:E.
  - rewrite (measure_update o k r v E). lia.
  - unfold measure. rewrite map_app, sum_nat_app. simpl.
    rewrite m_upd, m_init. lia.
Qed.

Lemma measure_fold (rs : list R) (o : JSObject V) :
  measure m (fold_left (group_step key init upd) rs o)
  = (measure m o + List.length (keys_of key rs))%nat.
Proof.
  revert o. induction rs as [|r rs IH]; intros o; [simpl; lia|].
  cbn [fold_left]. rewrite IH, measure_step.
  change (r :: rs) with ([r] ++ rs).
  rewrite (keys_of_app key [r] rs), length_app. lia.
Qed.

Lemma measure_grouped (rs : list R) :
  measure m (grouped key init upd rs) = List.length (keys_of key rs).
Proof. rewrite <- fold_group_step, measure_fold. reflexivity. Qed.

End Measure.

Lemma count_split {A : Type} (s p q : A -> bool) (l : list A) :
  (forall x, p x = true -> q x = false) ->
  (count (fun x => s x && p x) l + count (fun x => s x && q x) l
   <= count s l)%nat.
Proof.
  intros H. unfold count. induction l as [|x t IH]; simpl; [lia|].
  destruct (s x); simpl; [|assumption].
  destruct (p x) eqn:Hp; simpl.
  - rewrite (H x Hp). simpl. lia.
  - destruct (q x); simpl; lia.
Qed.

Lemma count_filter {A : Type} (s p : A -> bool) (l : list A) :
  count p (filter s l) = count (fun x => s x && p x) l.
Proof.
  unfold count. induction l as [|x t IH]; simpl; [reflexivity|].
  destruct (s x); simpl; [|assumption].
  destruct (p x); simpl; now rewrite IH.
Qed.

Lemma In_map_index {A B : Type} (f : A -> nat -> B) (l : list A) (i : nat)
  (y : B) :
  In y (map_index f i l) -> exists x j, In x l /\ y = f x j.
Proof.
  revert i. induction l as [|x t IH]; simpl; intros i; [tauto|].
  intros [H|H].
  - exists x, i. auto.
  - destruct (IH _ H) as [x' [j [Hin Hy]]]. exists x', j. auto.
Qed.

Lemma map_map_index {A B C : Type} (g : B -> C) (f : A -> nat -> B)
  (l : list A) (i : nat) :
  map g (map_index f i l) = map_index (fun x j => g (f x j)) i l.
Proof.
  revert i. induction l as [|x t IH]; simpl; intros i; [reflexivity|].
  now rewrite IH.
Qed.

Lemma map_index_ext {A B : Type} (f g : A -> nat -> B) (l : list A)
  (i : nat) :
  (forall x j, f x j = g x j) -> map_index f i l = map_index g i l.
Proof.
  intros H. revert i. induction l as [|x t IH]; simpl; intros i;
    [reflexivity|]. now rewrite H, IH.
Qed.

Lemma map_index_plain {A B : Type} (f : A -> B) (l : list A) (i : nat) :
  map_index (fun x _ => f x) i l = map f l.
Proof.
  revert i. induction l as [|x t IH]; simpl; intros i; [reflexivity|].
  now rewrite IH.
Qed.

(* ================================================================= *)
(** ** The trend series as a function of the input *)

Lemma approved_not_rejected (r : Report) :
  is_approved r = true -> is_rejected r = false.
Proof.
  unfold is_approved, is_rejected. intros H.
  apply orb_true_iff in H.
  destruct H as [H|H]; apply String.eqb_eq in H; rewrite H; reflexivity.
Qed.

Lemma is_approved_status (r : Report) :
  is_approved r = status_in ["approved"; "completed"] r.
Proof. unfold is_approved, status_in. simpl. now rewrite orb_false_r. Qed.

Lemma is_rejected_status (r : Report) :
  is_rejected r = status_in ["rejected"; "system_rejected"] r.
Proof. unfold is_rejected, status_in. simpl. now rewrite orb_false_r. Qed.

Lemma tally_fold (l : list Report) (b : Bucket.t) :
  fold_left (fun b r => tally r b) l b
  = Bucket.mk (Bucket.total b + List.length l)
      (Bucket.approved b + count is_approved l)
      (Bucket.rejected b + count is_rejected l).
Proof.
  revert b. unfold count.
  induction l as [|r l IH]; intros [t a j]; simpl.
  - f_equal; lia.
  - rewrite IH. unfold tally. simpl.
    destruct (is_approved r) eqn:Ha.
    + rewrite (approved_not_rejected r Ha). simpl. f_equal; lia.
    + destruct (is_rejected r); simpl; f_equal; lia.
Qed.

Lemma monthKey_not_index (r : Report) : is_index (monthKey r) = false.
Proof.
  unfold monthKey. destruct (created_at r) as [|y []]; reflexivity.
Qed.

Lemma trendArray_table (reports : list Report) :
  trendArray reports
  = map (fun k =>
           mkTrendPoint k
             (count (in_month k) reports)
             (count (fun r => in_month k r
                              && status_in ["approved"; "completed"] r)
                reports)
             (count (fun r => in_month k r
                              && status_in ["rejected"; "system_rejected"] r)
                reports))
      (first_seen (map monthKey reports)).
Proof.
  unfold trendArray. rewrite monthlyData_grouped. unfold grouped.
  unfold trend_key. rewrite keys_of_total, Object_entries_table.
  rewrite enumeration_order_plain.
  - rewrite map_map. apply map_ext. intros k. unfold trend_point.
    unfold group_value. rewrite tally_fold. simpl.
    rewrite !count_filter. unfold count.
    f_equal; try reflexivity; f_equal; apply filter_ext; intros r;
      unfold has_key, in_month, is_approved, is_rejected;
      now rewrite orb_false_r.
  - intros k Hk. apply first_seen_In, in_map_iff in Hk.
    destruct Hk as [r [<- _]]. apply monthKey_not_index.
Qed.

Lemma measure_entries {V : Type} (m : V -> nat) (o : JSObject V) :
  measure m (Object_entries o) = measure m o.
Proof.
  unfold measure, Object_entries. apply sum_nat_perm, Permutation_map.
  apply enumeration_order_perm.
Qed.

Lemma trend_totals (reports : list Report) :
  sum_nat (map total_laporan (trendArray reports)) = List.length reports.
Proof.
  unfold trendArray. rewrite map_map.
  transitivity (measure Bucket.total (Object_entries (monthlyData reports))).
  - unfold measure. f_equal. apply map_ext. now intros [k b].
  - rewrite measure_entries, monthlyData_grouped.
    rewrite measure_grouped by reflexivity.
    unfold trend_key. now rewrite keys_of_total, length_map.
Qed.

(** C6: every bucket counts its month's records once in [total_laporan],
    the approved and completed ones in [approved], the rejected and
    system-rejected ones in [rejected], and nothing else; the totals add up
    to the number of input records and [approved + rejected <= total] in
    every bucket. *)
Theorem trend_counts_by_status (reports : list Report) (c : Component) :
  let points := trendData (exec (generateTrendData reports) c) in
  (forall p, In p points ->
     total_laporan p = count (in_month (month p)) reports
     /\ approved p
        = count (fun r => in_month (month p) r
                          && status_in ["approved"; "completed"] r) reports
     /\ rejected p
        = count (fun r => in_month (month p) r
                          && status_in ["rejected"; "system_rejected"] r)
            reports
     /\ (approved p + rejected p <= total_laporan p)%nat)
  /\ sum_nat (map total_laporan points) = List.length reports.
Proof.
  change (trendData (exec (generateTrendData reports) c))
    with (trendArray reports).
  cbv zeta. split; [|apply trend_totals].
  intros p Hp. rewrite trendArray_table in Hp.
  apply in_map_iff in Hp. destruct Hp as [k [<- _]]. cbn [month total_laporan
    approved rejected].
  repeat split. apply count_split. intros r Hr.
  rewrite <- is_approved_status in Hr. rewrite <- is_rejected_status.
  now apply approved_not_rejected.
Qed.

Lemma count_positive {A : Type} (p : A -> bool) (l : list A) (x : A) :
  In x l -> p x = true -> (1 <= count p l)%nat.
Proof.
  intros Hin Hp. unfold count.
  assert (H : In x (filter p l)) by (apply filter_In; auto).
  destruct (filter p l); [destruct H|simpl; lia].
Qed.


Lemma Month_eqb_eq (a b : Month) : Month_eqb a b = true <-> a = b.
Proof. destruct a, b; simpl; split; intros H; congruence. Qed.

(** Two records share a bucket exactly when they are dated in the same
    calendar month, whatever the years, or are both undated. *)
Lemma monthKey_same_month (r r' : Report) :
  monthKey r = monthKey r' <-> same_month r r' = true.
Proof.
  unfold monthKey, same_month.
  destruct (created_at r) as [|y m], (created_at r') as [|y' m']; simpl.
  - tauto.
  - split; [destruct m'|]; discriminate.
  - split; [destruct m|]; discriminate.
  - rewrite Month_eqb_eq. split.
    + destruct m, m'; simpl; intros H; congruence.
    + now intros ->.
Qed.

Lemma in_month_same_month (r r' : Report) :
  in_month (monthKey r) r' = same_month r r'.
Proof.
  unfold in_month. apply eq_true_iff_eq.
  rewrite String.eqb_eq, <- monthKey_same_month. split; congruence.
Qed.

(** C7: the buckets are keyed by the calendar month alone.  Two records
    fall into the same bucket exactly when their dates lie in the same
    calendar month, whatever the years (undated records sharing a bucket of
    their own); there is one bucket per month that has a record, in order
    of first occurrence in the input and not of the calendar; and a bucket
    counts the records of its month over all years. *)
Theorem trend_buckets_by_month_name (reports : list Report) (c : Component) :
  let points := trendData (exec (generateTrendData reports) c) in
  let bucket_of := fun r => toLocaleDateString_month_short (created_at r) in
  map month points = first_seen (map bucket_of reports)
  /\ NoDup (map month points)
  /\ (forall r r', bucket_of r = bucket_of r' <-> same_month r r' = true)
  /\ (forall r1 r2 y1 y2 m,
        created_at r1 = LocalDate y1 m -> created_at r2 = LocalDate y2 m ->
        bucket_of r1 = bucket_of r2)
  /\ (forall r r' y y' m m',
        created_at r = LocalDate y m -> created_at r' = LocalDate y' m' ->
        m <> m' -> bucket_of r <> bucket_of r')
  /\ (forall r, In r reports ->
        exists p, In p points /\ month p = bucket_of r
                  /\ total_laporan p = count (same_month r) reports
                  /\ (1 <= total_laporan p)%nat)
  /\ (forall p, In p points ->
        exists r, In r reports /\ month p = bucket_of r
                  /\ total_laporan p = count (same_month r) reports)
  /\ (forall r r' p p', In p points -> In p' points ->
        month p = bucket_of r -> month p' = bucket_of r' ->
        same_month r r' = true -> p = p').
Proof.
  change (trendData (exec (generateTrendData reports) c))
    with (trendArray reports).
  cbv zeta.
  change (fun r => toLocaleDateString_month_short (created_at r))
    with monthKey.
  assert (Hm : map month (trendArray reports)
               = first_seen (map monthKey reports)).
  { rewrite trendArray_table, map_map. simpl. apply map_id. }
  assert (Hp : forall p, In p (trendArray reports) ->
            exists r, In r reports /\ month p = monthKey r
                      /\ total_laporan p = count (same_month r) reports).
  { intros p H. rewrite trendArray_table in H. apply in_map_iff in H.
    destruct H as [k [<- Hk]]. apply first_seen_In, in_map_iff in Hk.
    destruct Hk as [r [<- Hr]]. exists r. repeat split; [assumption|].
    cbn [total_laporan]. unfold count. f_equal. apply filter_ext.
    intros r'. apply in_month_same_month. }
  split; [exact Hm|].
  split; [rewrite Hm; apply first_seen_NoDup|].
  split; [exact monthKey_same_month|].
  split.
  { intros r1 r2 y1 y2 m H1 H2. apply monthKey_same_month.
    unfold same_month. rewrite H1, H2. simpl. now apply Month_eqb_eq. }
  split.
  { intros r r' y y' m m' H1 H2 Hne E. apply monthKey_same_month in E.
    unfold same_month in E. rewrite H1, H2 in E. simpl in E.
    now apply Month_eqb_eq in E. }
  split.
  { intros r Hr.
    assert (Hin : In (monthKey r) (map month (trendArray reports))).
    { rewrite Hm, first_seen_In. now apply in_map. }
    apply in_map_iff in Hin. destruct Hin as [p [Hk Hin]].
    destruct (Hp p Hin) as [r' [Hr' [Hk' Ht]]].
    assert (Hs : forall x, same_month r' x = same_month r x).
    { intros x. rewrite <- !in_month_same_month. congruence. }
    exists p. split; [assumption|]. split; [assumption|].
    assert (Hc : total_laporan p = count (same_month r) reports).
    { rewrite Ht. unfold count. f_equal. now apply filter_ext. }
    split; [exact Hc|]. rewrite Hc.
    apply (count_positive _ _ r Hr).
    apply monthKey_same_month. reflexivity. }
  split; [exact Hp|].
  intros r r' p p' Hin Hin' Hk Hk' Hs.
  apply monthKey_same_month in Hs.
  assert (Hmonth : month p = month p') by congruence.
  rewrite trendArray_table in Hin, Hin'.
  apply in_map_iff in Hin, Hin'.
  destruct Hin as [k [<- _]], Hin' as [k' [<- _]].
  cbn [month] in Hmonth. now subst.
Qed.

(* ================================================================= *)
(** ** The composition slices as a function of the input *)

Lemma count_up_fold (l : list Report) (n : nat) :
  fold_left (fun v r => count_up r v) l (Count n)
  = Count (n + List.length l).
Proof.
  revert n. induction l as [|r l IH]; intros n; simpl.
  - f_equal. lia.
  - rewrite IH. f_equal. lia.
Qed.

Lemma indicatorCounts_table (reports : list Report) :
  plain_indicators reports ->
  indicatorCounts reports
  = map (fun k => (k, Count (count (in_slice k) reports)))
      (first_seen (map composition_key reports)).
Proof.
  intros H. rewrite (indicatorCounts_grouped reports H).
  unfold grouped, composition_group.
  rewrite keys_of_total. apply map_ext. intros k.
  unfold group_value. now rewrite count_up_fold.
Qed.

Lemma compositionArray_names (reports : list Report) :
  plain_indicators reports ->
  map name (compositionArray reports)
  = enumeration_order (fun k => k) (first_seen (map composition_key reports)).
Proof.
  intros H. unfold compositionArray.
  rewrite (indicatorCounts_table reports H), Object_entries_table.
  rewrite map_map_index.
  rewrite (map_index_ext _ (fun x _ => fst x)) by now intros [k n] j.
  rewrite map_index_plain, map_map. simpl. apply map_id.
Qed.

Lemma compositionArray_values (reports : list Report) :
  map value (compositionArray reports)
  = map snd (Object_entries (indicatorCounts reports)).
Proof.
  unfold compositionArray. rewrite map_map_index.
  rewrite (map_index_ext _ (fun x _ => snd x)) by now intros [k n] j.
  apply map_index_plain.
Qed.

Lemma tally_up_fold (l : list Report) (n : nat) :
  fold_left (fun (v : nat) (_ : Report) => S v) l n = (n + List.length l)%nat.
Proof.
  revert n. induction l as [|r l IH]; intros n; simpl; [lia|].
  rewrite IH. lia.
Qed.

(** For labels that name no inherited property the counts of the slices
    add up to the number of records. *)
Lemma composition_total (reports : list Report) :
  plain_indicators reports ->
  sum_nat (map (fun s => count_of (value s)) (compositionArray reports))
  = List.length reports.
Proof.
  intros H. rewrite <- (map_map value count_of), compositionArray_values.
  rewrite map_map.
  change (measure count_of (Object_entries (indicatorCounts reports))
          = List.length reports).
  rewrite measure_entries, (indicatorCounts_table reports H).
  transitivity
    (measure (fun n : nat => n)
       (grouped composition_group 0%nat (fun _ n => S n) reports)).
  - unfold measure, grouped, composition_group.
    rewrite keys_of_total, !map_map. f_equal. apply map_ext. intros k.
    cbn [snd count_of]. unfold group_value. rewrite tally_up_fold.
    reflexivity.
  - rewrite measure_grouped by reflexivity.
    unfold composition_group. now rewrite keys_of_total, length_map.
Qed.

Lemma composition_slice_counts (reports : list Report) (s : CompositionSlice) :
  plain_indicators reports ->
  In s (compositionArray reports) ->
  value s = Count (count (in_slice (name s)) reports).
Proof.
  intros Hp. unfold compositionArray.
  rewrite (indicatorCounts_table reports Hp), Object_entries_table.
  intros H. apply In_map_index in H. destruct H as [[k n] [j [Hin ->]]].
  apply in_map_iff in Hin. destruct Hin as [k' [Heq _]].
  inversion Heq; subst. reflexivity.
Qed.

(** C8 fails on labels that name an inherited property: a record whose
    indicator is [__proto__] leaves no trace, and the records whose
    indicator is [constructor] end up as a string, not as a count.  Of four
    records the slices count one. *)
Lemma composition_loses_inherited_labels :
  let reports :=
    [sample (Some "A") (Some "X") None "approved" (LocalDate 2024 January);
     sample (Some "A") (Some "__proto__") None "approved"
       (LocalDate 2024 January);
     sample (Some "B") (Some "constructor") None "queued"
       (LocalDate 2024 January);
     sample (Some "B") (Some "constructor") None "queued"
       (LocalDate 2024 January)] in
  let c := fresh (fun _ => 0%float) in
  let slices :=
    activityCompositionData (exec (generateCompositionData reports) c) in
  fst (generateCompositionData reports c) = Normal tt
  /\ map (fun s => (name s, value s)) slices
     = [("X", Count 1); ("constructor", Text "constructor" "11")]
  /\ sum_nat (map (fun s => count_of (value s)) slices) = 1%nat
  /\ List.length reports = 4%nat.
Proof. cbv zeta. repeat split. Qed.

(** C9: on the empty collection each builder stores the empty sequence;
    no builder has a failing step. *)
Theorem empty_input_gives_empty_outputs (c : Component) :
  leaderboardData (exec (generateLeaderboardData []) c) = []
  /\ performanceComparisonData (exec (generatePerformanceData []) c) = []
  /\ trendData (exec (generateTrendData []) c) = []
  /\ activityCompositionData (exec (generateCompositionData []) c) = []
  /\ fst (generateLeaderboardData [] c) = Normal tt
  /\ fst (generatePerformanceData [] c) = Normal tt
  /\ fst (generateTrendData [] c) = Normal tt
  /\ fst (generateCompositionData [] c) = Normal tt.
Proof. repeat split. Qed.

(* ================================================================= *)
(** ** Sorting with a consistent comparator *)

Section SortFacts.

Context {A : Type}.
Variable cmp : A -> A -> float.

Lemma sort_insert_perm (x : A) (l : list A) :
  Permutation (sort_insert cmp x l) (x :: l).
Proof.
  induction l as [|y t IH]; simpl; [reflexivity|].
  destruct (0 <? cmp x y)%float; [|reflexivity].
  rewrite IH. apply perm_swap.
Qed.

Lemma Array_sort_perm (l : list A) : Permutation (Array_sort cmp l) l.
Proof.
  unfold Array_sort. induction l as [|x t IH]; simpl; [reflexivity|].
  rewrite sort_insert_perm. now apply perm_skip.
Qed.

Lemma Array_sort_In (x : A) (l : list A) : In x (Array_sort cmp l) <-> In x l.
Proof.
  split; apply Permutation_in;
    [apply Array_sort_perm|symmetry; apply Array_sort_perm].
Qed.

(** What [consistent] says, element by element. *)
Lemma consistent_spec (L : list A) :
  consistent cmp L = true ->
  (forall a b, In a L -> In b L ->
     goes_after cmp a b = true -> goes_after cmp b a = false)
  /\ (forall a b c, In a L -> In b L -> In c L ->
        goes_after cmp a b = false -> goes_after cmp b c = false ->
        goes_after cmp a c = false).
Proof.
  unfold consistent. rewrite forallb_forall. intros H. split.
  - intros a b Ha Hb Hab. specialize (H a Ha).
    rewrite forallb_forall in H. specialize (H b Hb).
    apply andb_true_iff in H. destruct H as [H _].
    rewrite Hab in H. simpl in H. now apply negb_true_iff in H.
  - intros a b c Ha Hb Hc Hab Hbc. specialize (H a Ha).
    rewrite forallb_forall in H. specialize (H b Hb).
    apply andb_true_iff in H. destruct H as [_ H].
    rewrite forallb_forall in H. specialize (H c Hc).
    rewrite Hab, Hbc in H. simpl in H. now apply negb_true_iff in H.
Qed.

Variable L : list A.
Hypothesis one_way :
  forall a b, In a L -> In b L ->
    goes_after cmp a b = true -> goes_after cmp b a = false.
Hypothesis chain :
  forall a b c, In a L -> In b L -> In c L ->
    goes_after cmp a b = false -> goes_after cmp b c = false ->
    goes_after cmp a c = false.

Lemma sort_insert_sorted (x : A) (l : list A) :
  In x L -> incl l L ->
  StronglySorted (fun a b => goes_after cmp a b = false) l ->
  StronglySorted (fun a b => goes_after cmp a b = false)
    (sort_insert cmp x l).
Proof.
  intros Hx Hl Hs. induction Hs as [|y t Hs IH Hy]; simpl.
  - repeat constructor.
  - assert (HyL : In y L) by (apply Hl; now left).
    assert (HtL : incl t L) by (intros z Hz; apply Hl; now right).
    destruct (0 <? cmp x y)%float eqn:E.
    + constructor; [now apply IH|].
      eapply Permutation_Forall.
      * symmetry. apply sort_insert_perm.
      * constructor; [|assumption].
        now apply one_way.
    + constructor.
      * now constructor.
      * constructor; [exact E|].
        rewrite Forall_forall in *. intros z Hz.
        apply (chain x y z); auto.
Qed.

Lemma Array_sort_sorted (l : list A) :
  incl l L ->
  StronglySorted (fun a b => goes_after cmp a b = false) (Array_sort cmp l).
Proof.
  unfold Array_sort. induction l as [|x t IH]; simpl; intros Hl;
    [constructor|].
  apply sort_insert_sorted.
  - apply Hl. now left.
  - intros z Hz. apply Hl. right.
    now apply (Array_sort_In z t).
  - apply IH. intros z Hz. apply Hl. now right.
Qed.

Lemma sort_insert_stable (w x : A) (l : list A) :
  In w L -> In x L -> incl l L ->
  filter (fun a => tied cmp a w) (sort_insert cmp x l)
  = filter (fun a => tied cmp a w) (x :: l).
Proof.
  intros Hw Hx Hl. induction l as [|y t IH]; simpl; [reflexivity|].
  assert (HyL : In y L) by (apply Hl; now left).
  assert (HtL : incl t L) by (intros z Hz; apply Hl; now right).
  destruct (0 <? cmp x y)%float eqn:E; [|reflexivity].
  simpl. rewrite (IH HtL). simpl.
  destruct (tied cmp x w) eqn:Ex; [|reflexivity].
  destruct (tied cmp y w) eqn:Ey; [|reflexivity].
  unfold tied in Ex, Ey.
  apply andb_true_iff in Ex, Ey.
  destruct Ex as [Ex _], Ey as [_ Ey].
  apply negb_true_iff in Ex, Ey.
  pose proof (chain x w y Hx Hw HyL Ex Ey) as Hxy.
  unfold goes_after in Hxy. congruence.
Qed.

(** Elements that the comparator ties keep their relative order. *)
Lemma Array_sort_stable (w : A) (l : list A) :
  In w L -> incl l L ->
  filter (fun a => tied cmp a w) (Array_sort cmp l)
  = filter (fun a => tied cmp a w) l.
Proof.
  intros Hw. unfold Array_sort. induction l as [|x t IH]; simpl; intros Hl;
    [reflexivity|].
  rewrite sort_insert_stable.
  - simpl. rewrite IH; [reflexivity|].
    intros z Hz. apply Hl. now right.
  - assumption.
  - apply Hl. now left.
  - intros z Hz. apply Hl. right. now apply (Array_sort_In z t).
Qed.

End SortFacts.

Lemma sort_insert_map {A B : Type} (cmp : A -> A -> float)
  (cmp' : B -> B -> float) (g : A -> B) (x : A) (l : list A) :
  (forall a b, cmp' (g a) (g b) = cmp a b) ->
  map g (sort_insert cmp x l) = sort_insert cmp' (g x) (map g l).
Proof.
  intros H. induction l as [|y t IH]; simpl; [reflexivity|].
  rewrite H. destruct (0 <? cmp x y)%float; [|reflexivity].
  simpl. now rewrite IH.
Qed.

Lemma Array_sort_map {A B : Type} (cmp : A -> A -> float)
  (cmp' : B -> B -> float) (g : A -> B) (l : list A) :
  (forall a b, cmp' (g a) (g b) = cmp a b) ->
  map g (Array_sort cmp l) = Array_sort cmp' (map g l).
Proof.
  intros H. unfold Array_sort. induction l as [|x t IH]; simpl;
    [reflexivity|].
  now rewrite (sort_insert_map cmp cmp' g), IH.
Qed.

Lemma Array_sort_ext {A : Type} (cmp cmp' : A -> A -> float) (l : list A) :
  (forall a b, cmp a b = cmp' a b) -> Array_sort cmp l = Array_sort cmp' l.
Proof.
  intros H. unfold Array_sort. induction l as [|x t IH]; simpl;
    [reflexivity|].
  rewrite IH. generalize (fold_right (sort_insert cmp') [] t).
  intros s. induction s as [|y s IHs]; simpl; [reflexivity|].
  now rewrite H, IHs.
Qed.

Lemma forallb_pointwise {A : Type} (p q : A -> bool) (l : list A) :
  (forall x, p x = q x) -> forallb p l = forallb q l.
Proof.
  intros H. induction l as [|x t IH]; simpl; [reflexivity|].
  now rewrite H, IH.
Qed.

Lemma consistent_ext {A : Type} (cmp cmp' : A -> A -> float) (l : list A) :
  (forall a b, cmp a b = cmp' a b) -> consistent cmp l = consistent cmp' l.
Proof.
  intros H. unfold consistent, goes_after.
  apply forallb_pointwise. intros a. apply forallb_pointwise. intros b.
  rewrite !H. f_equal. apply forallb_pointwise. intros c. now rewrite !H.
Qed.

(* ================================================================= *)
(** ** The leaderboard as a function of the input *)

Lemma average_mean (l : list float) : average l = double_mean l.
Proof. reflexivity. Qed.

Lemma keys_of_guard {R : Type} (g : R -> bool) (f : R -> string)
  (rs : list R) :
  keys_of (fun r => if g r then Some (f r) else None) rs = map f (filter g rs).
Proof.
  induction rs as [|r rs IH]; simpl; [reflexivity|].
  destruct (g r); simpl; now rewrite <- IH.
Qed.

Lemma has_key_guard {R : Type} (g : R -> bool) (f : R -> string) (k : string)
  (r : R) :
  has_key (fun r => if g r then Some (f r) else None) k r
  = g r && String.eqb (f r) k.
Proof. unfold has_key. now destruct (g r). Qed.

Lemma push_score_fold (l : list Report) (d : SbuData) :
  fold_left (fun d r => push_score r d) l d
  = mkSbuData (scores d ++ map score_of l)
      (totalReports d + List.length l).
Proof.
  revert d. induction l as [|r l IH]; intros [sc n]; simpl.
  - rewrite app_nil_r. f_equal. lia.
  - rewrite IH. simpl. rewrite <- app_assoc. f_equal. lia.
Qed.


Lemma grouped_unit_table (reports : list Report) :
  grouped leaderboard_key (mkSbuData [] 0) push_score reports
  = unit_table counted reports.
Proof.
  assert (Hf : forall u, filter (has_key leaderboard_key u) reports
                         = unit_records counted u reports).
  { intros u. apply filter_ext. intros r.
    apply (has_key_guard (fun r => has_unit r && counted r) unit_name). }
  unfold grouped, unit_table, units_seen.
  unfold leaderboard_key at 2. rewrite keys_of_guard.
  apply map_ext. intros u.
  unfold group_value. rewrite push_score_fold, Hf. reflexivity.
Qed.

Lemma sbuScores_table (reports : list Report) :
  plain_units reports ->
  sbuScores reports = Normal (unit_table counted reports).
Proof.
  intros Hp. rewrite (sbuScores_grouped reports Hp).
  now rewrite grouped_unit_table.
Qed.

Lemma leaderboard_item_run (u : string) (d : SbuData) (c : Component) :
  leaderboard_item (u, d) c
  = (Normal
       (Item.mk u (average (scores d)) (totalReports d)
          ((random_source c (random_calls c) - 0.5) * 5)%float),
     snd (Math_random c)).
Proof. reflexivity. Qed.

(** The first [.map] always completes: it draws one number per entry and
    leaves the four aggregates alone. *)
Lemma mapM_leaderboard_item (es : list (string * SbuData)) (c : Component) :
  exists items,
    mapM leaderboard_item es c
    = (Normal items,
       mkComponent (random_source c) (random_calls c + List.length es)
         (leaderboardData c) (performanceComparisonData c) (trendData c)
         (activityCompositionData c))
    /\ map item_core items
       = map (fun e => (fst e, average (scores (snd e)))) es.
Proof.
  revert c. induction es as [|[u d] es IH]; intros c.
  - exists []. split; [|reflexivity].
    destruct c. cbn. now rewrite Nat.add_0_r.
  - destruct (IH (snd (Math_random c))) as [items [Hrun Hcore]].
    eexists (_ :: items). split.
    + cbn [mapM]. unfold bind at 1. rewrite leaderboard_item_run.
      unfold bind at 1. rewrite Hrun. unfold ret.
      cbn [Math_random snd random_source random_calls leaderboardData
        performanceComparisonData trendData activityCompositionData
        List.length].
      now rewrite Nat.add_succ_r.
    + cbn [map item_core Item.sbu Item.score fst snd]. now rewrite Hcore.
Qed.

Lemma generateLeaderboardData_normal (reports : list Report)
  (table : JSObject SbuData) (c : Component) :
  sbuScores reports = Normal table ->
  exists items,
    map item_core items
    = map (fun e => (fst e, average (scores (snd e)))) (Object_entries table)
    /\ generateLeaderboardData reports c
       = (Normal tt,
          mkComponent (random_source c)
            (random_calls c + List.length (Object_entries table))
            (map_index leaderboard_row 0
               (Array_sort by_score_descending items))
            (performanceComparisonData c) (trendData c)
            (activityCompositionData c)).
Proof.
  intros Ht.
  destruct (mapM_leaderboard_item (Object_entries table) c)
    as [items [Hrun Hcore]].
  exists items. split; [exact Hcore|].
  unfold generateLeaderboardData, bind, lift. rewrite Ht, Hrun.
  reflexivity.
Qed.

(** When the grouping loop throws, nothing is drawn and nothing stored. *)
Lemma generateLeaderboardData_throw (reports : list Report) (e : string)
  (c : Component) :
  sbuScores reports = Throw e ->
  generateLeaderboardData reports c = (Throw e, c).
Proof.
  intros Ht. unfold generateLeaderboardData, bind, lift. now rewrite Ht.
Qed.

Lemma map_index_map {A B C : Type} (f : B -> nat -> C) (g : A -> B)
  (l : list A) (i : nat) :
  map_index f i (map g l) = map_index (fun x j => f (g x) j) i l.
Proof.
  revert i. induction l as [|x t IH]; simpl; intros i; [reflexivity|].
  now rewrite IH.
Qed.

Lemma map_index_positions {A : Type} (l : list A) (i : nat) :
  map_index (fun _ j => (j + 1)%nat) i l = seq (i + 1) (List.length l).
Proof.
  revert i. induction l as [|x t IH]; simpl; intros i; [reflexivity|].
  rewrite IH. now replace (S i + 1)%nat with (S (i + 1)) by lia.
Qed.


(** Rank, unit and rounded score of the rows depend on the units and
    means of the items only. *)
Lemma standings_by_core (items : list Item.t) :
  map standing
    (map_index leaderboard_row 0 (Array_sort by_score_descending items))
  = map_index
      (fun p j => ((j + 1)%nat, fst p, Number_toFixed_1 (snd p))) 0
      (Array_sort (descending snd) (map item_core items)).
Proof.
  rewrite map_map_index.
  rewrite (map_index_ext _
             (fun it j => ((j + 1)%nat, fst (item_core it),
                           Number_toFixed_1 (snd (item_core it)))))
    by reflexivity.
  rewrite <- (map_index_map
                (fun p j => ((j + 1)%nat, fst p, Number_toFixed_1 (snd p)))
                item_core).
  now rewrite (Array_sort_map by_score_descending (descending snd) item_core)
    by reflexivity.
Qed.

(** Rank, unit and rounded score of the rows, whatever the random draws. *)
Lemma leaderboard_standings (reports : list Report) (c : Component) :
  plain_units reports ->
  fst (generateLeaderboardData reports c) = Normal tt
  /\ map standing
       (leaderboardData (exec (generateLeaderboardData reports) c))
     = map_index
         (fun u i => ((i + 1)%nat, u,
                      Number_toFixed_1 (unit_mean counted u reports)))
         0 (ranked_units counted reports).
Proof.
  intros Hp.
  destruct (generateLeaderboardData_normal reports _ c
              (sbuScores_table reports Hp)) as [items [Hcore Hrun]].
  unfold exec. rewrite Hrun. cbn [fst snd leaderboardData].
  split; [reflexivity|].
  rewrite standings_by_core, Hcore. unfold unit_table.
  rewrite Object_entries_table, map_map.
  cbn [fst snd scores].
  unfold ranked_units.
  rewrite <- (Array_sort_map
                (descending (fun u => unit_mean counted u reports))
                (descending snd)
                (fun u => (u, unit_mean counted u reports)))
    by reflexivity.
  now rewrite map_index_map.
Qed.

Lemma leaderboard_units (reports : list Report) (c : Component) :
  plain_units reports ->
  map sbu (leaderboardData (exec (generateLeaderboardData reports) c))
  = ranked_units counted reports.
Proof.
  intros Hp.
  transitivity
    (map (fun s : nat * string * float => snd (fst s))
       (map standing
          (leaderboardData (exec (generateLeaderboardData reports) c)))).
  - now rewrite map_map.
  - rewrite (proj2 (leaderboard_standings reports c Hp)), map_map_index.
    cbn [fst snd]. rewrite map_index_plain. apply map_id.
Qed.

Lemma leaderboard_ranks (reports : list Report) (c : Component) :
  plain_units reports ->
  map rank (leaderboardData (exec (generateLeaderboardData reports) c))
  = seq 1 (List.length (ranked_units counted reports)).
Proof.
  intros Hp.
  transitivity
    (map (fun s : nat * string * float => fst (fst s))
       (map standing
          (leaderboardData (exec (generateLeaderboardData reports) c)))).
  - now rewrite map_map.
  - rewrite (proj2 (leaderboard_standings reports c Hp)), map_map_index.
    cbn [fst snd]. apply (map_index_positions _ 0).
Qed.

Lemma leaderboard_scores (reports : list Report) (c : Component)
  (row : LeaderboardRow) :
  plain_units reports ->
  In row (leaderboardData (exec (generateLeaderboardData reports) c)) ->
  score row = Number_toFixed_1 (unit_mean counted (sbu row) reports).
Proof.
  intros Hp H. apply (in_map standing) in H.
  rewrite (proj2 (leaderboard_standings reports c Hp)) in H.
  apply In_map_index in H.
  destruct H as [u [j [_ Heq]]]. unfold standing in Heq.
  now inversion Heq.
Qed.

(* ================================================================= *)
(** ** The comparison table as a function of the input *)

Lemma push_cell_fold (rs : list Report) (acc : list float) :
  fold_left (fun l r => push_cell r l) rs acc = acc ++ map score_of rs.
Proof.
  revert acc. induction rs as [|r rs IH]; intros acc; simpl.
  - now rewrite app_nil_r.
  - rewrite IH. unfold push_cell. now rewrite <- app_assoc.
Qed.

Lemma cells_table (recs : list Report) :
  grouped cell_key [] push_cell recs
  = map (fun u => (u, map score_of
                        (filter (fun r => String.eqb (unit_name r) u) recs)))
      (first_seen (map unit_name recs)).
Proof.
  unfold grouped, cell_key. rewrite keys_of_total. apply map_ext. intros u.
  unfold group_value. now rewrite push_cell_fold.
Qed.

Lemma grouped_performance_table (reports : list Report) :
  grouped performance_key [] push_unit reports
  = performance_table counted reports.
Proof.
  assert (Hf : forall i, filter (has_key performance_key i) reports
                         = indicator_records counted i reports).
  { intros i. apply filter_ext. intros r.
    apply (has_key_guard
             (fun r => has_unit r && has_indicator r && counted r)
             indicator_name). }
  unfold grouped, performance_table, indicators_seen.
  unfold performance_key at 2. rewrite keys_of_guard.
  apply map_ext. intros i. f_equal.
  unfold group_value. rewrite Hf.
  change (fold_left (fun v r => push_unit r v)
            (indicator_records counted i reports) [])
    with (fold_left (group_step cell_key [] push_cell)
            (indicator_records counted i reports) []).
  rewrite fold_group_step. apply cells_table.
Qed.

Lemma indicatorPerformance_table (reports : list Report) :
  plain_units reports -> plain_indicators reports ->
  indicatorPerformance reports = Normal (performance_table counted reports).
Proof.
  intros Hu Hi. rewrite (indicatorPerformance_grouped reports Hu Hi).
  now rewrite grouped_performance_table.
Qed.

Lemma concat_update (o : JSObject (list float)) (k : string) (s : float)
  (v : list float) :
  prop_get k o = Some v ->
  Permutation (List.concat (map snd (prop_update k (fun l => l ++ [s]) o)))
    (List.concat (map snd o) ++ [s]).
Proof.
  induction o as [|[k' v'] o IH]; simpl; [discriminate|].
  destruct (String.eqb k' k); simpl; intros H.
  - rewrite <- !app_assoc. apply Permutation_app_head, Permutation_app_comm.
  - rewrite <- app_assoc. apply Permutation_app_head. now apply IH.
Qed.

Lemma concat_cells (recs : list Report) (o : JSObject (list float)) :
  Permutation
    (List.concat
       (map snd (fold_left (group_step cell_key [] push_cell) recs o)))
    (List.concat (map snd o) ++ map score_of recs).
Proof.
  revert o. induction recs as [|r recs IH]; intros o; simpl.
  - now rewrite app_nil_r.
  - rewrite IH. change (score_of r :: map score_of recs)
      with ([score_of r] ++ map score_of recs).
    rewrite app_assoc. apply Permutation_app_tail.
    unfold group_step, cell_key.
    destruct (prop_get (unit_name r) o) eqn:E.
    + now apply (concat_update o _ _ l).
    + rewrite map_app, List.concat_app. simpl. reflexivity.
Qed.

Lemma comparison_fold (f : string -> list float) (ks : list string)
  (res : JSObject JSValue) (tot : list float) :
  fold_left comparison_visit (map (fun k => (k, f k)) ks) (res, tot)
  = (fold_left
       (fun res k => prop_set k (JNum (Math_round (average (f k)))) res)
       ks res,
     tot ++ List.concat (map f ks)).
Proof.
  revert res tot. induction ks as [|k t IH]; intros res tot; simpl.
  - now rewrite app_nil_r.
  - rewrite IH. now rewrite app_assoc.
Qed.

Lemma Forall2_map_r {A B : Type} (P : A -> B -> Prop) (h : A -> B)
  (l : list A) :
  (forall x, In x l -> P x (h x)) -> Forall2 P l (map h l).
Proof.
  induction l as [|x t IH]; simpl; intros H; constructor.
  - apply H. now left.
  - apply IH. intros y Hy. apply H. now right.
Qed.

(** The rows, one per indicator in the enumeration order of the table. *)
Lemma comparisonData_table (p : Report -> bool) (reports : list Report) :
  comparisonData (performance_table p reports)
  = map (fun i =>
           comparison_row
             (i, map (fun u => (u, cell_scores p i u reports))
                   (units_of_indicator p i reports)))
      (enumeration_order (fun i => i) (indicators_seen p reports)).
Proof.
  unfold comparisonData, performance_table.
  now rewrite Object_entries_table, map_map.
Qed.

Lemma concat_map_perm {A B : Type} (f : A -> list B) (l l' : list A) :
  Permutation l l' ->
  Permutation (List.concat (map f l)) (List.concat (map f l')).
Proof.
  intros H. rewrite <- !flat_map_concat_map.
  now apply Permutation_flat_map.
Qed.

(** The scores gathered for the overall mean of an indicator are, up to
    order, the scores of all its records. *)
Lemma total_scores_perm (p : Report -> bool) (i : string)
  (reports : list Report) :
  Permutation (gathered_scores p i reports) (indicator_scores p i reports).
Proof.
  unfold gathered_scores.
  rewrite (concat_map_perm _ _ _ (enumeration_order_perm (fun u => u) _)).
  unfold units_of_indicator, cell_scores, cell_records, indicator_scores.
  set (recs := indicator_records p i reports).
  rewrite <- (app_nil_l (map score_of recs)).
  change (@nil float)
    with (List.concat (map snd (@nil (string * list float)))).
  rewrite <- concat_cells, fold_group_step, cells_table, map_map.
  reflexivity.
Qed.

Lemma indicator_records_nonempty (p : Report -> bool) (i : string)
  (reports : list Report) :
  In i (indicators_seen p reports) -> indicator_records p i reports <> [].
Proof.
  unfold indicators_seen, indicator_records.
  rewrite first_seen_In, in_map_iff. intros [r [Hi Hr]] Hnil.
  apply filter_In in Hr. destruct Hr as [Hin Hg].
  assert (H : In r (filter
                      (fun r => has_unit r && has_indicator r && p r
                                && String.eqb (indicator_name r) i) reports)).
  { apply filter_In. split; [assumption|].
    rewrite Hg, Hi. apply String.eqb_refl. }
  rewrite Hnil in H. destruct H.
Qed.

Lemma cell_records_nonempty (p : Report -> bool) (i u : string)
  (reports : list Report) :
  In u (units_of_indicator p i reports) <-> cell_records p i u reports <> [].
Proof.
  unfold units_of_indicator, cell_records.
  rewrite first_seen_In, in_map_iff. split.
  - intros [r [Hu Hr]] Hnil.
    assert (H : In r (filter (fun r => String.eqb (unit_name r) u)
                        (indicator_records p i reports))).
    { apply filter_In. split; [assumption|].
      rewrite Hu. apply String.eqb_refl. }
    rewrite Hnil in H. destruct H.
  - intros Hne.
    destruct (filter (fun r => String.eqb (unit_name r) u)
                (indicator_records p i reports)) as [|r t] eqn:E;
      [contradiction|].
    assert (H : In r (r :: t)) by now left.
    rewrite <- E in H. apply filter_In in H. destruct H as [Hin Hu].
    exists r. split; [now apply String.eqb_eq|assumption].
Qed.

Lemma comparison_row_rata_rata (p : Report -> bool) (i : string)
  (reports : list Report) :
  In i (indicators_seen p reports) ->
  prop_get "rata_rata"
    (comparison_row
       (i, map (fun u => (u, cell_scores p i u reports))
             (units_of_indicator p i reports)))
  = Some (JNum (Math_round (double_mean (gathered_scores p i reports)))).
Proof.
  intros Hi. unfold comparison_row.
  rewrite Object_entries_table, comparison_fold, prop_get_set_same.
  rewrite app_nil_l.
  change (List.concat
            (map (fun u => cell_scores p i u reports)
               (enumeration_order (fun u => u)
                  (units_of_indicator p i reports))))
    with (gathered_scores p i reports).
  pose proof (total_scores_perm p i reports) as Hperm.
  assert (Hlen : (0 <? List.length (gathered_scores p i reports))%nat = true).
  { rewrite (Permutation_length Hperm). unfold indicator_scores.
    rewrite length_map. apply Nat.ltb_lt.
    pose proof (indicator_records_nonempty p i reports Hi) as Hne.
    destruct (indicator_records p i reports); [contradiction|].
    simpl. lia. }
  now rewrite Hlen, average_mean.
Qed.

Lemma comparison_row_cell (p : Report -> bool) (i u : string)
  (reports : list Report) :
  u <> "rata_rata" ->
  In u (units_of_indicator p i reports) ->
  prop_get u
    (comparison_row
       (i, map (fun u => (u, cell_scores p i u reports))
             (units_of_indicator p i reports)))
  = Some (JNum (Math_round (double_mean (cell_scores p i u reports)))).
Proof.
  intros Hne Hin. unfold comparison_row.
  rewrite Object_entries_table, comparison_fold.
  rewrite prop_get_set_other by congruence.
  rewrite prop_get_fold_set.
  assert (H : existsb (String.eqb u)
                (enumeration_order (fun u => u)
                   (units_of_indicator p i reports)) = true).
  { apply existsb_eqb_In. now apply enumeration_order_In. }
  now rewrite H, average_mean.
Qed.

Lemma comparison_row_no_cell (p : Report -> bool) (i u : string)
  (reports : list Report) :
  u <> "rata_rata" -> u <> "indicator" ->
  ~ In u (units_of_indicator p i reports) ->
  prop_get u
    (comparison_row
       (i, map (fun u => (u, cell_scores p i u reports))
             (units_of_indicator p i reports)))
  = None.
Proof.
  intros Hne Hne' Hin. unfold comparison_row.
  rewrite Object_entries_table, comparison_fold.
  rewrite prop_get_set_other by congruence.
  rewrite prop_get_fold_set.
  destruct (existsb (String.eqb u)
              (enumeration_order (fun u => u)
                 (units_of_indicator p i reports))) eqn:E.
  - apply existsb_eqb_In, enumeration_order_In in E. contradiction.
  - cbn [prop_get]. destruct (String.eqb_spec "indicator" u); congruence.
Qed.

Lemma comparison_row_indicator (p : Report -> bool) (i : string)
  (reports : list Report) :
  ~ In "indicator" (units_of_indicator p i reports) ->
  prop_get "indicator"
    (comparison_row
       (i, map (fun u => (u, cell_scores p i u reports))
             (units_of_indicator p i reports)))
  = Some (JStr i).
Proof.
  intros Hin. unfold comparison_row.
  rewrite Object_entries_table, comparison_fold.
  rewrite prop_get_set_other by discriminate.
  rewrite prop_get_fold_set.
  destruct (existsb (String.eqb "indicator")
              (enumeration_order (fun u => u)
                 (units_of_indicator p i reports))) eqn:E.
  - apply existsb_eqb_In, enumeration_order_In in E. contradiction.
  - reflexivity.
Qed.

(** The comparison builder completes and stores the rows of its table. *)
Lemma generatePerformanceData_normal (reports : list Report) (c : Component) :
  plain_units reports -> plain_indicators reports ->
  generatePerformanceData reports c
  = (Normal tt,
     mkComponent (random_source c) (random_calls c) (leaderboardData c)
       (comparisonData (performance_table counted reports)) (trendData c)
       (activityCompositionData c)).
Proof.
  intros Hu Hi. unfold generatePerformanceData, bind, lift.
  now rewrite (indicatorPerformance_table reports Hu Hi).
Qed.

(* ================================================================= *)
(** ** Inputs without a zero score *)

Lemma counted_scored (reports : list Report) :
  no_zero_score reports ->
  forall r, In r reports -> counted r = is_scored r.
Proof.
  unfold no_zero_score. rewrite forallb_forall. intros H r Hr.
  specialize (H r Hr). unfold counted, is_scored.
  now destruct (calculated_score r).
Qed.

Section NoZero.

Variable reports : list Report.
Hypothesis no_zero : no_zero_score reports.

Lemma unit_records_scored (u : string) :
  unit_records counted u reports = unit_records is_scored u reports.
Proof.
  apply filter_ext_in. intros r Hr.
  now rewrite (counted_scored reports no_zero r Hr).
Qed.

Lemma unit_mean_scored (u : string) :
  unit_mean counted u reports = unit_mean is_scored u reports.
Proof. unfold unit_mean, unit_scores. now rewrite unit_records_scored. Qed.

Lemma units_seen_scored :
  units_seen counted reports = units_seen is_scored reports.
Proof.
  unfold units_seen. do 2 f_equal. apply filter_ext_in. intros r Hr.
  now rewrite (counted_scored reports no_zero r Hr).
Qed.

Lemma unit_table_scored :
  unit_table counted reports = unit_table is_scored reports.
Proof.
  unfold unit_table. rewrite units_seen_scored. apply map_ext. intros u.
  unfold unit_scores. now rewrite unit_records_scored.
Qed.

Lemma indicator_records_scored (i : string) :
  indicator_records counted i reports = indicator_records is_scored i reports.
Proof.
  apply filter_ext_in. intros r Hr.
  now rewrite (counted_scored reports no_zero r Hr).
Qed.

Lemma indicators_seen_scored :
  indicators_seen counted reports = indicators_seen is_scored reports.
Proof.
  unfold indicators_seen. do 2 f_equal. apply filter_ext_in. intros r Hr.
  now rewrite (counted_scored reports no_zero r Hr).
Qed.

Lemma cell_records_scored (i u : string) :
  cell_records counted i u reports = cell_records is_scored i u reports.
Proof. unfold cell_records. now rewrite indicator_records_scored. Qed.

Lemma performance_table_scored :
  performance_table counted reports = performance_table is_scored reports.
Proof.
  unfold performance_table. rewrite indicators_seen_scored.
  apply map_ext. intros i. unfold units_of_indicator, cell_scores.
  rewrite indicator_records_scored. f_equal. apply map_ext. intros u.
  now rewrite cell_records_scored.
Qed.

Lemma ranked_units_scored :
  ranked_units counted reports = ranked_units is_scored reports.
Proof.
  unfold ranked_units. rewrite units_seen_scored.
  apply Array_sort_ext. intros a b. unfold descending.
  now rewrite !unit_mean_scored.
Qed.

End NoZero.

(* ================================================================= *)
(** ** The numbers of the outputs *)

(** C10 fails where the mean that is rounded is not the mean of the group.
    A score of [0] is left out of the mean before it is rounded: unit A
    with the scores 0 and 90.26 is shown with 90.3 and 90, while its mean
    45.13 rounds to 45.1 and 45.  And the cell of a unit named [rata_rata]
    is overwritten by the overall mean of the row: with 10 for that unit
    and 31 for unit B the row shows 21 under [rata_rata], not 10. *)
Lemma rounded_means_miss_records :
  (let reports := [scored_sample "A" "X" 0; scored_sample "A" "X" 90.26] in
   let c := fresh (fun _ => 0.5%float) in
   map (fun row => (sbu row, score row))
     (leaderboardData (exec (generateLeaderboardData reports) c))
   = [("A", 90.3%float)]
   /\ Number_toFixed_1 (double_mean (unit_scores is_scored "A" reports))
      = 45.1%float
   /\ performanceComparisonData (exec (generatePerformanceData reports) c)
      = [[("indicator", JStr "X"); ("A", JNum 90); ("rata_rata", JNum 90)]]
   /\ Math_round (double_mean (cell_scores is_scored "X" "A" reports))
      = 45%float)
  /\ (let reports :=
        [scored_sample "rata_rata" "X" 10; scored_sample "B" "X" 31] in
      let c := fresh (fun _ => 0.5%float) in
      performanceComparisonData (exec (generatePerformanceData reports) c)
      = [[("indicator", JStr "X"); ("rata_rata", JNum 21); ("B", JNum 31)]]
      /\ Math_round
           (double_mean (cell_scores is_scored "X" "rata_rata" reports))
         = 10%float).
Proof. cbv zeta. repeat split. Qed.

(* ================================================================= *)
(** ** Dependence on the component state *)


Lemma generateLeaderboardData_untracked (reports : list Report)
  (c : Component) :
  sbuScores reports = Untracked ->
  generateLeaderboardData reports c = (Untracked, c).
Proof.
  intros Ht. unfold generateLeaderboardData, bind, lift. now rewrite Ht.
Qed.



(* ================================================================= *)
(** ** Scores equal to zero *)

(** C3 fails on a score of [0]: the guard [!report.calculated_score] drops
    the record, so unit A with scores 0 and 100 is ranked with 100 and its
    comparison cell is 100, while the mean of its present scores is 50. *)
Lemma zero_score_is_left_out :
  let reports := [scored_sample "A" "X" 0; scored_sample "A" "X" 100] in
  let c := fresh (fun _ => 0%float) in
  map (fun row => (sbu row, score row))
    (leaderboardData (exec (generateLeaderboardData reports) c))
  = [("A", 100%float)]
  /\ unit_mean is_scored "A" reports = 50%float
  /\ performanceComparisonData (exec (generatePerformanceData reports) c)
     = [[("indicator", JStr "X"); ("A", JNum 100); ("rata_rata", JNum 100)]]
  /\ average (cell_scores is_scored "X" "A" reports) = 50%float.
Proof. cbv zeta. repeat split. Qed.

(** The example of the specification with zero scores: unit A with one
    record scoring 100 and unit B with three records scoring 0 give the
    overall mean 100, the three records of B being dropped. *)
Lemma overall_mean_with_zero_scores :
  performanceComparisonData
    (exec
       (generatePerformanceData
          [scored_sample "A" "X" 100; scored_sample "B" "X" 0;
           scored_sample "B" "X" 0; scored_sample "B" "X" 0])
       (fresh (fun _ => 0%float)))
  = [[("indicator", JStr "X"); ("A", JNum 100); ("rata_rata", JNum 100)]].
Proof. reflexivity. Qed.

(* ================================================================= *)
(** ** The leaderboard *)

(** C5, as the code has it, for collections without a zero score in which
    no unit is named like an inherited property.  The builder completes;
    there is one row per unit that has a scored record; the ranks are
    1..n; the score of a row is [Number(mean.toFixed(1))] of the mean of
    the unit's scores, summed in input order; the number of scored records
    of a unit is kept in the unit table ([totalReports]), the rows carrying
    rank, unit, score and change only.  Where the difference of two means
    is a consistent comparator on the units, no row is followed by a row
    whose mean exceeds its own, and units that the comparator ties keep
    the enumeration order of the unit table, which is first-seen order when
    no unit name is an array index. *)
Theorem leaderboard_ranks_scored_units (reports : list Report)
  (c : Component) :
  no_zero_score reports -> plain_units reports ->
  let rows := leaderboardData (exec (generateLeaderboardData reports) c) in
  let units := units_seen is_scored reports in
  let mean := fun u => double_mean (unit_scores is_scored u reports) in
  fst (generateLeaderboardData reports c) = Normal tt
  /\ Permutation (map sbu rows) units
  /\ NoDup (map sbu rows)
  /\ map rank rows = seq 1 (List.length units)
  /\ (forall row, In row rows -> score row = Number_toFixed_1 (mean (sbu row)))
  /\ sbuScores reports = Normal (unit_table is_scored reports)
  /\ (consistent (descending mean) units = true ->
      StronglySorted (fun u v => (0 <? mean v - mean u)%float = false)
        (map sbu rows)
      /\ (forall w, In w units ->
            filter (fun u => tied (descending mean) u w) (map sbu rows)
            = filter (fun u => tied (descending mean) u w)
                (enumeration_order (fun u => u) units))
      /\ ((forall u, In u units -> is_index u = false) ->
          forall w, In w units ->
            filter (fun u => tied (descending mean) u w) (map sbu rows)
            = filter (fun u => tied (descending mean) u w) units)).
Proof.
  intros H Hp. cbv zeta.
  change (fun u => double_mean (unit_scores is_scored u reports))
    with (fun u => unit_mean is_scored u reports).
  rewrite (leaderboard_units reports c Hp), (leaderboard_ranks reports c Hp).
  rewrite (ranked_units_scored reports H).
  assert (Hperm : Permutation (ranked_units is_scored reports)
                    (units_seen is_scored reports)).
  { unfold ranked_units. rewrite Array_sort_perm.
    apply enumeration_order_perm. }
  split; [exact (proj1 (leaderboard_standings reports c Hp))|].
  split; [exact Hperm|].
  split.
  { eapply Permutation_NoDup; [symmetry; exact Hperm|].
    apply first_seen_NoDup. }
  split; [now rewrite (Permutation_length Hperm)|].
  split.
  { intros row Hrow. rewrite <- unit_mean_scored by assumption.
    now apply (leaderboard_scores reports c). }
  split.
  { rewrite <- (unit_table_scored reports H). now apply sbuScores_table. }
  intros Hc. apply consistent_spec in Hc. destruct Hc as [Hone Hchain].
  assert (Hincl : incl (enumeration_order (fun u => u)
                          (units_seen is_scored reports))
                    (units_seen is_scored reports)).
  { intros u Hu. now apply enumeration_order_In in Hu. }
  split.
  { unfold ranked_units.
    apply (Array_sort_sorted _ (units_seen is_scored reports) Hone Hchain).
    exact Hincl. }
  split.
  { intros w Hw. unfold ranked_units.
    now apply (Array_sort_stable _ (units_seen is_scored reports) Hchain). }
  intros Hplain w Hw. unfold ranked_units.
  rewrite (Array_sort_stable _ (units_seen is_scored reports) Hchain)
    by assumption.
  now rewrite enumeration_order_plain.
Qed.

Lemma leaderboard_ranks_scored_units_witness :
  let reports :=
    [scored_sample "unitB" "X" 70; scored_sample "unitA" "X" 80;
     scored_sample "unitA" "X" 90;
     sample (Some "unitC") (Some "Y") None "pending_approval"
       (LocalDate 2024 February)] in
  let rows :=
    leaderboardData (exec (generateLeaderboardData reports)
                       (fresh (fun _ => 0%float))) in
  no_zero_score reports
  /\ plain_units reports
  /\ Permutation (map sbu rows) ["unitB"; "unitA"]
  /\ map rank rows = [1%nat; 2%nat]
  /\ StronglySorted
       (fun u v =>
          (0 <? double_mean (unit_scores is_scored v reports)
                - double_mean (unit_scores is_scored u reports))%float
          = false)
       (map sbu rows).
Proof.
  cbv zeta. split; [reflexivity|]. split; [reflexivity|].
  pose proof
    (leaderboard_ranks_scored_units
       [scored_sample "unitB" "X" 70; scored_sample "unitA" "X" 80;
        scored_sample "unitA" "X" 90;
        sample (Some "unitC") (Some "Y") None "pending_approval"
          (LocalDate 2024 February)]
       (fresh (fun _ => 0%float)) eq_refl eq_refl) as H.
  cbv zeta in H. destruct H as [_ [H1 [_ [H3 [_ [_ H7]]]]]].
  split; [exact H1|]. split; [exact H3|].
  exact (proj1 (H7 eq_refl)).
Defined.

(** C5 fails as stated, on two counts.  Units named like array indices are
    enumerated in numeric order, so of two tied units the one seen second
    can be ranked first; and a row does not carry the number of scored
    records: a unit with one record and the same unit with two records of
    the same score give the same row. *)
Lemma leaderboard_order_and_count_counterexample :
  (let reports := [scored_sample "2" "X" 50; scored_sample "1" "X" 50] in
   units_seen is_scored reports = ["2"; "1"]
   /\ unit_mean is_scored "2" reports = unit_mean is_scored "1" reports
   /\ map sbu (leaderboardData (exec (generateLeaderboardData reports)
                                  (fresh (fun _ => 0.5%float))))
      = ["1"; "2"])
  /\ ~ (exists reportCount : LeaderboardRow -> nat,
          forall reports c row,
            In row (leaderboardData (exec (generateLeaderboardData reports) c))
            ->
            reportCount row
            = List.length (unit_records is_scored (sbu row) reports)).
Proof.
  split; [cbv zeta; repeat split|].
  intros [reportCount H].
  pose proof (H [scored_sample "A" "X" 80] (fresh (fun _ => 0.5%float))
                (mkLeaderboardRow 1 "A" 80%float "0.0")
                (or_introl eq_refl)) as H1.
  pose proof (H [scored_sample "A" "X" 80; scored_sample "A" "X" 80]
                (fresh (fun _ => 0.5%float))
                (mkLeaderboardRow 1 "A" 80%float "0.0")
                (or_introl eq_refl)) as H2.
  rewrite H1 in H2. vm_compute in H2. discriminate H2.
Qed.

(* ================================================================= *)
(** ** The comparison rows *)

(** C1, as the code has it, for collections without a zero score in which
    no unit and no indicator is named like an inherited property.  The
    builder completes, and the [rata_rata] of the row of an indicator is
    [Math.round] of the mean of the scores gathered for that indicator:
    the scores of all its records that have a unit and a score, each
    record once, summed unit by unit, then divided by their number; the
    row is labelled with its indicator unless a unit is itself named
    [indicator]. *)
Theorem overall_mean_is_weighted (reports : list Report) (c : Component) :
  no_zero_score reports -> plain_units reports -> plain_indicators reports ->
  fst (generatePerformanceData reports c) = Normal tt
  /\ Forall2
       (fun i row =>
          let gathered := gathered_scores is_scored i reports in
          prop_get "rata_rata" row
          = Some
              (JNum
                 (Math_round
                    (fold_left PrimFloat.add gathered 0
                     / Number_of_nat (List.length gathered))%float))
          /\ Permutation gathered (indicator_scores is_scored i reports)
          /\ List.length gathered
             = List.length (indicator_records is_scored i reports)
          /\ (~ In "indicator" (units_of_indicator is_scored i reports) ->
              prop_get "indicator" row = Some (JStr i)))
       (enumeration_order (fun i => i) (indicators_seen is_scored reports))
       (performanceComparisonData (exec (generatePerformanceData reports) c)).
Proof.
  intros H Hu Hi. unfold exec.
  rewrite (generatePerformanceData_normal reports c Hu Hi).
  cbn [fst snd performanceComparisonData].
  split; [reflexivity|].
  rewrite (performance_table_scored reports H), comparisonData_table.
  apply Forall2_map_r. intros i Hin. apply enumeration_order_In in Hin.
  cbv zeta. split; [|split; [|split]].
  - exact (comparison_row_rata_rata is_scored i reports Hin).
  - apply total_scores_perm.
  - rewrite (Permutation_length (total_scores_perm is_scored i reports)).
    unfold indicator_scores. apply length_map.
  - apply comparison_row_indicator.
Qed.

Lemma overall_mean_is_weighted_witness :
  let reports :=
    [scored_sample "A" "X" 100; scored_sample "B" "X" 20;
     scored_sample "B" "X" 20; scored_sample "B" "X" 20] in
  no_zero_score reports /\ plain_units reports /\ plain_indicators reports
  /\ Forall2
       (fun i row => prop_get "rata_rata" row = Some (JNum 40))
       ["X"]
       (performanceComparisonData
          (exec (generatePerformanceData reports)
             (fresh (fun _ => 0%float)))).
Proof.
  cbv zeta. split; [reflexivity|]. split; [reflexivity|].
  split; [reflexivity|].
  pose proof
    (proj2
       (overall_mean_is_weighted
          [scored_sample "A" "X" 100; scored_sample "B" "X" 20;
           scored_sample "B" "X" 20; scored_sample "B" "X" 20]
          (fresh (fun _ => 0%float)) eq_refl eq_refl eq_refl)) as H.
  inversion H as [|i row l l' [Hrow _] Hrest]; subst.
  constructor; [exact Hrow|].
  inversion Hrest; subst. constructor.
Defined.

(** C1 fails as stated: the overall mean is rounded (scores 1 and 2 give 2,
    not 1.5), and a scored record without a unit is left out of it (100
    with a unit and 50 without give 100, not 75). *)
Lemma overall_mean_counterexample :
  (let reports := [scored_sample "A" "X" 1; scored_sample "A" "X" 2] in
   performanceComparisonData
     (exec (generatePerformanceData reports) (fresh (fun _ => 0%float)))
   = [[("indicator", JStr "X"); ("A", JNum 2); ("rata_rata", JNum 2)]]
   /\ double_mean (indicator_scores is_scored "X" reports) = 1.5%float
   /\ 2%float <> double_mean (indicator_scores is_scored "X" reports))
  /\ (let reports :=
        [scored_sample "A" "X" 100;
         sample None (Some "X") (Some 50%float) "approved"
           (LocalDate 2024 January)] in
      let scored_of_X :=
        filter (fun r => is_scored r && String.eqb (indicator_name r) "X")
          reports in
      performanceComparisonData
        (exec (generatePerformanceData reports) (fresh (fun _ => 0%float)))
      = [[("indicator", JStr "X"); ("A", JNum 100); ("rata_rata", JNum 100)]]
      /\ double_mean (map score_of scored_of_X) = 75%float
      /\ 100%float <> double_mean (map score_of scored_of_X)).
Proof.
  cbv zeta. repeat split; intros H;
    apply (f_equal Prim2SF) in H; vm_compute in H; discriminate H.
Qed.

(** C4, as the code has it, for collections without a zero score in which
    no unit and no indicator is named like an inherited property: the
    builder completes, and the row of an indicator has a column for exactly
    the units with a scored record of that indicator, holding the rounded
    mean of the cell; any other unit, also one observed for another
    indicator, has no property in the row, which is not the number 0. *)
Theorem comparison_columns_per_indicator (reports : list Report)
  (c : Component) :
  no_zero_score reports -> plain_units reports -> plain_indicators reports ->
  fst (generatePerformanceData reports c) = Normal tt
  /\ Forall2
       (fun i row =>
          forall u, u <> "indicator" -> u <> "rata_rata" ->
            (cell_records is_scored i u reports <> [] ->
             prop_get u row
             = Some
                 (JNum
                    (Math_round
                       (double_mean (cell_scores is_scored i u reports)))))
            /\ (cell_records is_scored i u reports = [] ->
                prop_get u row = None /\ prop_get u row <> Some (JNum 0)))
       (enumeration_order (fun i => i) (indicators_seen is_scored reports))
       (performanceComparisonData (exec (generatePerformanceData reports) c)).
Proof.
  intros H Hu Hi. unfold exec.
  rewrite (generatePerformanceData_normal reports c Hu Hi).
  cbn [fst snd performanceComparisonData].
  split; [reflexivity|].
  rewrite (performance_table_scored reports H), comparisonData_table.
  apply Forall2_map_r. intros i _ u Hu1 Hu2.
  split.
  - intros Hcell. apply cell_records_nonempty in Hcell.
    now apply comparison_row_cell.
  - intros Hcell.
    assert (Hnot : ~ In u (units_of_indicator is_scored i reports)).
    { intros Hin. now apply cell_records_nonempty in Hin. }
    rewrite (comparison_row_no_cell is_scored i u reports Hu2 Hu1 Hnot).
    split; [reflexivity|discriminate].
Qed.

Lemma comparison_columns_per_indicator_witness :
  let reports := [scored_sample "A" "X" 80; scored_sample "B" "Y" 90] in
  no_zero_score reports /\ plain_units reports /\ plain_indicators reports
  /\ Forall2
       (fun i row =>
          forall u, u <> "indicator" -> u <> "rata_rata" ->
            cell_records is_scored i u reports = [] -> prop_get u row = None)
       ["X"; "Y"]
       (performanceComparisonData
          (exec (generatePerformanceData reports)
             (fresh (fun _ => 0%float)))).
Proof.
  cbv zeta. split; [reflexivity|]. split; [reflexivity|].
  split; [reflexivity|].
  pose proof
    (proj2
       (comparison_columns_per_indicator
          [scored_sample "A" "X" 80; scored_sample "B" "Y" 90]
          (fresh (fun _ => 0%float)) eq_refl eq_refl eq_refl)) as H.
  eapply Forall2_impl; [|exact H].
  intros i row Hrow u Hu1 Hu2 Hcell.
  exact (proj1 (proj2 (Hrow u Hu1 Hu2) Hcell)).
Defined.

(** C4 fails as stated: with unit A reporting indicator X and unit B
    reporting indicator Y, the units observed in the input are A and B,
    but the row of X has the column A only and the row of Y the column B
    only. *)
Lemma comparison_columns_counterexample :
  let reports := [scored_sample "A" "X" 80; scored_sample "B" "Y" 90] in
  let rows :=
    performanceComparisonData
      (exec (generatePerformanceData reports) (fresh (fun _ => 0%float))) in
  units_of_input is_scored reports = ["A"; "B"]
  /\ map unit_columns rows = [["A"]; ["B"]]
  /\ ~ (forall row, In row rows ->
          forall u, In u (units_of_input is_scored reports) ->
                    In u (unit_columns row)).
Proof.
  cbv zeta. split; [reflexivity|]. split; [reflexivity|].
  intros H.
  specialize (H [("indicator", JStr "X"); ("A", JNum 80);
                 ("rata_rata", JNum 80)]
                (or_introl eq_refl) "B" (or_intror (or_introl eq_refl))).
  vm_compute in H. destruct H as [H|[]]. discriminate H.
Qed.

(* ================================================================= *)
(** ** No mean is taken of an empty list *)

Lemma forEach_normal_fold {S R : Type} (visit : S -> R -> Completion S)
  (step : S -> R -> S) (rs : list R) (s s' : S) :
  (forall s r s', visit s r = Normal s' -> s' = step s r) ->
  forEach visit rs s = Normal s' -> s' = fold_left step rs s.
Proof.
  intros H. revert s. induction rs as [|r rs IH]; intros s Hrun.
  - now inversion Hrun.
  - cbn [forEach fold_left] in *.
    destruct (visit s r) as [s1| |] eqn:E; try discriminate.
    rewrite <- (H s r s1 E). now apply IH.
Qed.

Lemma lookup_cases {V : Type} (k : string) (o : JSObject V) :
  (exists v, prop_get k o = Some v /\ lookup k o = Own v)
  \/ (prop_get k o = None
      /\ (lookup k o = ObjectPrototype \/ lookup k o = Builtin k
          \/ lookup k o = Undefined)).
Proof.
  unfold lookup. destruct (prop_get k o) as [v|].
  - left. now exists v.
  - right. split; [reflexivity|].
    destruct (String.eqb k "__proto__"); [now left|].
    destruct (inherited k); [right; now left|right; now right].
Qed.

(** Whenever a visit of the leaderboard loop completes, it is the grouping
    step. *)
Lemma leaderboard_visit_normal (o o' : JSObject SbuData) (r : Report) :
  leaderboard_visit o r = Normal o' ->
  o' = group_step leaderboard_key (mkSbuData [] 0) push_score o r.
Proof.
  unfold leaderboard_visit, group_step, leaderboard_key, has_unit, counted,
    unit_name, push_score, score_of.
  destruct (report_sbu_name r) as [[|c s]|]; simpl;
    try (intros H; now inversion H).
  destruct (calculated_score r) as [q|]; simpl;
    try (intros H; now inversion H).
  destruct (negb (PrimFloat.eqb q 0 || is_nan q)); simpl;
    try (intros H; now inversion H).
  destruct (lookup_cases (String c s) o)
    as [[v [E ->]]|[E [->|[->| ->]]]]; rewrite E; try discriminate.
  - intros H. injection H as <-. now rewrite prop_update_twice.
  - intros H. injection H as <-.
    rewrite prop_set_fresh by assumption.
    now rewrite !prop_update_fresh by assumption.
Qed.

Lemma performance_push_normal (r : Report) (q : float)
  (sbuData sbuData' : JSObject (list float)) :
  calculated_score r = Some q ->
  performance_push (unit_name r) q sbuData = Normal sbuData' ->
  sbuData' = push_unit r sbuData.
Proof.
  intros Hq. unfold performance_push, push_unit, group_step, cell_key,
    push_cell, score_of. rewrite Hq.
  destruct (lookup_cases (unit_name r) sbuData)
    as [[v [E ->]]|[E [->|[->| ->]]]]; rewrite E; try discriminate.
  - intros H. now injection H as <-.
  - intros H. injection H as <-.
    rewrite prop_set_fresh by assumption.
    now rewrite prop_update_fresh by assumption.
Qed.

Lemma performance_visit_normal (o o' : JSObject (JSObject (list float)))
  (r : Report) :
  performance_visit o r = Normal o' ->
  o' = group_step performance_key [] push_unit o r.
Proof.
  unfold performance_visit, group_step, performance_key, has_unit,
    has_indicator, counted.
  destruct (report_sbu_name r) as [[|c s]|] eqn:Eu; simpl;
    try (intros H; now inversion H).
  destruct (indicator_type r) as [[|c' s']|] eqn:Ei; simpl;
    try (intros H; now inversion H).
  destruct (calculated_score r) as [q|] eqn:Eq; simpl;
    try (intros H; now inversion H).
  destruct (negb (PrimFloat.eqb q 0 || is_nan q)); simpl;
    try (intros H; now inversion H).
  assert (Hname : unit_name r = String c s)
    by (unfold unit_name; now rewrite Eu).
  assert (Hind : indicator_name r = String c' s')
    by (unfold indicator_name; now rewrite Ei).
  rewrite Hind, <- Hname.
  unfold JSObject in *.
  destruct (lookup_cases (String c' s') o)
    as [[d [E ->]]|[E [->|[->| ->]]]]; rewrite !E.
  - destruct (performance_push (unit_name r) q d) as [d'| |] eqn:Ep;
      try discriminate.
    intros H. injection H as <-.
    rewrite (performance_push_normal r q d d' Eq Ep).
    now apply (prop_set_present o _ d (push_unit r)).
  - destruct (inherited (unit_name r)); discriminate.
  - discriminate.
  - rewrite prop_get_set_same.
    destruct (performance_push (unit_name r) q []) as [d'| |] eqn:Ep;
      try discriminate.
    intros H. injection H as <-.
    rewrite (performance_push_normal r q [] d' Eq Ep).
    rewrite (prop_set_fresh o _ [] E).
    rewrite (prop_set_present _ _ [] (push_unit r))
      by (rewrite <- (prop_set_fresh o _ [] E); apply prop_get_set_same).
    now apply prop_update_fresh.
Qed.

(** Whenever the grouping loop of the leaderboard completes, it has built
    the table of the counted records. *)
Lemma sbuScores_normal (reports : list Report) (table : JSObject SbuData) :
  sbuScores reports = Normal table -> table = unit_table counted reports.
Proof.
  intros H. unfold sbuScores in H.
  apply (forEach_normal_fold _
           (group_step leaderboard_key (mkSbuData [] 0) push_score)) in H;
    [|intros s r s'; apply leaderboard_visit_normal].
  rewrite H, fold_group_step. apply grouped_unit_table.
Qed.

(** Whenever the grouping loop of the comparison completes, it has built
    the table of the counted records. *)
Lemma indicatorPerformance_normal (reports : list Report)
  (table : JSObject (JSObject (list float))) :
  indicatorPerformance reports = Normal table ->
  table = performance_table counted reports.
Proof.
  intros H. unfold indicatorPerformance in H.
  apply (forEach_normal_fold _ (group_step performance_key [] push_unit))
    in H; [|intros s r s'; apply performance_visit_normal].
  rewrite H, fold_group_step. apply grouped_performance_table.
Qed.

Lemma unit_records_nonempty (p : Report -> bool) (u : string)
  (reports : list Report) :
  In u (units_seen p reports) -> unit_records p u reports <> [].
Proof.
  unfold units_seen, unit_records.
  rewrite first_seen_In, in_map_iff. intros [r [Hu Hr]] Hnil.
  apply filter_In in Hr. destruct Hr as [Hin Hg].
  assert (H : In r (filter
                      (fun r => has_unit r && p r
                                && String.eqb (unit_name r) u) reports)).
  { apply filter_In. split; [assumption|].
    rewrite Hg, Hu. apply String.eqb_refl. }
  rewrite Hnil in H. destruct H.
Qed.

(** Every unit of the table the leaderboard is computed from holds at
    least one score, and as many scores as it counts reports. *)
Lemma group_scores_nonempty (reports : list Report)
  (table : JSObject SbuData) (u : string) (d : SbuData) :
  sbuScores reports = Normal table ->
  In (u, d) table ->
  scores d <> [] /\ totalReports d = List.length (scores d).
Proof.
  intros Ht. rewrite (sbuScores_normal reports table Ht).
  unfold unit_table. rewrite in_map_iff. intros [u' [Heq Hu]].
  inversion Heq; subst. simpl. unfold unit_scores. rewrite length_map.
  split; [|reflexivity].
  pose proof (unit_records_nonempty counted u reports Hu) as Hne.
  destruct (unit_records counted u reports); [contradiction|discriminate].
Qed.

(** Every indicator of the table the comparison rows are computed from
    has a unit, and every cell holds at least one score. *)
Lemma cells_nonempty (reports : list Report)
  (table : JSObject (JSObject (list float))) (i u : string)
  (sbuData : JSObject (list float)) (l : list float) :
  indicatorPerformance reports = Normal table ->
  In (i, sbuData) table ->
  sbuData <> [] /\ (In (u, l) sbuData -> l <> []).
Proof.
  intros Ht. rewrite (indicatorPerformance_normal reports table Ht).
  unfold performance_table. rewrite in_map_iff. intros [i' [Heq Hi]].
  inversion Heq; subst. split.
  - pose proof (indicator_records_nonempty counted i reports Hi) as Hne.
    unfold units_of_indicator.
    destruct (indicator_records counted i reports); [contradiction|].
    discriminate.
  - rewrite in_map_iff. intros [u' [Hu Hin]]. inversion Hu; subst.
    apply cell_records_nonempty in Hin. unfold cell_scores.
    destruct (cell_records counted i u reports); [contradiction|discriminate].
Qed.

(* ================================================================= *)
(** ** Worked examples *)

(** Two records of January of different years share one bucket, and the
    buckets follow the input, not the calendar. *)
Example trend_same_month_two_years :
  trendData
    (exec
       (generateTrendData
          [sample (Some "A") (Some "X") None "queued" (LocalDate 2025 March);
           sample (Some "A") (Some "X") None "approved"
             (LocalDate 2025 January);
           sample (Some "B") (Some "X") None "system_rejected"
             (LocalDate 2024 January)])
       (fresh (fun _ => 0%float)))
  = [mkTrendPoint "Mar" 1 0 0; mkTrendPoint "Jan" 2 1 1].
Proof. reflexivity. Qed.

(** The three-record scenario of the specification. *)
Example scenario_three_records :
  let reports :=
    [scored_sample "unitA" "X" 80; scored_sample "unitA" "X" 90;
     sample (Some "unitB") (Some "Y") None "pending_approval"
       (LocalDate 2024 February)] in
  let c := fresh (fun _ => 0.5%float) in
  leaderboardData (exec (generateLeaderboardData reports) c)
  = [mkLeaderboardRow 1 "unitA" 85%float "0.0"]
  /\ map (fun s => (name s, value s))
       (activityCompositionData (exec (generateCompositionData reports) c))
     = [("X", Count 2); ("Y", Count 1)].
Proof. cbv zeta. split; reflexivity. Qed.

(** A record without indicator is counted under ['Unknown']. *)
Example composition_unknown :
  map (fun s => (name s, value s))
    (activityCompositionData
       (exec
          (generateCompositionData
             [sample (Some "A") None (Some 10%float) "approved" InvalidDate;
              scored_sample "A" "X" 10;
              sample None (Some "") None "failed" (LocalDate 2024 May)])
          (fresh (fun _ => 0%float))))
  = [("Unknown", Count 2); ("X", Count 1)].
Proof. reflexivity. Qed.

(** Means are taken on doubles, in the order of the input: three scores
    of unit A and the same three scores of unit B in another order give
    different means, and A is ranked first; the mean of one 3 and nineteen
    2s lies just below 2.05 and is shown as 2. *)
Example means_are_doubles :
  (let reports :=
     [scored_sample "B" "X" 0.3; scored_sample "B" "X" 0.2;
      scored_sample "B" "X" 0.1; scored_sample "A" "X" 0.1;
      scored_sample "A" "X" 0.2; scored_sample "A" "X" 0.3] in
   map sbu (leaderboardData (exec (generateLeaderboardData reports)
                               (fresh (fun _ => 0.5%float))))
   = ["A"; "B"])
  /\ (let reports :=
        scored_sample "A" "X" 3 :: repeat (scored_sample "A" "X" 2) 19 in
      map score (leaderboardData (exec (generateLeaderboardData reports)
                                    (fresh (fun _ => 0.5%float))))
      = [2%float])
  /\ (let reports :=
        [scored_sample "A" "X" 0.6; scored_sample "A" "X" 3.8;
         scored_sample "A" "X" 0.1] in
      performanceComparisonData
        (exec (generatePerformanceData reports) (fresh (fun _ => 0.5%float)))
      = [[("indicator", JStr "X"); ("A", JNum 1); ("rata_rata", JNum 1)]]).
Proof. cbv zeta. repeat split. Qed.

(** A unit named like an inherited property makes the leaderboard and the
    comparison builder throw; an indicator named [__proto__] with an
    ordinary unit makes the comparison builder write into
    [Object.prototype]. *)
Example inherited_names :
  fst (generateLeaderboardData [scored_sample "constructor" "X" 5]
         (fresh (fun _ => 0.5%float))) = Throw TypeError
  /\ fst (generatePerformanceData [scored_sample "toString" "X" 5]
            (fresh (fun _ => 0.5%float))) = Throw TypeError
  /\ fst (generatePerformanceData
            [scored_sample "A" "__proto__" 50; scored_sample "A" "X" 80]
            (fresh (fun _ => 0.5%float))) = Untracked.
Proof. repeat split. Qed.

(* ================================================================= *)
(** ** The live figures of the analytics view *)

Section WeightedMeasure.

Context {R V : Type}.
Variable key : R -> string.
Variable init : V.
Variable upd : R -> V -> V.
Variable m : V -> nat.
Variable w : R -> nat.
Hypothesis m_init : m init = 0%nat.
Hypothesis m_upd : forall r v, m (upd r v) = (m v + w r)%nat.

Lemma weighted_update (o : JSObject V) (k : string) (r : R) (v : V) :
  prop_get k o = Some v ->
  measure m (prop_update k (upd r) o) = (measure m o + w r)%nat.
Proof.
  unfold measure. induction o as [|[k' v'] o IH]; simpl; [discriminate|].
  destruct (String.eqb k' k); simpl; intros H.
  - rewrite m_upd. lia.
  - rewrite IH by assumption. lia.
Qed.

Lemma weighted_fold (rs : list R) (o : JSObject V) :
  measure m (fold_left (group_step (fun r => Some (key r)) init upd) rs o)
  = (measure m o + sum_nat (map w rs))%nat.
Proof.
  revert o. induction rs as [|r rs IH]; intros o; [simpl; lia|].
  cbn [fold_left map sum_nat fold_right]. rewrite IH.
  unfold group_step.
  destruct (prop_get (key r) o) eqn:E.
  - rewrite (weighted_update o _ r v E).
    unfold sum_nat. lia.
  - unfold measure at 1. rewrite map_app, sum_nat_app. simpl.
    rewrite m_upd, m_init. unfold measure, sum_nat. lia.
Qed.

End WeightedMeasure.

Lemma sum_indicator {A : Type} (p : A -> bool) (l : list A) :
  sum_nat (map (fun x => if p x then 1%nat else 0%nat) l) = count p l.
Proof.
  unfold count. induction l as [|x t IH]; simpl; [reflexivity|].
  destruct (p x); simpl; now rewrite IH.
Qed.

Lemma trend_approved_total (reports : list Report) :
  sum_nat (map approved (trendArray reports)) = count is_approved reports.
Proof.
  unfold trendArray. rewrite map_map.
  transitivity
    (measure Bucket.approved (Object_entries (monthlyData reports))).
  - unfold measure. f_equal. apply map_ext. now intros [k b].
  - rewrite measure_entries. unfold monthlyData.
    rewrite (fold_left_ext _ (group_step trend_key (Bucket.mk 0 0 0) tally))
      by apply trend_visit_step.
    unfold trend_key.
    rewrite (weighted_fold monthKey (Bucket.mk 0 0 0) tally Bucket.approved
               (fun r => if is_approved r then 1%nat else 0%nat)).
    + simpl. apply sum_indicator.
    + reflexivity.
    + intros r [t a j]. unfold tally. simpl.
      destruct (is_approved r); lia.
Qed.

Lemma count_le_length {A : Type} (p : A -> bool) (l : list A) :
  (count p l <= List.length l)%nat.
Proof. unfold count. apply filter_length_le. Qed.

(** The approval rate is a percentage: between 0 and 100, and 0 for an
    empty or missing collection. *)
Theorem approvalRate_is_percentage (reports : option (list Report)) :
  (0 <= approvalRate_of reports <= 100)%Q
  /\ (length_or_zero reports = 0%nat -> approvalRate_of reports = 0%Q).
Proof.
  unfold approvalRate_of. split.
  - destruct (0 <? length_or_zero reports)%nat eqn:E; [|split; lra].
    apply Nat.ltb_lt in E.
    assert (Hle : (count_or_none is_approved reports
                   <= length_or_zero reports)%nat).
    { destruct reports as [l|]; simpl; [apply filter_length_le|lia]. }
    set (a := count_or_none is_approved reports) in *.
    set (t := length_or_zero reports) in *.
    assert (Ht : (0 < inject_Z (Z.of_nat t))%Q).
    { change 0%Q with (inject_Z 0). rewrite <- Zlt_Qlt. lia. }
    assert (Ha : (0 <= inject_Z (Z.of_nat a))%Q).
    { change 0%Q with (inject_Z 0). rewrite <- Zle_Qle. lia. }
    assert (Hat : (inject_Z (Z.of_nat a) <= inject_Z (Z.of_nat t))%Q).
    { rewrite <- Zle_Qle. lia. }
    assert (Hq : (0 <= inject_Z (Z.of_nat a) / inject_Z (Z.of_nat t) <= 1)%Q).
    { split.
      - apply Qle_shift_div_l; [assumption|]. lra.
      - apply Qle_shift_div_r; [assumption|]. lra. }
    split; lra.
  - intros H. now rewrite H.
Qed.

Lemma first_seen_length (l : list string) :
  (List.length (first_seen l) <= List.length l)%nat.
Proof.
  induction l as [|k t IH]; simpl; [lia|].
  pose proof (filter_length_le (fun k' => negb (String.eqb k k'))
                (first_seen t)). lia.
Qed.

(** The number of active units counts each non-empty unit name of the
    profiles query once, whatever the number of users that carry it. *)
Theorem activeSBU_counts_distinct_names (reports : option (list Report))
  (sbuUsers : option (list SbuUser)) :
  Live.activeSBU (liveData_of reports sbuUsers)
  = Z.of_nat (List.length (uniqueSBUs sbuUsers))
  /\ NoDup (uniqueSBUs sbuUsers)
  /\ (forall n, In n (uniqueSBUs sbuUsers)
                <-> n <> ""
                    /\ exists u, In u (or_empty sbuUsers)
                                 /\ user_sbu_name u = Some n)
  /\ (List.length (uniqueSBUs sbuUsers)
      <= List.length (or_empty sbuUsers))%nat.
Proof.
  split; [reflexivity|].
  destruct sbuUsers as [l|]; simpl.
  - split; [apply first_seen_NoDup|]. split.
    + intros n. rewrite first_seen_In, in_flat_map. split.
      * intros [u [Hu Hn]].
        destruct (user_sbu_name u) as [[|c s]|] eqn:E; simpl in Hn;
          try tauto.
        destruct Hn as [<-|[]]. split; [discriminate|]. now exists u.
      * intros [Hne [u [Hu Hn]]]. exists u. split; [assumption|].
        rewrite Hn. destruct n; [contradiction|now left].
    + etransitivity; [apply first_seen_length|].
      induction l as [|u l IH]; simpl; [lia|].
      rewrite length_app.
      destruct (user_sbu_name u) as [[|c s]|]; simpl; lia.
  - split; [constructor|]. split; [|lia].
    intros n. split; [intros []|]. intros [_ [u [[] _]]].
Qed.

Lemma fold_left_map {A B C : Type} (f : A -> B -> A) (g : C -> B)
  (l : list C) (a : A) :
  fold_left f (map g l) a = fold_left (fun a x => f a (g x)) l a.
Proof.
  revert a. induction l as [|x t IH]; simpl; intros a; [reflexivity|].
  apply IH.
Qed.

(** The mean score of the live figures and of the dashboard's score cards
    is 0 when no record has a score.  It counts a score of 0, which the
    leaderboard leaves out: scores 0 and 100 give 50.  On a collection
    without a zero score whose scored records all belong to one unit it
    is that unit's mean on the leaderboard. *)
Theorem averageScore_over_present_scores (reports : list Report)
  (u : string) :
  averageScore_of None = 0%float
  /\ (filter is_scored reports = [] ->
      averageScore_of (Some reports) = 0%float)
  /\ averageScore_of
       (Some [scored_sample "A" "X" 0; scored_sample "A" "X" 100])
     = 50%float
  /\ (no_zero_score reports -> u <> "" ->
      (forall r, In r reports -> is_scored r = true ->
         report_sbu_name r = Some u) ->
      filter is_scored reports <> [] ->
      averageScore_of (Some reports)
      = double_mean (unit_scores counted u reports)).
Proof.
  split; [reflexivity|]. split; [|split; [reflexivity|]].
  - intros H. unfold averageScore_of, completedWithScores. now rewrite H.
  - intros Hz Hu Hall Hne.
    assert (Hrec : unit_records counted u reports = filter is_scored reports).
    { unfold unit_records. apply filter_ext_in. intros r Hr.
      rewrite (counted_scored reports Hz r Hr).
      destruct (is_scored r) eqn:Es.
      - unfold has_unit, unit_name. rewrite (Hall r Hr Es).
        rewrite String.eqb_refl.
        destruct u; [now contradiction Hu | reflexivity].
      - now rewrite andb_false_r. }
    unfold averageScore_of, completedWithScores, double_mean, unit_scores.
    rewrite Hrec, length_map.
    destruct (filter is_scored reports) as [|r0 l] eqn:E;
      [now contradiction Hne|].
    change (0 <? List.length (r0 :: l))%nat with true. cbv iota.
    f_equal. rewrite fold_left_map. apply fold_left_ext_in.
    intros x r Hr. f_equal.
    assert (Hin : In r reports).
    { assert (H : In r (filter is_scored reports)) by now rewrite E.
      now apply filter_In in H. }
    unfold no_zero_score in Hz. rewrite forallb_forall in Hz.
    specialize (Hz r Hin). unfold or_zero, score_of.
    destruct (calculated_score r) as [q|]; [|reflexivity].
    now rewrite Hz.
Qed.

(* ================================================================= *)
(** ** fetchAnalyticsData *)

Lemma map_index_length {A B : Type} (f : A -> nat -> B) (l : list A)
  (i : nat) :
  List.length (map_index f i l) = List.length l.
Proof.
  revert i. induction l as [|x t IH]; simpl; intros i; [reflexivity|].
  now rewrite IH.
Qed.

(** [generateLeaderboardData] either completes, having drawn one number
    from [Math.random] per row it stores and written nothing but the
    leaderboard, or stores and draws nothing at all; it completes when no
    unit is named like an inherited property, with one row per unit that
    has a counted record. *)
Theorem leaderboard_draws_once_per_row (reports : list Report)
  (c : Component) :
  let c' := exec (generateLeaderboardData reports) c in
  (fst (generateLeaderboardData reports c) = Normal tt ->
   random_calls c' = (random_calls c + List.length (leaderboardData c'))%nat
   /\ random_source c' = random_source c
   /\ performanceComparisonData c' = performanceComparisonData c
   /\ trendData c' = trendData c
   /\ activityCompositionData c' = activityCompositionData c)
  /\ (fst (generateLeaderboardData reports c) <> Normal tt -> c' = c)
  /\ (plain_units reports ->
      fst (generateLeaderboardData reports c) = Normal tt
      /\ List.length (leaderboardData c')
         = List.length (units_seen counted reports)).
Proof.
  cbv zeta. split; [|split].
  - destruct (sbuScores reports) as [table|e|] eqn:E.
    + destruct (generateLeaderboardData_normal reports table c E)
        as [items [Hcore Hrun]].
      unfold exec. rewrite Hrun.
      cbn [fst snd random_calls random_source leaderboardData
        performanceComparisonData trendData activityCompositionData].
      intros _. repeat split. f_equal.
      rewrite map_index_length, (Permutation_length (Array_sort_perm _ _)).
      rewrite <- (length_map item_core), Hcore. now rewrite length_map.
    + rewrite (generateLeaderboardData_throw reports e c E).
      intros H. discriminate H.
    + rewrite (generateLeaderboardData_untracked reports c E).
      intros H. discriminate H.
  - destruct (sbuScores reports) as [table|e|] eqn:E.
    + destruct (generateLeaderboardData_normal reports table c E)
        as [items [Hcore Hrun]].
      rewrite Hrun. intros H. now contradiction H.
    + unfold exec.
      now rewrite (generateLeaderboardData_throw reports e c E).
    + unfold exec.
      now rewrite (generateLeaderboardData_untracked reports c E).
  - intros Hp. split; [exact (proj1 (leaderboard_standings reports c Hp))|].
    rewrite <- (length_map sbu), (leaderboard_units reports c Hp).
    unfold ranked_units.
    rewrite (Permutation_length (Array_sort_perm _ _)).
    apply Permutation_length, enumeration_order_perm.
Qed.

(** When one of the two queries of [fetchAnalyticsData] reports an error,
    the aggregates and the live figures stay as they were, one destructive
    toast and one console line are added, and loading ends. *)
Theorem fetch_failure_keeps_snapshot (reportsQ : QueryResult Report)
  (sbuQ : QueryResult SbuUser) (v : Analytics.t) :
  error reportsQ <> None \/ error sbuQ <> None ->
  exists v',
    fetchAnalyticsData reportsQ sbuQ v = Some v'
    /\ Analytics.component v' = Analytics.component v
    /\ Analytics.liveData v' = Analytics.liveData v
    /\ Analytics.loading v' = false
    /\ Analytics.toasts v'
       = Analytics.toasts v
         ++ [Toast.mk "Error" "Gagal memuat data analytics" "destructive"]
    /\ List.length (Analytics.console v')
       = S (List.length (Analytics.console v)).
Proof.
  intros H. unfold fetchAnalyticsData, fetchAnalyticsData_try.
  destruct (error reportsQ) as [e|].
  - eexists. split; [reflexivity|]. simpl. rewrite length_app. simpl.
    repeat split. lia.
  - destruct (error sbuQ) as [e|].
    + eexists. split; [reflexivity|]. simpl. rewrite length_app. simpl.
      repeat split. lia.
    + destruct H as [H|H]; now contradiction H.
Qed.

Lemma fetch_failure_keeps_snapshot_witness :
  let v :=
    Analytics.mk
      (mkComponent (fun _ => 0%float) 0 [] [] [mkTrendPoint "Jan" 1 0 0] [])
      false (Live.mk 1 0 0 1) [] [] in
  let reportsQ := mkQueryResult (@None (list Report)) (Some "timeout") in
  let sbuQ := mkQueryResult (Some [mkSbuUser (Some "A")]) None in
  (error reportsQ <> None \/ error sbuQ <> None)
  /\ exists v',
       fetchAnalyticsData reportsQ sbuQ v = Some v'
       /\ trendData (Analytics.component v') = [mkTrendPoint "Jan" 1 0 0].
Proof.
  cbv zeta.
  assert (H : error (mkQueryResult (@None (list Report)) (Some "timeout"))
              <> None
              \/ error (mkQueryResult (Some [mkSbuUser (Some "A")]) None)
                 <> None).
  { left. simpl. intros E. discriminate E. }
  split; [exact H|].
  destruct (fetch_failure_keeps_snapshot _ _
              (Analytics.mk
                 (mkComponent (fun _ => 0%float) 0 [] []
                    [mkTrendPoint "Jan" 1 0 0] [])
                 false (Live.mk 1 0 0 1) [] []) H) as [v' [Hrun [Hc _]]].
  exists v'. split; [exact Hrun|]. exact (f_equal trendData Hc).
Defined.

Lemma run_builder_normal (m : Effect unit) (v : Analytics.t)
  (c' : Component) :
  m (Analytics.component v) = (Normal tt, c') ->
  run_builder m v
  = Some (Done (Analytics.mk c' (Analytics.loading v) (Analytics.liveData v)
                  (Analytics.toasts v) (Analytics.console v))).
Proof. intros H. unfold run_builder. now rewrite H. Qed.


(** When both queries of [fetchAnalyticsData] succeed and no unit or
    indicator is named like an inherited property, loading ends without a
    toast and the view holds one snapshot: the four aggregates are those
    of the builders on the fetched collection (a missing collection
    counting as empty), and the number of reports of the live figures is
    the sum of the trend totals and of the composition counts. *)
Theorem fetch_success_stores_one_snapshot (reportsQ : QueryResult Report)
  (sbuQ : QueryResult SbuUser) (v : Analytics.t) :
  error reportsQ = None -> error sbuQ = None ->
  plain_units (or_empty (data reportsQ)) ->
  plain_indicators (or_empty (data reportsQ)) ->
  let reports := or_empty (data reportsQ) in
  exists v',
    fetchAnalyticsData reportsQ sbuQ v = Some v'
    /\ Analytics.loading v' = false
    /\ Analytics.toasts v' = Analytics.toasts v
    /\ Analytics.console v' = Analytics.console v
    /\ Analytics.liveData v' = liveData_of (data reportsQ) (data sbuQ)
    /\ leaderboardData (Analytics.component v')
       = leaderboardData
           (exec (generateLeaderboardData reports) (Analytics.component v))
    /\ performanceComparisonData (Analytics.component v')
       = comparisonData (performance_table counted reports)
    /\ trendData (Analytics.component v') = trendArray reports
    /\ activityCompositionData (Analytics.component v')
       = compositionArray reports
    /\ Live.totalReports (Analytics.liveData v')
       = Z.of_nat
           (sum_nat (map total_laporan (trendData (Analytics.component v'))))
    /\ Live.totalReports (Analytics.liveData v')
       = Z.of_nat
           (sum_nat
              (map (fun s => count_of (value s))
                 (activityCompositionData (Analytics.component v')))).
Proof.
  intros H1 H2 Hu Hi. cbv zeta.
  destruct (generateLeaderboardData_normal (or_empty (data reportsQ)) _
              (Analytics.component v)
              (sbuScores_table _ Hu)) as [items [Hcore Hrun]].
  unfold fetchAnalyticsData, fetchAnalyticsData_try. rewrite H1, H2.
  cbv zeta.
  rewrite (run_builder_normal _
             (setLiveData (liveData_of (data reportsQ) (data sbuQ))
                (set_loading true v)) _ Hrun).
  cbn [and_then].
  rewrite (run_builder_normal _ _ _
             (generatePerformanceData_normal _ _ Hu Hi)).
  cbn [and_then].
  eexists. split; [reflexivity|].
  cbn [set_loading setLiveData Analytics.component Analytics.loading
    Analytics.liveData Analytics.toasts Analytics.console snd
    generateTrendData generateCompositionData setTrendData
    setActivityCompositionData leaderboardData performanceComparisonData
    trendData activityCompositionData random_source random_calls].
  unfold exec. rewrite Hrun. cbn [snd leaderboardData].
  assert (Hlen : length_or_zero (data reportsQ)
                 = List.length (or_empty (data reportsQ)))
    by now destruct (data reportsQ).
  repeat (split; [reflexivity|]).
  unfold liveData_of. cbn [Live.totalReports].
  rewrite trend_totals, (composition_total _ Hi).
  split; now rewrite Hlen.
Qed.

Lemma fetch_success_stores_one_snapshot_witness :
  let reportsQ :=
    mkQueryResult
      (Some [sample (Some "A") (Some "X") (Some 80%float) "approved"
               (LocalDate 2024 January);
             sample (Some "B") (Some "X") None "queued"
               (LocalDate 2024 March)]) None in
  let sbuQ := mkQueryResult (Some [mkSbuUser (Some "A")]) None in
  let v :=
    Analytics.mk (fresh (fun _ => 0%float)) false (Live.mk 0 0 0 0) [] [] in
  error reportsQ = None /\ error sbuQ = None
  /\ plain_units (or_empty (data reportsQ))
  /\ plain_indicators (or_empty (data reportsQ))
  /\ exists v',
       fetchAnalyticsData reportsQ sbuQ v = Some v'
       /\ Analytics.loading v' = false.
Proof.
  cbv zeta. split; [reflexivity|]. split; [reflexivity|].
  split; [reflexivity|]. split; [reflexivity|].
  destruct (fetch_success_stores_one_snapshot
              (mkQueryResult
                 (Some [sample (Some "A") (Some "X") (Some 80%float)
                          "approved" (LocalDate 2024 January);
                        sample (Some "B") (Some "X") None "queued"
                          (LocalDate 2024 March)]) None)
              (mkQueryResult (Some [mkSbuUser (Some "A")]) None)
              (Analytics.mk (fresh (fun _ => 0%float)) false
                 (Live.mk 0 0 0 0) [] [])
              eq_refl eq_refl eq_refl eq_refl) as [v' [Hrun [Hl _]]].
  exists v'. split; [exact Hrun|exact Hl].
Defined.



(* ================================================================= *)
(** ** DashboardStats *)

Lemma count3_within_length {A : Type} (p q r : A -> bool) (l : list A) :
  (forall x, p x = true -> q x = false /\ r x = false) ->
  (forall x, q x = true -> r x = false) ->
  (count p l + count q l + count r l <= List.length l)%nat.
Proof.
  intros Hp Hq. unfold count. induction l as [|x t IH]; simpl; [lia|].
  destruct (p x) eqn:Ep.
  - destruct (Hp x Ep) as [-> ->]. simpl. lia.
  - destruct (q x) eqn:Eq.
    + rewrite (Hq x Eq). simpl. lia.
    + destruct (r x); simpl; lia.
Qed.

(** The counts on the dashboard cards never add up to more than the number
    of reports: pending, completed and rejected for the admin; approved and
    in-process for a unit. *)
Theorem dashboard_counts_within_total (reports : option (list Report)) :
  (pendingReports_admin reports + completedReports_admin reports
   + rejectedReports_admin reports <= length_or_zero reports)%nat
  /\ (approvedReports_sbu reports + pendingReports_sbu reports
      <= length_or_zero reports)%nat.
Proof.
  unfold pendingReports_admin, completedReports_admin, rejectedReports_admin,
    approvedReports_sbu, pendingReports_sbu.
  destruct reports as [l|]; simpl; [|lia]. split.
  - apply (count3_within_length
             (fun r => String.eqb (status r) "pending_approval")
             (fun r => String.eqb (status r) "completed") is_rejected).
    + intros r H. apply String.eqb_eq in H. unfold is_rejected.
      now rewrite H.
    + intros r H. apply String.eqb_eq in H. unfold is_rejected.
      now rewrite H.
  - assert (H : (count is_approved l
                 + count (fun r => String.eqb (status r) "pending_approval"
                                   || String.eqb (status r) "processing"
                                   || String.eqb (status r) "queued") l
                 + count (fun _ : Report => false) l
                 <= List.length l)%nat).
    { apply count3_within_length.
      - intros r Hr. split; [|reflexivity]. unfold is_approved in Hr.
        apply orb_true_iff in Hr.
        destruct Hr as [Hr|Hr]; apply String.eqb_eq in Hr; now rewrite Hr.
      - reflexivity. }
    assert (H0 : count (fun _ : Report => false) l = 0%nat).
    { unfold count. clear H. induction l as [|x t IH]; simpl;
        [reflexivity|exact IH]. }
    rewrite H0 in H. unfold count in H. lia.
Qed.

(** When a user is signed in and the queries succeed, [fetchStats] stores
    as many cards as placeholders are drawn while loading (six for the
    admin, four for a unit), ends loading and raises no toast. *)
Theorem stats_cards_match_skeleton (userRole : string) (w : StatsWorld)
  (d : Dashboard.t) :
  user w <> None ->
  error (reportsQuery w) = None ->
  (userRole = "admin" -> error (sbuQuery w) = None) ->
  let d' := fetchStats userRole w d in
  List.length (Dashboard.stats d') = skeleton_count userRole
  /\ Dashboard.loading d' = false
  /\ Dashboard.toasts d' = Dashboard.toasts d.
Proof.
  intros Hu Hr Hs. cbv zeta.
  unfold fetchStats, fetchAdminStats, fetchSBUStats, skeleton_count.
  destruct (user w); [|now contradiction Hu]. rewrite Hr.
  destruct (String.eqb_spec userRole "admin") as [Hadmin|_].
  - rewrite (Hs Hadmin). repeat split.
  - repeat split.
Qed.

Lemma stats_cards_match_skeleton_witness :
  let w :=
    mkStatsWorld (Some "user-1")
      (mkQueryResult (Some [scored_sample "A" "X" 80]) None)
      (mkQueryResult (Some ["p1"; "p2"]) None)
      Number_toString 2024 January in
  user w <> None
  /\ error (reportsQuery w) = None
  /\ ("admin" = "admin" -> error (sbuQuery w) = None)
  /\ List.length
       (Dashboard.stats (fetchStats "admin" w (Dashboard.mk [] false [] [])))
     = 6%nat.
Proof.
  cbv zeta.
  assert (Hu : user
                 (mkStatsWorld (Some "user-1")
                    (mkQueryResult (Some [scored_sample "A" "X" 80]) None)
                    (mkQueryResult (Some ["p1"; "p2"]) None)
                    Number_toString 2024 January) <> None).
  { simpl. intros E. discriminate E. }
  split; [exact Hu|]. split; [reflexivity|]. split; [reflexivity|].
  exact (proj1 (stats_cards_match_skeleton "admin" _
                  (Dashboard.mk [] false [] []) Hu eq_refl
                  (fun _ => eq_refl))).
Defined.

(** [fetchStats] always ends loading.  Without a signed-in user it stores
    nothing and stays silent; when the reports query fails it keeps the
    cards it had and raises one destructive toast. *)
Theorem fetchStats_without_data (userRole : string) (w : StatsWorld)
  (d : Dashboard.t) :
  let d' := fetchStats userRole w d in
  Dashboard.loading d' = false
  /\ (user w = None ->
      Dashboard.stats d' = Dashboard.stats d
      /\ Dashboard.toasts d' = Dashboard.toasts d
      /\ Dashboard.console d' = Dashboard.console d)
  /\ (user w <> None -> error (reportsQuery w) <> None ->
      Dashboard.stats d' = Dashboard.stats d
      /\ Dashboard.toasts d'
         = Dashboard.toasts d
           ++ [Toast.mk "Error" "Gagal memuat statistik dashboard"
                 "destructive"]).
Proof.
  cbv zeta. unfold fetchStats, fetchAdminStats, fetchSBUStats.
  split; [reflexivity|]. split.
  - intros Hu. rewrite Hu. now destruct (String.eqb userRole "admin").
  - intros Hu He. destruct (user w); [|now contradiction Hu].
    destruct (error (reportsQuery w)); [|now contradiction He].
    now destruct (String.eqb userRole "admin").
Qed.

(* ================================================================= *)
(** ** ReportsManagement *)

Lemma or_default_nonempty (x : option string) (d : string) :
  d <> "" -> or_default x d <> "".
Proof.
  intros Hd. unfold or_default.
  destruct x as [[|c s]|]; try assumption. discriminate.
Qed.

(** The listed reports are the fetched rows in the same order.  A missing
    or empty submitter name is replaced by "Unknown User" and a missing or
    empty unit by "Unknown SBU", any other name being shown as it is, so
    that no listed report lacks a submitter or a unit; the approver is the
    approver's name when it is not empty, and no approver otherwise. *)
Theorem transformed_reports_are_named (toLocaleString_id : string -> string)
  (data : option (list Fetched.t)) :
  let listed := transformedReports toLocaleString_id data in
  map Listed.id listed = map Fetched.id (or_empty data)
  /\ map Listed.status listed = map Fetched.status (or_empty data)
  /\ Forall2
       (fun x r =>
          let submitter :=
            match Fetched.profiles x with
            | Some p => full_name p
            | None => None
            end in
          let unit :=
            match Fetched.profiles x with
            | Some p => sbu_name p
            | None => None
            end in
          let approver :=
            match Fetched.approver x with
            | Some a => approver_full_name a
            | None => None
            end in
          (forall n, submitter = Some n -> n <> "" ->
             Listed.submittedBy r = n)
          /\ (submitter = None \/ submitter = Some "" ->
              Listed.submittedBy r = "Unknown User")
          /\ (forall n, unit = Some n -> n <> "" -> Listed.sbu r = n)
          /\ (unit = None \/ unit = Some "" -> Listed.sbu r = "Unknown SBU")
          /\ (forall n, approver = Some n -> n <> "" ->
                Listed.approvedBy r = Some n)
          /\ (approver = None \/ approver = Some "" ->
              Listed.approvedBy r = None)
          /\ Listed.submittedBy r <> "" /\ Listed.sbu r <> "")
       (or_empty data) listed.
Proof.
  cbv zeta. unfold transformedReports.
  split; [now rewrite map_map|]. split; [now rewrite map_map|].
  apply Forall2_map_r. intros x _. cbn [transform_report
    Listed.submittedBy Listed.sbu Listed.approvedBy].
  assert (Hd : forall (o : option string) (d : string),
            (forall n, o = Some n -> n <> "" -> or_default o d = n)
            /\ (o = None \/ o = Some "" -> or_default o d = d)).
  { intros [[|c s]|] d; split.
    - intros n Hn Hne. inversion Hn; subst. now contradiction Hne.
    - reflexivity.
    - intros n Hn _. now inversion Hn.
    - intros [H|H]; discriminate H.
    - intros n Hn. discriminate Hn.
    - reflexivity. }
  assert (Hn : forall o : option string,
            (forall n, o = Some n -> n <> "" -> or_null o = Some n)
            /\ (o = None \/ o = Some "" -> or_null o = None)).
  { intros [[|c s]|]; split.
    - intros n Hn Hne. inversion Hn; subst. now contradiction Hne.
    - reflexivity.
    - intros n Hn _. now inversion Hn.
    - intros [H|H]; discriminate H.
    - intros n Hn. discriminate Hn.
    - reflexivity. }
  split; [apply Hd|]. split; [apply Hd|]. split; [apply Hd|].
  split; [apply Hd|]. split; [apply Hn|]. split; [apply Hn|].
  split; apply or_default_nonempty; discriminate.
Qed.

(** A report is shown exactly when it passes the three filters: the search
    term is empty or occurs, lower-cased, in the lower-cased file name or
    submitter; the status filter is ["all"] or equals the status; the
    indicator filter is ["all"] or equals the indicator. *)
Theorem filteredReports_membership (toLowerCase : string -> string)
  (searchTerm statusFilter indicatorFilter : string)
  (reports : list Listed.t) (r : Listed.t) :
  In r (filteredReports toLowerCase searchTerm statusFilter indicatorFilter
          reports)
  <-> In r reports
      /\ (searchTerm = ""
          \/ includes (toLowerCase (Listed.fileName r))
               (toLowerCase searchTerm) = true
          \/ includes (toLowerCase (Listed.submittedBy r))
               (toLowerCase searchTerm) = true)
      /\ (statusFilter = "all" \/ Listed.status r = statusFilter)
      /\ (indicatorFilter = "all"
          \/ Listed.indicatorType r = Some indicatorFilter).
Proof.
  unfold filteredReports. rewrite filter_In.
  apply and_iff_compat_l. unfold report_shown.
  destruct (String.eqb_spec searchTerm "") as [Hs|Hs];
  destruct (includes (toLowerCase (Listed.fileName r))
              (toLowerCase searchTerm)) eqn:E1;
  destruct (includes (toLowerCase (Listed.submittedBy r))
              (toLowerCase searchTerm)) eqn:E2;
  destruct (String.eqb_spec statusFilter "all") as [Ht|Ht];
  destruct (String.eqb_spec (Listed.status r) statusFilter) as [Hu|Hu];
  destruct (String.eqb_spec indicatorFilter "all") as [Hi|Hi];
  destruct (Listed.indicatorType r) as [i|];
  try destruct (String.eqb_spec i indicatorFilter) as [Hj|Hj];
  simpl; split; try discriminate; try tauto;
  try (intros _; repeat split; auto; right; congruence);
  intros [H1 [H2 H3]];
  repeat match goal with
         | H : _ \/ _ |- _ => destruct H
         end; congruence.
Qed.

(** With an empty search term and both filters at ["all"] every report is
    shown. *)
Theorem filters_at_default_show_everything (toLowerCase : string -> string)
  (reports : list Listed.t) :
  filteredReports toLowerCase "" "all" "all" reports = reports.
Proof.
  unfold filteredReports. induction reports as [|r l IH]; simpl;
    [reflexivity|]. now rewrite IH.
Qed.

(** Unticking a report removes it from the selection and nothing else;
    ticking it puts it in. *)
Theorem unselect_removes_only_that_report (selectedReports : list string)
  (reportId : string) :
  ~ In reportId (handleSelectReport selectedReports reportId false)
  /\ (forall other, other <> reportId ->
        (In other (handleSelectReport selectedReports reportId false)
         <-> In other selectedReports))
  /\ In reportId (handleSelectReport selectedReports reportId true)
  /\ (forall other, In other selectedReports ->
        In other (handleSelectReport selectedReports reportId true)).
Proof.
  unfold handleSelectReport. split; [|split; [|split]].
  - rewrite filter_In. intros [_ H]. now rewrite String.eqb_refl in H.
  - intros other Hne. rewrite filter_In.
    destruct (String.eqb_spec other reportId); [contradiction|]. tauto.
  - apply in_or_app. right. now left.
  - intros other H. apply in_or_app. now left.
Qed.

(** Ticking a report that was not selected and unticking it again gives
    the selection back. *)
Theorem select_then_unselect (selectedReports : list string)
  (reportId : string) :
  ~ In reportId selectedReports ->
  handleSelectReport (handleSelectReport selectedReports reportId true)
    reportId false
  = selectedReports.
Proof.
  intros H. unfold handleSelectReport. rewrite filter_app. simpl.
  rewrite String.eqb_refl. simpl. rewrite app_nil_r.
  induction selectedReports as [|x t IH]; simpl; [reflexivity|].
  destruct (String.eqb_spec x reportId) as [->|_]; simpl.
  - exfalso. apply H. now left.
  - f_equal. apply IH. intros Hin. apply H. now right.
Qed.

Lemma select_then_unselect_witness :
  ~ In "r3" ["r1"; "r2"]
  /\ handleSelectReport (handleSelectReport ["r1"; "r2"] "r3" true) "r3" false
     = ["r1"; "r2"].
Proof.
  assert (H : ~ In "r3" ["r1"; "r2"]).
  { simpl. intros [E|[E|[]]]; discriminate E. }
  split; [exact H|]. exact (select_then_unselect ["r1"; "r2"] "r3" H).
Defined.

(** Selecting all selects the reports that pass the current filters, one
    entry per shown report, and deselecting all empties the selection. *)
Theorem select_all_selects_shown_reports (toLowerCase : string -> string)
  (searchTerm statusFilter indicatorFilter : string)
  (reports : list Listed.t) :
  let shown :=
    filteredReports toLowerCase searchTerm statusFilter indicatorFilter
      reports in
  (forall id, In id (handleSelectAll shown true)
              <-> exists r, In r reports
                            /\ report_shown toLowerCase searchTerm
                                 statusFilter indicatorFilter r = true
                            /\ Listed.id r = id)
  /\ List.length (handleSelectAll shown true) = List.length shown
  /\ handleSelectAll shown false = [].
Proof.
  cbv zeta. unfold handleSelectAll, filteredReports.
  split; [|split; [apply length_map|reflexivity]].
  intros id. rewrite in_map_iff. split.
  - intros [r [Hid Hr]]. apply filter_In in Hr. exists r. tauto.
  - intros [r [Hin [Hs Hid]]]. exists r. rewrite filter_In. tauto.
Qed.

(* ================================================================= *)
(** ** RecentActivity *)

Lemma div_positive (d k : Z) :
  (0 < k)%Z -> (0 <? d / k)%Z = (k <=? d)%Z.
Proof.
  intros Hk. destruct (Z.leb_spec k d) as [H|H].
  - apply Z.ltb_lt.
    assert (1 <= d / k)%Z by (apply Z.div_le_lower_bound; lia). lia.
  - apply Z.ltb_ge.
    assert (d / k < 1)%Z by (apply Z.div_lt_upper_bound; lia). lia.
Qed.

Lemma formatTimeAgo_by_age (getTime : string -> option Z) (now : Z)
  (dateString : string) :
  formatTimeAgo getTime now dateString
  = match getTime dateString with
    | None => "Baru saja"
    | Some t =>
        let age := (now - t)%Z in
        if (age <? 60000)%Z then "Baru saja"
        else if (age <? 3600000)%Z
        then (Z_toString (age / 60000) ++ " menit yang lalu")%string
        else if (age <? 86400000)%Z
        then (Z_toString (age / 3600000) ++ " jam yang lalu")%string
        else (Z_toString (age / 86400000) ++ " hari yang lalu")%string
    end.
Proof.
  unfold formatTimeAgo. destruct (getTime dateString) as [t|];
    [|reflexivity].
  cbv zeta. set (age := (now - t)%Z).
  unfold floor_div, positive, template.
  change (1000 * 60)%Z with 60000%Z.
  rewrite !Z.div_div by lia.
  change (60000 * (60 * 24))%Z with 86400000%Z.
  change (60000 * 60)%Z with 3600000%Z.
  rewrite !div_positive by lia.
  destruct (Z.leb_spec 86400000 age) as [H1|H1];
  destruct (Z.leb_spec 3600000 age) as [H2|H2];
  destruct (Z.leb_spec 60000 age) as [H3|H3];
  destruct (Z.ltb_spec age 60000) as [H4|H4];
  destruct (Z.ltb_spec age 3600000) as [H5|H5];
  destruct (Z.ltb_spec age 86400000) as [H6|H6];
  try lia; reflexivity.
Qed.

(** [formatTimeAgo] in closed form: an invalid date and anything less than
    a minute old, also a date in the future, read "Baru saja"; otherwise
    the age is shown in whole minutes below an hour, in whole hours below
    a day, and in whole days from there on. *)
Theorem formatTimeAgo_closed_form (getTime : string -> option Z) (now : Z)
  (dateString : string) :
  formatTimeAgo getTime now dateString
  = match getTime dateString with
    | None => "Baru saja"
    | Some t =>
        let age := (now - t)%Z in
        if (age <? 60000)%Z then "Baru saja"
        else if (age <? 3600000)%Z
        then (Z_toString (age / 60000) ++ " menit yang lalu")%string
        else if (age <? 86400000)%Z
        then (Z_toString (age / 3600000) ++ " jam yang lalu")%string
        else (Z_toString (age / 86400000) ++ " hari yang lalu")%string
    end.
Proof. apply formatTimeAgo_by_age. Qed.

(** [formatTimeAgo] never shows a zero, negative or missing count: its
    result is "Baru saja", or 1 to 59 minutes, or 1 to 23 hours, or at
    least 1 day. *)
Theorem formatTimeAgo_counts_are_positive (getTime : string -> option Z)
  (now : Z) (dateString : string) :
  formatTimeAgo getTime now dateString = "Baru saja"
  \/ (exists n, (1 <= n <= 59)%Z
                /\ formatTimeAgo getTime now dateString
                   = (Z_toString n ++ " menit yang lalu")%string)
  \/ (exists n, (1 <= n <= 23)%Z
                /\ formatTimeAgo getTime now dateString
                   = (Z_toString n ++ " jam yang lalu")%string)
  \/ (exists n, (1 <= n)%Z
                /\ formatTimeAgo getTime now dateString
                   = (Z_toString n ++ " hari yang lalu")%string).
Proof.
  rewrite formatTimeAgo_by_age.
  destruct (getTime dateString) as [t|]; [|now left].
  cbv zeta. set (age := (now - t)%Z).
  destruct (Z.ltb_spec age 60000) as [H1|H1]; [now left|].
  destruct (Z.ltb_spec age 3600000) as [H2|H2].
  { right. left. exists (age / 60000)%Z. split; [|reflexivity]. split.
    - apply Z.div_le_lower_bound; lia.
    - assert (age / 60000 < 60)%Z by (apply Z.div_lt_upper_bound; lia).
      lia. }
  destruct (Z.ltb_spec age 86400000) as [H3|H3].
  { right. right. left. exists (age / 3600000)%Z. split; [|reflexivity].
    split.
    - apply Z.div_le_lower_bound; lia.
    - assert (age / 3600000 < 24)%Z by (apply Z.div_lt_upper_bound; lia).
      lia. }
  right. right. right. exists (age / 86400000)%Z. split; [|reflexivity].
  apply Z.div_le_lower_bound; lia.
Qed.

(** The state of an activity follows the status of its report: error for
    rejected, system-rejected and failed reports, success for approved and
    completed ones, processing for queued and processing ones, pending for
    every other status; and it is filed under the unit's name, or under
    "Unknown SBU". *)
Theorem activity_state_follows_status (getTime : string -> option Z)
  (now : Z) (report : Recent.t) :
  let a := activity_of getTime now report in
  let st := Recent.status report in
  (Activity.status a = Activity.error
   <-> In st ["rejected"; "system_rejected"; "failed"])
  /\ (Activity.status a = Activity.success
      <-> In st ["approved"; "completed"])
  /\ (Activity.status a = Activity.processing
      <-> In st ["queued"; "processing"])
  /\ (Activity.type a = Activity.reject
      <-> In st ["rejected"; "system_rejected"])
  /\ (Activity.type a = Activity.approve <-> st = "approved")
  /\ Activity.id a = Recent.id report
  /\ Activity.title a = Recent.file_name report
  /\ Activity.user a <> "".
Proof.
  cbv zeta. unfold activity_of.
  assert (Hu : or_default
                 match Recent.profiles report with
                 | Some p => sbu_name p
                 | None => None
                 end "Unknown SBU" <> "")
    by (apply or_default_nonempty; discriminate).
  destruct (String.eqb_spec (Recent.status report) "queued") as [E|N1];
    [rewrite E; simpl; repeat split; try assumption; try discriminate;
     try tauto; intros H;
     repeat (destruct H as [H|H]; try discriminate H); destruct H|].
  destruct (String.eqb_spec (Recent.status report) "processing") as [E|N2];
    [rewrite E; simpl; repeat split; try assumption; try discriminate;
     try tauto; intros H;
     repeat (destruct H as [H|H]; try discriminate H); destruct H|].
  destruct (String.eqb_spec (Recent.status report) "pending_approval")
    as [E|N3];
    [rewrite E; simpl; repeat split; try assumption; try discriminate;
     try tauto; intros H;
     repeat (destruct H as [H|H]; try discriminate H); destruct H|].
  destruct (String.eqb_spec (Recent.status report) "approved") as [E|N4];
    [rewrite E; simpl; repeat split; try assumption; try discriminate;
     try tauto; intros H;
     repeat (destruct H as [H|H]; try discriminate H); destruct H|].
  destruct (String.eqb_spec (Recent.status report) "completed") as [E|N5];
    [rewrite E; simpl; repeat split; try assumption; try discriminate;
     try tauto; intros H;
     repeat (destruct H as [H|H]; try discriminate H); destruct H|].
  destruct (String.eqb_spec (Recent.status report) "rejected") as [E|N6];
    [rewrite E; simpl; repeat split; try assumption; try discriminate;
     try tauto; intros H;
     repeat (destruct H as [H|H]; try discriminate H); destruct H|].
  destruct (String.eqb_spec (Recent.status report) "system_rejected")
    as [E|N7];
    [rewrite E; simpl; repeat split; try assumption; try discriminate;
     try tauto; intros H;
     repeat (destruct H as [H|H]; try discriminate H); destruct H|].
  destruct (String.eqb_spec (Recent.status report) "failed") as [E|N8];
    [rewrite E; simpl; repeat split; try assumption; try discriminate;
     try tauto; intros H;
     repeat (destruct H as [H|H]; try discriminate H); destruct H|].
  simpl. repeat split; try assumption; try discriminate; try tauto;
    intros H; repeat (destruct H as [H|H]; try congruence); destruct H.
Qed.

(* ================================================================= *)
(** ** The trend series and the dashboard cards *)

Lemma trend_rejected_total (reports : list Report) :
  sum_nat (map rejected (trendArray reports)) = count is_rejected reports.
Proof.
  unfold trendArray. rewrite map_map.
  transitivity
    (measure Bucket.rejected (Object_entries (monthlyData reports))).
  - unfold measure. f_equal. apply map_ext. now intros [k b].
  - rewrite measure_entries. unfold monthlyData.
    rewrite (fold_left_ext _ (group_step trend_key (Bucket.mk 0 0 0) tally))
      by apply trend_visit_step.
    unfold trend_key.
    rewrite (weighted_fold monthKey (Bucket.mk 0 0 0) tally Bucket.rejected
               (fun r => if is_rejected r then 1%nat else 0%nat)).
    + simpl. apply sum_indicator.
    + reflexivity.
    + intros r [t a j]. unfold tally. simpl.
      destruct (is_approved r) eqn:Ea.
      * rewrite (approved_not_rejected r Ea). lia.
      * destruct (is_rejected r); lia.
Qed.

(** On the same collection the trend series and the dashboard cards agree:
    the totals of the buckets add up to the number of reports, their
    approved counts to the approved count of a unit's card, and their
    rejected counts to the rejected count of the admin's card. *)
Theorem trend_agrees_with_dashboard (reports : list Report) (c : Component) :
  let points := trendData (exec (generateTrendData reports) c) in
  sum_nat (map total_laporan points) = length_or_zero (Some reports)
  /\ sum_nat (map approved points) = approvedReports_sbu (Some reports)
  /\ sum_nat (map rejected points) = rejectedReports_admin (Some reports).
Proof.
  change (trendData (exec (generateTrendData reports) c))
    with (trendArray reports).
  cbv zeta. split; [apply trend_totals|].
  split; [apply trend_approved_total|apply trend_rejected_total].
Qed.
